(** * task-manager backend: ordering, reconciliation and sharing

    A shallow embedding of the Go backend's database helpers
    (package [database]), of the task-modify endpoint (package [api]) and of
    the Github pull-request fetch (package [external]), followed by the
    properties proved about them.

    Conventions.
    - A MongoDB collection is the list of its documents in storage order;
      [FindOne] and [UpdateOne] act on the first document that matches.
    - Typed collections (tasks, notes, users, calendar events) hold records
      whose fields are the struct fields of the Go types; the generic upsert
      helpers, which take [interface{}] fields and [bson.M] filters, work on
      untyped documents ([gmap string Value]).
    - A Go pointer field ([*bool], [*string], ...) is an [option].
    - [primitive.ObjectID] is the number its 12 bytes spell, [NilObjectID]
      is 0; [primitive.DateTime] is milliseconds since the Unix epoch.
    - Go's [int] values stored in [id_ordering] are mathematical integers:
      BSON widens an int32 that [$inc] pushes over its range, and the int64
      range is not reached by list positions.
    - Driver failures (a lost connection, a timeout) are outside the model:
      every database call returns its result. *)

From stdpp Require Import gmap strings list fin_maps pretty.
From Stdlib Require Import ZArith Lia Sorted Permutation Ascii String.

(** [length] is the length of a list throughout; [String.length] is written
    in full. *)
Abbreviation length := List.length.

Open Scope Z_scope.

(* ===================================================================== *)
(** * Part I. Definitions                                                  *)
(* ===================================================================== *)

(** ** Primitive types *)

Definition ObjectID := Z.
Definition NilObjectID : ObjectID := 0.
Definition DateTime := Z.

(** Go's [error]: either a driver sentinel or a message built with
    [errors.New]. *)
Inductive error :=
| ErrNoDocuments
| ErrInvalidHex
| errors_New (msg : string).

(** What a Go function of type [(T, error)] yields: a value with a nil
    error, an error, or a run-time panic (an index out of range). *)
Inductive result (A : Type) :=
| Ok (a : A)
| Err (e : error)
| Panic.
Arguments Ok {A} a.
Arguments Err {A} e.
Arguments Panic {A}.

Definition is_Err {A} (r : result A) : Prop :=
  match r with Err _ => True | _ => False end.

(** ** Package strings, for the one-byte separator the source uses *)

(** [strings.Contains(s, sep)] where [sep] is the single byte [c]. *)
Fixpoint strings_Contains (s : string) (c : ascii) : bool :=
  match s with
  | EmptyString => false
  | String a s' => if Ascii.eqb a c then true else strings_Contains s' c
  end.

(** [strings.Split(s, sep)] where [sep] is the single byte [c]: the
    segments between the occurrences of [c], one more than there are
    occurrences. *)
Fixpoint strings_Split (s : string) (c : ascii) : list string :=
  match s with
  | EmptyString => [EmptyString]
  | String a s' =>
      if Ascii.eqb a c then EmptyString :: strings_Split s' c
      else match strings_Split s' c with
           | seg :: rest => String a seg :: rest
           | [] => [String a EmptyString]
           end
  end.

(** ** database.GetEmailDomain *)

(** [Panic] is what the index expression [[1]] would do on a slice of
    length one. *)
Definition GetEmailDomain (email : string) : result string :=
  if negb (strings_Contains email "@"%char) then
    Err (errors_New "invalid email address")
  else
    match nth_error (strings_Split email "@"%char) 1 with
    | None => Panic
    | Some domain =>
        if String.eqb domain EmptyString then
          Err (errors_New "invalid email address")
        else Ok domain
    end.

(** The claim's own wording, for comparison with [GetEmailDomain]: the text
    after the first '@', cut at the following '@' or at the end. *)
Fixpoint afterFirstAt (s : string) : option string :=
  match s with
  | EmptyString => None
  | String a s' => if Ascii.eqb a "@"%char then Some s' else afterFirstAt s'
  end.

Fixpoint uptoNextAt (s : string) : string :=
  match s with
  | EmptyString => EmptyString
  | String a s' =>
      if Ascii.eqb a "@"%char then EmptyString else String a (uptoNextAt s')
  end.

Definition domainSegment (email : string) : option string :=
  match afterFirstAt email with
  | None => None
  | Some rest => Some (uptoNextAt rest)
  end.

Definition GetEmailDomain_spec (email : string) : result string :=
  match domainSegment email with
  | None => Err (errors_New "invalid email address")
  | Some seg =>
      if String.eqb seg EmptyString
      then Err (errors_New "invalid email address")
      else Ok seg
  end.

(** ** Collections *)

(** [collection.FindOne(ctx, query)]: the first document the query
    selects. *)
Definition FindOne {A : Type} (query : A -> bool) (collection : list A) : option A :=
  List.find query collection.

(** [collection.Find(ctx, query)] with no sort option. *)
Definition Find {A : Type} (query : A -> bool) (collection : list A) : list A :=
  List.filter query collection.

(** [collection.UpdateOne(ctx, query, update)]: the update is applied to
    the first match; the second component is [MatchedCount]. *)
Fixpoint UpdateOne {A : Type} (query : A -> bool) (update : A -> A)
    (collection : list A) : list A * Z :=
  match collection with
  | [] => ([], 0)
  | d :: rest =>
      if query d then (update d :: rest, 1)
      else let '(rest', n) := UpdateOne query update rest in (d :: rest', n)
  end.

(** [collection.UpdateMany(ctx, query, update)]. *)
Definition UpdateMany {A : Type} (query : A -> bool) (update : A -> A)
    (collection : list A) : list A :=
  List.map (fun d => if query d then update d else d) collection.

(** [{"field": bson.M{"$ne": true}}] on a [*bool] field: a missing or
    false field matches. *)
Definition ne_true (b : option bool) : bool :=
  match b with Some true => false | _ => true end.

(** ** Package database: the stored types *)

(** Modelled from the spec: the [SharedAccess] enumeration of package
    database, declared outside the sources. The glossary names its three
    modes; being an integer type in Go, a stored value can also be none of
    them ([SharedAccessOther]). *)
Inductive SharedAccess :=
| SharedAccessPublic
| SharedAccessDomain
| SharedAccessMeetingAttendees
| SharedAccessOther (n : Z).

Definition SharedAccess_eqb (a b : SharedAccess) : bool :=
  match a, b with
  | SharedAccessPublic, SharedAccessPublic => true
  | SharedAccessDomain, SharedAccessDomain => true
  | SharedAccessMeetingAttendees, SharedAccessMeetingAttendees => true
  | SharedAccessOther n, SharedAccessOther m => n =? m
  | _, _ => false
  end.

Record ExternalTaskStatus := {
  ETS_ExternalID : string;
  ETS_State : string;
  ETS_IsCompletedStatus : bool
}.

(** [float64] values are only copied, never computed on. *)
Definition float64 := Z.

Record ExternalTaskPriority := {
  ETP_ExternalID : string;
  ETP_Name : string;
  ETP_PriorityNormalized : float64
}.

Record Comment := {
  Comment_Body : string;
  Comment_CreatedAt : DateTime
}.

(** Modelled from the spec: the [Task], [Note], [User] and [CalendarEvent]
    structs of package database are declared outside the sources; the
    records carry the fields the source functions read, write or query,
    at the types they are used at. *)
Module Task.
Record t := mk {
  ID : ObjectID;
  UserID : ObjectID;
  IDExternal : string;
  IDOrdering : Z;
  IDTaskSection : ObjectID;
  ParentTaskID : ObjectID;
  SourceID : string;
  SourceAccountID : string;
  Title : option string;
  Body : option string;
  DueDate : option DateTime;
  TimeAllocation : option Z;
  IsCompleted : option bool;
  CompletedAt : DateTime;
  IsDeleted : option bool;
  DeletedAt : DateTime;
  HasBeenReordered : bool;
  SharedAccess : option SharedAccess;
  SharedUntil : DateTime;
  UpdatedAt : DateTime;
  PriorityNormalized : option float64;
  ExternalPriority : option ExternalTaskPriority;
  AllExternalPriorities : list ExternalTaskPriority;
  TaskNumber : option Z;
  Comments : option (list Comment);
  Status : option ExternalTaskStatus;
  PreviousStatus : option ExternalTaskStatus;
  CompletedStatus : option ExternalTaskStatus;
  AllStatuses : list ExternalTaskStatus;
  RecurringTaskTemplateID : ObjectID
}.
End Task.

Module Note.
Record t := mk {
  ID : ObjectID;
  UserID : ObjectID;
  Title : option string;
  Body : option string;
  LinkedEventID : ObjectID;
  IsDeleted : option bool;
  SharedAccess : option SharedAccess;
  SharedUntil : DateTime
}.
End Note.

Module User.
Record t := mk {
  ID : ObjectID;
  Email : string
}.
End User.

Module CalendarEvent.
Record t := mk {
  ID : ObjectID;
  UserID : ObjectID;
  AttendeeEmails : list string
}.
End CalendarEvent.

(** [*mongo.Database]: the typed collections the functions below reach
    through [GetTaskCollection], [GetNoteCollection], [GetUserCollection]
    and [GetCalendarEventCollection]. *)
Record Database := {
  tasks : list Task.t;
  notes : list Note.t;
  users : list User.t;
  calendar_events : list CalendarEvent.t
}.

Definition GetTaskCollection (db : Database) := tasks db.
Definition GetNoteCollection (db : Database) := notes db.
Definition GetUserCollection (db : Database) := users db.
Definition GetCalendarEventCollection (db : Database) := calendar_events db.

(** [mongoResult.Decode(&x)] on the typed collections. *)
Definition Decode {A : Type} (mongoResult : option A) : result A :=
  match mongoResult with
  | Some d => Ok d
  | None => Err ErrNoDocuments
  end.

(** ** database.GetUser, GetTask *)

Definition GetUser (db : Database) (userID : ObjectID) : result User.t :=
  Decode (FindOne (fun u => User.ID u =? userID) (GetUserCollection db)).

Definition FindOneWithCollection_Task (collection : list Task.t)
    (userID itemID : ObjectID) : option Task.t :=
  FindOne (fun d => (Task.ID d =? itemID) && (Task.UserID d =? userID)) collection.

Definition GetTask (db : Database) (itemID userID : ObjectID) : result Task.t :=
  Decode (FindOneWithCollection_Task (GetTaskCollection db) userID itemID).

(** ** Sharing checks *)

Definition CheckNoteSharingAccessValid (sharedAccess : option SharedAccess) : bool :=
  match sharedAccess with
  | None => true
  | Some sa =>
      if negb (SharedAccess_eqb sa SharedAccessMeetingAttendees)
         && negb (SharedAccess_eqb sa SharedAccessDomain)
         && negb (SharedAccess_eqb sa SharedAccessPublic)
      then false
      else true
  end.

Definition CheckTaskSharingAccessValid (sharedAccess : SharedAccess) : bool :=
  SharedAccess_eqb sharedAccess SharedAccessDomain
  || SharedAccess_eqb sharedAccess SharedAccessPublic.

(** [now] is the reading of [time.Now()] the query is built with. *)
Definition GetSharedTask (db : Database) (now : DateTime) (taskID : ObjectID)
    (userID : option ObjectID) : result Task.t :=
  match Decode (FindOne (fun d => (Task.ID d =? taskID)
                                  && (now <=? Task.SharedUntil d)
                                  && ne_true (Task.IsDeleted d))
                        (GetTaskCollection db)) with
  | Err e => Err e
  | Panic => Panic
  | Ok task =>
      match Task.SharedAccess task with
      | None => Err (errors_New "task is not shared")
      | Some sharedAccess =>
          if negb (SharedAccess_eqb sharedAccess SharedAccessDomain)
             && negb (SharedAccess_eqb sharedAccess SharedAccessPublic)
          then Err (errors_New "invalid shared access value")
          else if SharedAccess_eqb sharedAccess SharedAccessDomain then
            match userID with
            | None => Err (errors_New "user is not allowed to access this task")
            | Some uid =>
                match GetUser db uid with
                | Err e => Err e
                | Panic => Panic
                | Ok user =>
                    match GetUser db (Task.UserID task) with
                    | Err e => Err e
                    | Panic => Panic
                    | Ok taskOwner =>
                        match GetEmailDomain (User.Email user) with
                        | Err e => Err e
                        | Panic => Panic
                        | Ok userDomain =>
                            match GetEmailDomain (User.Email taskOwner) with
                            | Err e => Err e
                            | Panic => Panic
                            | Ok taskOwnerDomain =>
                                if negb (String.eqb userDomain taskOwnerDomain)
                                then Err (errors_New "user domain does not match task owner domain")
                                else Ok task
                            end
                        end
                    end
                end
            end
          else Ok task
      end
  end.

Definition GetSharedNote (db : Database) (now : DateTime) (itemID : ObjectID)
    : result Note.t :=
  match Decode (FindOne (fun d => (Note.ID d =? itemID)
                                  && (now <=? Note.SharedUntil d)
                                  && ne_true (Note.IsDeleted d))
                        (GetNoteCollection db)) with
  | Err e => Err e
  | Panic => Panic
  | Ok note =>
      match Note.SharedAccess note with
      | Some sa =>
          if negb (SharedAccess_eqb sa SharedAccessPublic)
          then Err (errors_New "unable to fetch note without auth")
          else Ok note
      | None => Ok note
      end
  end.

Definition GetSharedNoteWithAuth (db : Database) (now : DateTime)
    (itemID userID : ObjectID) : result Note.t :=
  match Decode (FindOne (fun d => (Note.ID d =? itemID)
                                  && (now <=? Note.SharedUntil d)
                                  && ne_true (Note.IsDeleted d))
                        (GetNoteCollection db)) with
  | Err e => Err e
  | Panic => Panic
  | Ok note =>
      match Note.SharedAccess note with
      | None => Ok note
      | Some sa =>
          if negb (SharedAccess_eqb sa SharedAccessPublic)
             && negb (Note.UserID note =? userID)
          then
            if negb (CheckNoteSharingAccessValid (Note.SharedAccess note))
            then Err (errors_New "invalid shared access value")
            else
              match GetUser db userID with
              | Err e => Err e
              | Panic => Panic
              | Ok user =>
                  if SharedAccess_eqb sa SharedAccessDomain then
                    match GetUser db (Note.UserID note) with
                    | Err e => Err e
                    | Panic => Panic
                    | Ok noteOwner =>
                        match GetEmailDomain (User.Email user) with
                        | Err e => Err e
                        | Panic => Panic
                        | Ok userDomain =>
                            match GetEmailDomain (User.Email noteOwner) with
                            | Err e => Err e
                            | Panic => Panic
                            | Ok noteOwnerDomain =>
                                if negb (String.eqb userDomain noteOwnerDomain)
                                then Err (errors_New "user domain does not match note owner domain")
                                else Ok note
                            end
                        end
                    end
                  else if SharedAccess_eqb sa SharedAccessMeetingAttendees then
                    if Note.LinkedEventID note =? NilObjectID
                    then Err (errors_New "linked event required for note's shared access type")
                    else
                      match Decode (FindOne (fun d => CalendarEvent.ID d =? Note.LinkedEventID note)
                                            (GetCalendarEventCollection db)) with
                      | Err e => Err e
                      | Panic => Panic
                      | Ok event =>
                          if List.existsb (fun attendeeEmail => String.eqb (User.Email user) attendeeEmail)
                                          (CalendarEvent.AttendeeEmails event)
                          then Ok note
                          else Err (errors_New "user not found in list of attendees")
                      end
                  else Ok note
              end
          else Ok note
      end
  end.

(** ** Ordering IDs *)

(** [options.Find().SetSort(bson.M{"id_ordering": 1})]: ascending on the
    key. Documents with equal keys stay in storage order (the server leaves
    their order open; nothing below depends on how ties fall, except where
    a statement names the list this sort returns). *)
Fixpoint insert_by {A : Type} (key : A -> Z) (x : A) (l : list A) : list A :=
  match l with
  | [] => [x]
  | y :: l' => if key x <=? key y then x :: l else y :: insert_by key x l'
  end.

Definition sort_by {A : Type} (key : A -> Z) (l : list A) : list A :=
  List.fold_right (insert_by key) [] l.

(** A collection whose documents carry [_id], [user_id] and [id_ordering],
    which is all [AdjustOrderingIDsForCollection] asks of the
    [*mongo.Collection] it is given. [doc_set_IDOrdering] is
    [$set: {"id_ordering": z}]; the laws say that it writes that field
    and no other. *)
Class Reorderable (A : Type) := {
  doc_ID : A -> ObjectID;
  doc_UserID : A -> ObjectID;
  doc_IDOrdering : A -> Z;
  doc_set_IDOrdering : Z -> A -> A;
  doc_set_ID : forall z d, doc_ID (doc_set_IDOrdering z d) = doc_ID d;
  doc_set_UserID : forall z d, doc_UserID (doc_set_IDOrdering z d) = doc_UserID d;
  doc_set_get : forall z d, doc_IDOrdering (doc_set_IDOrdering z d) = z;
  doc_set_same : forall d, doc_set_IDOrdering (doc_IDOrdering d) d = d
}.

(** [$inc: {"id_ordering": 1}]. *)
Definition inc_IDOrdering {A : Type} `{Reorderable A} (d : A) : A :=
  doc_set_IDOrdering (doc_IDOrdering d + 1) d.

Record ReorderableSubmodel := {
  RS_ID : ObjectID;
  RS_IDOrdering : Z
}.

(** [cursor.All(ctx, &items)] into [[]ReorderableSubmodel]. *)
Definition decode_ReorderableSubmodel {A : Type} `{Reorderable A} (d : A)
    : ReorderableSubmodel :=
  {| RS_ID := doc_ID d; RS_IDOrdering := doc_IDOrdering d |}.

(** The loop that closes [AdjustOrderingIDsForCollection]
    ([for index, item := range items]). *)
Fixpoint AdjustOrderingIDs_normalize {A : Type} `{Reorderable A}
    (userID : ObjectID) (index : Z) (items : list ReorderableSubmodel)
    (collection : list A) : list A :=
  match items with
  | [] => collection
  | item :: rest =>
      let newIDOrdering := index + 1 in
      let collection' :=
        if negb (RS_IDOrdering item =? newIDOrdering) then
          fst (UpdateOne (fun d => (doc_ID d =? RS_ID item) && (doc_UserID d =? userID))
                         (doc_set_IDOrdering newIDOrdering) collection)
        else collection in
      AdjustOrderingIDs_normalize userID (index + 1) rest collection'
  end.

(** [collection.Find(ctx, query, options)] with the sort on
    [id_ordering]. *)
Definition itemsSorted {A : Type} `{Reorderable A} (query : A -> bool)
    (collection : list A) : list A :=
  sort_by doc_IDOrdering (Find query collection).

(** The items the normalizing pass reads: the user's documents in
    ascending [id_ordering]. *)
Definition userItemsSorted {A : Type} `{Reorderable A} (userID : ObjectID)
    (collection : list A) : list A :=
  itemsSorted (fun d => doc_UserID d =? userID) collection.

(** The second half of [AdjustOrderingIDsForCollection], from
    [// Normalize ordering IDs] on: the renumbering pass. *)
Definition normalizeOrderingIDs {A : Type} `{Reorderable A}
    (collection : list A) (userID : ObjectID) : list A :=
  let items := List.map decode_ReorderableSubmodel (userItemsSorted userID collection) in
  AdjustOrderingIDs_normalize userID 0 items collection.

Definition AdjustOrderingIDsForCollection {A : Type} `{Reorderable A}
    (collection : list A) (userID itemID : ObjectID) (orderingID : Z) : list A :=
  let collection1 :=
    UpdateMany (fun d => negb (doc_ID d =? itemID)
                         && (doc_UserID d =? userID)
                         && (orderingID <=? doc_IDOrdering d))
               inc_IDOrdering collection in
  normalizeOrderingIDs collection1 userID.

(** Tasks are such documents. *)
Definition Task_set_IDOrdering (z : Z) (d : Task.t) : Task.t :=
  Task.mk (Task.ID d) (Task.UserID d) (Task.IDExternal d) z
    (Task.IDTaskSection d) (Task.ParentTaskID d) (Task.SourceID d)
    (Task.SourceAccountID d) (Task.Title d) (Task.Body d) (Task.DueDate d)
    (Task.TimeAllocation d) (Task.IsCompleted d) (Task.CompletedAt d)
    (Task.IsDeleted d) (Task.DeletedAt d) (Task.HasBeenReordered d)
    (Task.SharedAccess d) (Task.SharedUntil d) (Task.UpdatedAt d)
    (Task.PriorityNormalized d) (Task.ExternalPriority d)
    (Task.AllExternalPriorities d) (Task.TaskNumber d) (Task.Comments d)
    (Task.Status d) (Task.PreviousStatus d) (Task.CompletedStatus d)
    (Task.AllStatuses d) (Task.RecurringTaskTemplateID d).

#[export] Instance Task_Reorderable : Reorderable Task.t.
Proof.
  refine {| doc_ID := Task.ID; doc_UserID := Task.UserID;
            doc_IDOrdering := Task.IDOrdering;
            doc_set_IDOrdering := Task_set_IDOrdering |};
    intros; try reflexivity.
  destruct d; reflexivity.
Defined.

(** A small collection of the kind the function is also used on (views,
    task sections): nothing but the three fields and a name. *)
Module View.
Record t := mk {
  ID : ObjectID;
  UserID : ObjectID;
  IDOrdering : Z;
  Type_ : string
}.
End View.

#[export] Instance View_Reorderable : Reorderable View.t.
Proof.
  refine {| doc_ID := View.ID; doc_UserID := View.UserID;
            doc_IDOrdering := View.IDOrdering;
            doc_set_IDOrdering := fun z d =>
              View.mk (View.ID d) (View.UserID d) z (View.Type_ d) |};
    intros; try reflexivity.
  destruct d; reflexivity.
Defined.

(** The values [start, start+1, ...], [n] of them. *)
Fixpoint consecutive_from (start : Z) (n : nat) : list Z :=
  match n with
  | O => []
  | S n' => start :: consecutive_from (start + 1) n'
  end.

(** Position of [i] in a list of IDs, counted from 0. *)
Fixpoint rank_of (i : ObjectID) (ids : list ObjectID) : option Z :=
  match ids with
  | [] => None
  | j :: rest => if j =? i then Some 0 else option_map Z.succ (rank_of i rest)
  end.

(** What a renumbering pass over the documents listed in [ids] makes of a
    document: its position in the list, counted from [index + 1]. *)
Definition renumbered {A : Type} `{Reorderable A} (index : Z)
    (ids : list ObjectID) (d : A) : A :=
  match rank_of (doc_ID d) ids with
  | Some j => doc_set_IDOrdering (index + j + 1) d
  | None => d
  end.

(** The shape shared by the renumbering loops: [sel i] is the query that
    selects the document of the item with ID [i]. *)
Fixpoint renumber_loop {A : Type} `{Reorderable A} (sel : ObjectID -> A -> bool)
    (index : Z) (items : list (ObjectID * Z)) (collection : list A) : list A :=
  match items with
  | [] => collection
  | (i, o) :: rest =>
      let collection' :=
        if negb (o =? index + 1) then
          fst (UpdateOne (sel i) (doc_set_IDOrdering (index + 1)) collection)
        else collection in
      renumber_loop sel (index + 1) rest collection'
  end.

(** ** Untyped values, responses and identifiers *)

(** The BSON and JSON scalars that occur in queries, updates and response
    bodies; [VOpaque] stands for a nested value (an array of comments) that
    is stored and returned but never looked into. *)
Inductive Value :=
| VStr (s : string)
| VOid (o : ObjectID)
| VInt (z : Z)
| VBool (b : bool)
| VTime (t : DateTime)
| VOpaque (n : Z).

(** What a handler writes to its [*gin.Context]: [c.JSON(code, gin.H{...})],
    or the write of one of the helpers [Handle404] and [Handle500], which
    are declared outside the sources. *)
Inductive Response :=
| JSON (code : Z) (h : list (string * Value))
| Handle404
| Handle500.

Definition detail (code : Z) (msg : string) : Response :=
  JSON code [("detail"%string, VStr msg)].

(** [primitive.ObjectIDFromHex]: 24 hexadecimal digits, of either case. *)
Definition hexDigit (a : ascii) : option Z :=
  let n := Z.of_nat (nat_of_ascii a) in
  if (48 <=? n) && (n <=? 57) then Some (n - 48)
  else if (97 <=? n) && (n <=? 102) then Some (n - 87)
  else if (65 <=? n) && (n <=? 70) then Some (n - 55)
  else None.

Fixpoint hexValue (s : string) (acc : Z) : option Z :=
  match s with
  | EmptyString => Some acc
  | String a s' =>
      match hexDigit a with
      | Some v => hexValue s' (16 * acc + v)
      | None => None
      end
  end.

Definition ObjectIDFromHex (s : string) : result ObjectID :=
  if negb (Nat.eqb (String.length s) 24) then Err ErrInvalidHex
  else match hexValue s 0 with
       | Some v => Ok v
       | None => Err ErrInvalidHex
       end.

(** ** Package constants and external, as far as the handler uses them *)

(** Modelled from the spec: the identifier of the built-in General Task
    source ([external.TASK_SOURCE_ID_GT_TASK]) is declared outside the
    sources; nothing below depends on its spelling. *)
Definition TASK_SOURCE_ID_GT_TASK : string := "gt_task".

(** Modelled from the spec: the request spellings of the shared-access
    modes ([constants.StringSharedAccessPublic] and
    [constants.StringSharedAccessDomain]), which the glossary gives as
    [public] and [domain]. *)
Definition StringSharedAccessPublic : string := "public".
Definition StringSharedAccessDomain : string := "domain".

(** Modelled from the spec: [constants.IDTaskSectionDefault], declared
    outside the sources; the settings test meets it as
    [000000000000000000000001]. *)
Definition IDTaskSectionDefault : ObjectID := 1.

Definition NANOSECONDS_IN_SECOND : Z := 1000000000.

(** Go's [int64] arithmetic wraps around. *)
Definition wrap64 (z : Z) : Z := (z + 2 ^ 63) mod 2 ^ 64 - 2 ^ 63.

(** ** Package api: the request body of [TaskModify] *)

Definition isnil {A : Type} (p : option A) : bool :=
  match p with None => true | Some _ => false end.

Module TaskChangeable.
Record t := mk {
  ExternalPriority : option ExternalTaskPriority;
  PriorityNormalized : option float64;
  TaskNumber : option Z;
  Comments : option (list Comment);
  Status : option ExternalTaskStatus;
  PreviousStatus : option ExternalTaskStatus;
  CompletedStatus : option ExternalTaskStatus;
  RecurringTaskTemplateID : option string
}.
Definition zero : t := mk None None None None None None None None.
(** [x == (TaskChangeable{})]: every pointer nil. *)
Definition isZero (x : t) : bool :=
  isnil (ExternalPriority x) && isnil (PriorityNormalized x)
  && isnil (TaskNumber x) && isnil (Comments x) && isnil (Status x)
  && isnil (PreviousStatus x) && isnil (CompletedStatus x)
  && isnil (RecurringTaskTemplateID x).
Definition set_CompletedStatus (v : option ExternalTaskStatus) (x : t) : t :=
  mk (ExternalPriority x) (PriorityNormalized x) (TaskNumber x) (Comments x)
     (Status x) (PreviousStatus x) v (RecurringTaskTemplateID x).
Definition set_Priority (ep : option ExternalTaskPriority) (pn : option float64) (x : t) : t :=
  mk ep pn (TaskNumber x) (Comments x)
     (Status x) (PreviousStatus x) (CompletedStatus x) (RecurringTaskTemplateID x).
End TaskChangeable.

Module TaskItemChangeableFields.
Record t := mk {
  Task_ : TaskChangeable.t;
  Title : option string;
  Body : option string;
  DueDate : option string;
  TimeAllocation : option Z;
  IsCompleted : option bool;
  CompletedAt : DateTime;
  IsDeleted : option bool;
  DeletedAt : DateTime;
  SharedAccess : option string;
  SharedUntil : DateTime
}.
Definition zero : t :=
  mk TaskChangeable.zero None None None None None 0 None 0 None 0.
(** [x == (TaskItemChangeableFields{})]. *)
Definition isZero (x : t) : bool :=
  TaskChangeable.isZero (Task_ x) && isnil (Title x) && isnil (Body x)
  && isnil (DueDate x) && isnil (TimeAllocation x) && isnil (IsCompleted x)
  && (CompletedAt x =? 0) && isnil (IsDeleted x) && (DeletedAt x =? 0)
  && isnil (SharedAccess x) && (SharedUntil x =? 0).
Definition set_Task (v : TaskChangeable.t) (x : t) : t :=
  mk v (Title x) (Body x) (DueDate x) (TimeAllocation x) (IsCompleted x)
     (CompletedAt x) (IsDeleted x) (DeletedAt x) (SharedAccess x) (SharedUntil x).
Definition set_TimeAllocation (v : option Z) (x : t) : t :=
  mk (Task_ x) (Title x) (Body x) (DueDate x) v (IsCompleted x)
     (CompletedAt x) (IsDeleted x) (DeletedAt x) (SharedAccess x) (SharedUntil x).
Definition set_IsCompleted (v : option bool) (x : t) : t :=
  mk (Task_ x) (Title x) (Body x) (DueDate x) (TimeAllocation x) v
     (CompletedAt x) (IsDeleted x) (DeletedAt x) (SharedAccess x) (SharedUntil x).
Definition set_CompletedAt (v : DateTime) (x : t) : t :=
  mk (Task_ x) (Title x) (Body x) (DueDate x) (TimeAllocation x) (IsCompleted x)
     v (IsDeleted x) (DeletedAt x) (SharedAccess x) (SharedUntil x).
Definition set_DeletedAt (v : DateTime) (x : t) : t :=
  mk (Task_ x) (Title x) (Body x) (DueDate x) (TimeAllocation x) (IsCompleted x)
     (CompletedAt x) (IsDeleted x) v (SharedAccess x) (SharedUntil x).
End TaskItemChangeableFields.

Module TaskModifyParams.
Record t := mk {
  IDOrdering : option Z;
  IDTaskSection : option string;
  Fields : TaskItemChangeableFields.t
}.
(** [modifyParams == (TaskModifyParams{})]. *)
Definition isZero (x : t) : bool :=
  isnil (IDOrdering x) && isnil (IDTaskSection x)
  && TaskItemChangeableFields.isZero (Fields x).
End TaskModifyParams.

(** What the handler takes from its [*gin.Context]: the path parameter,
    the outcome of [c.BindJSON] and the user the middleware put there. *)
Record Request := {
  Param_task_id : string;
  BindJSON : result TaskModifyParams.t;
  UserIDFromContext : ObjectID
}.

(** [external.TaskSourceResult], as far as the handler uses it: whether
    tasks of the source can be completed, and the source's [ModifyTask],
    an external call that is handed the database and a pointer to the
    update, may write to both, and returns an error or nil. *)
Record TaskSourceResult := {
  Details_IsCompletable : bool;
  Source_ModifyTask :
    Database -> ObjectID -> string -> string -> Task.t -> Task.t ->
    Database * Task.t * option error
}.

(** The receiver [api *API] and the library calls whose code is not part of
    the repository: the external configuration, the owner lookup
    [getValidExternalOwnerAssignedTask] (declared outside the sources), the
    two [time.Parse] layouts the handler tries, and the BSON encoding of a
    [database.Task] passed to [$set], which depends on the struct tags of a
    type declared outside the sources. *)
Record API := {
  ExternalConfig_GetSourceResult : string -> result TaskSourceResult;
  getValidExternalOwnerAssignedTask :
    Database -> ObjectID -> string -> result (User.t * string);
  time_Parse_YEAR_MONTH_DAY : string -> result DateTime;
  time_Parse_RFC3339 : string -> result DateTime;
  bson_set_Task : Task.t -> Task.t -> Task.t
}.

(** A call of a source's [ModifyTask]: source account and external ID. *)
Record ExternalCall := {
  call_accountID : string;
  call_issueID : string
}.

(** What a run of the handler leaves behind: the writes to the context in
    order, the database, and the external calls made. *)
Record Outcome := {
  responses : list Response;
  db_after : Database;
  external_calls : list ExternalCall
}.

Definition set_tasks (ts : list Task.t) (db : Database) : Database :=
  {| tasks := ts; notes := notes db; users := users db;
     calendar_events := calendar_events db |}.

(** ** api.ValidateFields *)

(** [for _, status := range task.AllStatuses]: the last status with the
    requested external ID. *)
Definition findStatus (externalID : string) (allStatuses : list ExternalTaskStatus)
    : option ExternalTaskStatus :=
  List.fold_left
    (fun statusToUpdateTo status =>
       if String.eqb (ETS_ExternalID status) externalID then Some status
       else statusToUpdateTo)
    allStatuses None.

(** [for _, priority := range task.AllExternalPriorities]: the loop
    compares against the priority it has last stored in [updateFields]. *)
Definition matchPriority (requested : ExternalTaskPriority)
    (pn : option float64) (all : list ExternalTaskPriority)
    : ExternalTaskPriority * option float64 * bool :=
  List.fold_left
    (fun '(current, pn, matched) priority =>
       if String.eqb (ETP_ExternalID current) (ETP_ExternalID priority)
       then (priority, Some (ETP_PriorityNormalized priority), true)
       else (current, pn, matched))
    all (requested, pn, false).

(** The block under [if updateFields.Task.Status != nil]. *)
Definition ValidateFields_status (updateFields : TaskItemChangeableFields.t)
    (task : Task.t) : Response + TaskItemChangeableFields.t :=
  match TaskChangeable.Status (TaskItemChangeableFields.Task_ updateFields) with
  | None => inr updateFields
  | Some requested =>
      match findStatus (ETS_ExternalID requested) (Task.AllStatuses task) with
      | None => inl (detail 400 "status value not in all status field for task")
      | Some statusToUpdateTo =>
          let f1 :=
            if ETS_IsCompletedStatus statusToUpdateTo
            then TaskItemChangeableFields.set_Task
                   (TaskChangeable.set_CompletedStatus (Some statusToUpdateTo)
                      (TaskItemChangeableFields.Task_ updateFields))
                   updateFields
            else updateFields in
          let f2 :=
            match Task.IsCompleted task with
            | Some taskIsCompleted =>
                if (taskIsCompleted && negb (ETS_IsCompletedStatus statusToUpdateTo))
                   || (negb taskIsCompleted && ETS_IsCompletedStatus statusToUpdateTo)
                then TaskItemChangeableFields.set_IsCompleted
                       (Some (ETS_IsCompletedStatus statusToUpdateTo)) f1
                else f1
            | None => f1
            end in
          inr f2
      end
  end.

(** The two time stamps: [CompletedAt] and [DeletedAt]. *)
Definition ValidateFields_stamps (now : DateTime)
    (updateFields : TaskItemChangeableFields.t) : TaskItemChangeableFields.t :=
  let f3 :=
    match TaskItemChangeableFields.IsCompleted updateFields with
    | Some true => TaskItemChangeableFields.set_CompletedAt now updateFields
    | _ => updateFields
    end in
  match TaskItemChangeableFields.IsDeleted f3 with
  | Some true => TaskItemChangeableFields.set_DeletedAt now f3
  | _ => f3
  end.

(** The block under [if updateFields.TimeAllocation != nil]. *)
Definition ValidateFields_timeAllocation (updateFields : TaskItemChangeableFields.t)
    : Response + TaskItemChangeableFields.t :=
  match TaskItemChangeableFields.TimeAllocation updateFields with
  | None => inr updateFields
  | Some timeAllocation =>
      if timeAllocation <? 0
      then inl (detail 400 "time duration cannot be negative")
      else inr (TaskItemChangeableFields.set_TimeAllocation
                  (Some (wrap64 (timeAllocation * NANOSECONDS_IN_SECOND))) updateFields)
  end.

(** The block under [if updateFields.Task.ExternalPriority != nil]. *)
Definition ValidateFields_priority (updateFields : TaskItemChangeableFields.t)
    (task : Task.t) : Response + TaskItemChangeableFields.t :=
  match TaskChangeable.ExternalPriority (TaskItemChangeableFields.Task_ updateFields) with
  | None => inr updateFields
  | Some requested =>
      let '(priority, pn, matched) :=
        matchPriority requested
          (TaskChangeable.PriorityNormalized (TaskItemChangeableFields.Task_ updateFields))
          (Task.AllExternalPriorities task) in
      if negb matched
      then inl (detail 400 "priority value not valid for task")
      else inr (TaskItemChangeableFields.set_Task
                  (TaskChangeable.set_Priority (Some priority) pn
                     (TaskItemChangeableFields.Task_ updateFields))
                  updateFields)
  end.

(** The result is the response written when the function returns [false],
    and the fields as the function leaves them when it returns [true]. *)
Definition ValidateFields (now : DateTime)
    (updateFields : TaskItemChangeableFields.t)
    (taskSourceResult : TaskSourceResult) (task : Task.t)
    : Response + TaskItemChangeableFields.t :=
  let isTaskDeletedInRequest :=
    match TaskItemChangeableFields.IsDeleted updateFields with
    | None => true
    | Some b => b
    end in
  let isTaskDeletedInDb :=
    match Task.IsDeleted task with Some b => b | None => false end in
  let isTaskDeleted := isTaskDeletedInRequest && isTaskDeletedInDb in
  if match TaskItemChangeableFields.IsCompleted updateFields with
     | Some true => negb (Details_IsCompletable taskSourceResult) || isTaskDeleted
     | _ => false
     end
  then inl (detail 400 "cannot be marked done")
  else
    match ValidateFields_status updateFields task with
    | inl r => inl r
    | inr f2 =>
        let f4 := ValidateFields_stamps now f2 in
        if match TaskItemChangeableFields.Title f4 with
           | Some title => String.eqb title EmptyString
           | None => false
           end
        then inl (detail 400 "title cannot be empty")
        else
          match ValidateFields_timeAllocation f4 with
          | inl r => inl r
          | inr f5 => ValidateFields_priority f5 task
          end
    end.

(** ** api.ReOrderTask *)

(** [$set] of the [bson.M] that [ReOrderTask] builds:
    [has_been_reordered], and [id_ordering] and [id_task_section] when the
    request carries them. *)
Definition ReOrderTask_set (IDOrdering : option Z) (IDTaskSection : option ObjectID)
    (d : Task.t) : Task.t :=
  Task.mk (Task.ID d) (Task.UserID d) (Task.IDExternal d)
    (match IDOrdering with Some k => k | None => Task.IDOrdering d end)
    (match IDTaskSection with Some s => s | None => Task.IDTaskSection d end)
    (Task.ParentTaskID d) (Task.SourceID d)
    (Task.SourceAccountID d) (Task.Title d) (Task.Body d) (Task.DueDate d)
    (Task.TimeAllocation d) (Task.IsCompleted d) (Task.CompletedAt d)
    (Task.IsDeleted d) (Task.DeletedAt d) true
    (Task.SharedAccess d) (Task.SharedUntil d) (Task.UpdatedAt d)
    (Task.PriorityNormalized d) (Task.ExternalPriority d)
    (Task.AllExternalPriorities d) (Task.TaskNumber d) (Task.Comments d)
    (Task.Status d) (Task.PreviousStatus d) (Task.CompletedStatus d)
    (Task.AllStatuses d) (Task.RecurringTaskTemplateID d).

(** [dbQuery]: the tasks that are moved back. *)
Definition ReOrderTask_dbQuery (taskID userID : ObjectID) (k : Z)
    (IDTaskSection : ObjectID) (task : Task.t) (d : Task.t) : bool :=
  negb (Task.ID d =? taskID)
  && ne_true (Task.IsDeleted d)
  && (k <=? Task.IDOrdering d)
  && (Task.UserID d =? userID)
  && (if negb (Task.ParentTaskID task =? NilObjectID)
      then Task.ParentTaskID d =? Task.ParentTaskID task
      else (Task.IDTaskSection d =? IDTaskSection)
           && ne_true (Task.IsCompleted d)).

(** [taskQuery]: the tasks whose ordering IDs are then renumbered. *)
Definition ReOrderTask_taskQuery (userID : ObjectID)
    (IDTaskSection : ObjectID) (task : Task.t) (d : Task.t) : bool :=
  (Task.UserID d =? userID)
  && ne_true (Task.IsDeleted d)
  && (if negb (Task.ParentTaskID task =? NilObjectID)
      then Task.ParentTaskID d =? Task.ParentTaskID task
      else (Task.IDTaskSection d =? IDTaskSection)
           && ne_true (Task.IsCompleted d)).

(** Modelled from the spec: [TaskResult] and [taskListToTaskResultList]
    are declared outside the sources. The result list has one entry per
    task of the query, in the order the query returned them, with the
    task's ID and ordering ID. *)
Record TaskResult := {
  TR_ID : ObjectID;
  TR_IDOrdering : Z
}.

Definition taskListToTaskResultList (tasks : list Task.t) (userID : ObjectID)
    : list TaskResult :=
  List.map (fun d => {| TR_ID := Task.ID d; TR_IDOrdering := Task.IDOrdering d |}) tasks.

Definition getTaskResultsFromQuery (db : Database) (taskQuery : Task.t -> bool)
    (userID : ObjectID) : list TaskResult :=
  let tasks := sort_by Task.IDOrdering (Find taskQuery (GetTaskCollection db)) in
  taskListToTaskResultList tasks userID.

(** Modelled from the spec: [updateOrderingIDsV2] is declared outside the
    sources. The glossary has the ordering IDs "renumbered to remove
    gaps": the pass gives the listed tasks, in the order of the list, the
    values 1, 2, ..., writing a task's [id_ordering] (selected by [_id])
    when it differs. *)
Fixpoint updateOrderingIDsV2_from (orderingID : Z) (tasks : list TaskResult)
    (collection : list Task.t) : list Task.t :=
  match tasks with
  | [] => collection
  | task :: rest =>
      let collection' :=
        if negb (TR_IDOrdering task =? orderingID) then
          fst (UpdateOne (fun d => Task.ID d =? TR_ID task)
                         (Task_set_IDOrdering orderingID) collection)
        else collection in
      updateOrderingIDsV2_from (orderingID + 1) rest collection'
  end.

Definition updateOrderingIDsV2 (db : Database) (tasks : list TaskResult) : Database :=
  set_tasks (updateOrderingIDsV2_from 1 tasks (GetTaskCollection db)) db.

(** The first two writes of [ReOrderTask]: the moved task is set, the
    others of its scope are moved back. [None] is the early return on a
    task that is not found; the renumbering has not run yet. *)
Definition ReOrderTask_shift (db : Database) (taskID userID : ObjectID)
    (IDOrdering : option Z) (IDTaskSectionHex : option string) (task : Task.t)
    : option Database :=
  let taskCollection := GetTaskCollection db in
  let sectionUpdate :=
    match IDTaskSectionHex with
    | Some hex => Some (match ObjectIDFromHex hex with Ok s => s | _ => NilObjectID end)
    | None => None
    end in
  let IDTaskSection :=
    match sectionUpdate with Some s => s | None => Task.IDTaskSection task end in
  let '(collection1, matchedCount) :=
    UpdateOne (fun d => (Task.ID d =? taskID) && (Task.UserID d =? userID))
              (ReOrderTask_set IDOrdering sectionUpdate) taskCollection in
  if negb (matchedCount =? 1) then None
  else
    match IDOrdering with
    | None => Some (set_tasks collection1 db)
    | Some k =>
        Some (set_tasks
                (UpdateMany (ReOrderTask_dbQuery taskID userID k IDTaskSection task)
                            inc_IDOrdering collection1)
                db)
    end.

(** The database the function leaves, the response it writes if any, and
    the error it returns. *)
Definition ReOrderTask (db : Database) (taskID userID : ObjectID)
    (IDOrdering : option Z) (IDTaskSectionHex : option string) (task : Task.t)
    : Database * list Response * option error :=
  match ReOrderTask_shift db taskID userID IDOrdering IDTaskSectionHex task with
  | None =>
      (* the set of the moved task has been tried and matched nothing *)
      (db, [Handle404], Some (errors_New "task not found"))
  | Some db1 =>
      match IDOrdering with
      | None => (db1, [], None)
      | Some _ =>
          let IDTaskSection :=
            match IDTaskSectionHex with
            | Some hex => match ObjectIDFromHex hex with Ok s => s | _ => NilObjectID end
            | None => Task.IDTaskSection task
            end in
          let taskQuery := ReOrderTask_taskQuery userID IDTaskSection task in
          let taskResults := getTaskResultsFromQuery db1 taskQuery userID in
          (updateOrderingIDsV2 db1 taskResults, [], None)
      end
  end.

(** ** api.UpdateTaskInDB and api.TaskModify *)

(** The [database.Task] literal [updateTask] of the handler, with the
    fields it receives before the external call. *)
Definition TaskModify_updateTask (now : DateTime)
    (f : TaskItemChangeableFields.t) (dueDate : option DateTime)
    (recurringTaskTemplateID : ObjectID) (sharedAccess : option SharedAccess)
    : Task.t :=
  let tc := TaskItemChangeableFields.Task_ f in
  Task.mk NilObjectID NilObjectID EmptyString 0 NilObjectID NilObjectID
    EmptyString EmptyString
    (TaskItemChangeableFields.Title f) (TaskItemChangeableFields.Body f)
    dueDate (TaskItemChangeableFields.TimeAllocation f)
    (TaskItemChangeableFields.IsCompleted f) (TaskItemChangeableFields.CompletedAt f)
    (TaskItemChangeableFields.IsDeleted f) (TaskItemChangeableFields.DeletedAt f)
    false sharedAccess (TaskItemChangeableFields.SharedUntil f) now
    (TaskChangeable.PriorityNormalized tc) (TaskChangeable.ExternalPriority tc)
    [] (TaskChangeable.TaskNumber tc) (TaskChangeable.Comments tc)
    (TaskChangeable.Status tc) (TaskChangeable.PreviousStatus tc)
    (TaskChangeable.CompletedStatus tc) [] recurringTaskTemplateID.

(** [updateTask.UserID], [.IDTaskSection] and [.Title] assigned. *)
Definition Task_set_assignee (userID section : ObjectID) (title : option string)
    (d : Task.t) : Task.t :=
  Task.mk (Task.ID d) userID (Task.IDExternal d) (Task.IDOrdering d)
    section (Task.ParentTaskID d) (Task.SourceID d)
    (Task.SourceAccountID d) title (Task.Body d) (Task.DueDate d)
    (Task.TimeAllocation d) (Task.IsCompleted d) (Task.CompletedAt d)
    (Task.IsDeleted d) (Task.DeletedAt d) (Task.HasBeenReordered d)
    (Task.SharedAccess d) (Task.SharedUntil d) (Task.UpdatedAt d)
    (Task.PriorityNormalized d) (Task.ExternalPriority d)
    (Task.AllExternalPriorities d) (Task.TaskNumber d) (Task.Comments d)
    (Task.Status d) (Task.PreviousStatus d) (Task.CompletedStatus d)
    (Task.AllStatuses d) (Task.RecurringTaskTemplateID d).

(** [updateFields.PreviousStatus] and [.Status] assigned. *)
Definition Task_set_statuses (status previousStatus : option ExternalTaskStatus)
    (d : Task.t) : Task.t :=
  Task.mk (Task.ID d) (Task.UserID d) (Task.IDExternal d) (Task.IDOrdering d)
    (Task.IDTaskSection d) (Task.ParentTaskID d) (Task.SourceID d)
    (Task.SourceAccountID d) (Task.Title d) (Task.Body d) (Task.DueDate d)
    (Task.TimeAllocation d) (Task.IsCompleted d) (Task.CompletedAt d)
    (Task.IsDeleted d) (Task.DeletedAt d) (Task.HasBeenReordered d)
    (Task.SharedAccess d) (Task.SharedUntil d) (Task.UpdatedAt d)
    (Task.PriorityNormalized d) (Task.ExternalPriority d)
    (Task.AllExternalPriorities d) (Task.TaskNumber d) (Task.Comments d)
    status previousStatus (Task.CompletedStatus d)
    (Task.AllStatuses d) (Task.RecurringTaskTemplateID d).

Definition UpdateTaskInDBWithError (api : API) (db : Database) (task : Task.t)
    (userID : ObjectID) (updateFields : Task.t) : Database * option error :=
  let updateFields' :=
    match Task.IsCompleted updateFields with
    | Some isCompleted =>
        Task_set_statuses
          (if isCompleted then Task.CompletedStatus task else Task.PreviousStatus task)
          (Task.Status task) updateFields
    | None => updateFields
    end in
  let '(collection', matchedCount) :=
    UpdateOne (fun d => (Task.ID d =? Task.ID task) && (Task.UserID d =? userID))
              (bson_set_Task api updateFields') (GetTaskCollection db) in
  if negb (matchedCount =? 1)
  then (set_tasks collection' db, Some (errors_New "failed to update task"))
  else (set_tasks collection' db, None).

(** The database left and the response written, if any. *)
Definition UpdateTaskInDB (api : API) (db : Database) (task : Task.t)
    (userID : ObjectID) (updateFields : Task.t) : Database * list Response :=
  match UpdateTaskInDBWithError api db task userID updateFields with
  | (db', Some _) => (db', [Handle500])
  | (db', None) => (db', [])
  end.

(** The chain of comparisons [TaskModify] runs on a request's
    [shared_access]: the mode to store, or [None] where the handler answers
    "invalid shared access token". *)
Definition TaskModify_sharedAccess (s : string) : option SharedAccess :=
  if String.eqb s StringSharedAccessPublic then Some SharedAccessPublic
  else if String.eqb s StringSharedAccessDomain then Some SharedAccessDomain
  else None.

Definition respond (rs : list Response) (db : Database) : Outcome :=
  {| responses := rs; db_after := db; external_calls := [] |}.

(** The block of [TaskModify] under
    [if modifyParams.TaskItemChangeableFields != (TaskItemChangeableFields{})]:
    either the handler returns from inside it ([inl]), or it falls through
    to the reordering with the database, the responses and the external
    calls so far ([inr]). *)
Definition TaskModify_update (api : API) (now : DateTime) (db : Database)
    (userID : ObjectID) (task : Task.t) (taskSourceResult : TaskSourceResult)
    (fields : TaskItemChangeableFields.t) (dueDate : option DateTime)
    : Outcome + (Database * list Response * list ExternalCall) :=
  let recurring : unit + ObjectID :=
    match TaskChangeable.RecurringTaskTemplateID (TaskItemChangeableFields.Task_ fields) with
    | Some hex => match ObjectIDFromHex hex with Ok id => inr id | _ => inl tt end
    | None => inr NilObjectID
    end in
  match recurring with
  | inl _ => inl (respond [Handle500] db)
  | inr recurring_task_template_id =>
      if negb (String.eqb (Task.SourceID task) TASK_SOURCE_ID_GT_TASK)
         && (negb (TaskItemChangeableFields.SharedUntil fields =? 0)
             || negb (isnil (TaskItemChangeableFields.SharedAccess fields)))
      then inl (respond [detail 400 "only General Task tasks can be shared"] db)
      else
        let shared : unit + option SharedAccess :=
          match TaskItemChangeableFields.SharedAccess fields with
          | Some s =>
              match TaskModify_sharedAccess s with
              | Some sharedAccess => inr (Some sharedAccess)
              | None => inl tt
              end
          | None => inr None
          end in
        match shared with
        | inl _ => inl (respond [detail 400 "invalid shared access token"] db)
        | inr sharedAccess =>
            let updateTask :=
              TaskModify_updateTask now fields dueDate recurring_task_template_id sharedAccess in
            let call := {| call_accountID := Task.SourceAccountID task;
                           call_issueID := Task.IDExternal task |} in
            let '(db1, updateTask1, err) :=
              Source_ModifyTask taskSourceResult db userID
                (Task.SourceAccountID task) (Task.IDExternal task) updateTask task in
            match err with
            | Some _ =>
                inl {| responses := [Handle500]; db_after := db1;
                       external_calls := [call] |}
            | None =>
                let updateTask2 :=
                  match TaskItemChangeableFields.Title fields with
                  | Some title =>
                      match getValidExternalOwnerAssignedTask api db1 userID title with
                      | Ok (assignedUser, tempTitle) =>
                          Task_set_assignee (User.ID assignedUser) IDTaskSectionDefault
                                            (Some tempTitle) updateTask1
                      | _ => updateTask1
                      end
                  | None => updateTask1
                  end in
                let '(db2, rs) := UpdateTaskInDB api db1 task userID updateTask2 in
                inr (db2, rs, [call])
            end
        end
  end.

Definition TaskModify (api : API) (now : DateTime) (db : Database) (c : Request)
    : Outcome :=
  match ObjectIDFromHex (Param_task_id c) with
  | Err _ | Panic => respond [Handle404] db
  | Ok taskID =>
  match BindJSON c with
  | Err _ | Panic => respond [detail 400 "parameter missing or malformatted"] db
  | Ok modifyParams =>
  if match TaskModifyParams.IDTaskSection modifyParams with
     | Some hex => match ObjectIDFromHex hex with Ok _ => false | _ => true end
     | None => false
     end
  then respond [detail 400 "'id_task_section' is not a valid ID"] db
  else
  let userID := UserIDFromContext c in
  match GetTask db taskID userID with
  | Err _ | Panic =>
      respond [JSON 404 [("detail"%string, VStr "task not found.");
                         ("taskId"%string, VOid taskID)]] db
  | Ok task =>
  if TaskModifyParams.isZero modifyParams
  then respond [detail 400 "task changes missing"] db
  else
  match ExternalConfig_GetSourceResult api (Task.SourceID task) with
  | Err _ | Panic => respond [Handle500] db
  | Ok taskSourceResult =>
  match ValidateFields now (TaskModifyParams.Fields modifyParams) taskSourceResult task with
  | inl r => respond [r] db
  | inr fields =>
  let due : Response + option DateTime :=
    match TaskItemChangeableFields.DueDate fields with
    | None => inr None
    | Some s =>
        match time_Parse_YEAR_MONTH_DAY api s, time_Parse_RFC3339 api s with
        | Ok yearMonthDayDate, _ => inr (Some yearMonthDayDate)
        | _, Ok rfcDate => inr (Some rfcDate)
        | _, _ => inl (detail 400 "due_date is not a valid date")
        end
    end in
  match due with
  | inl r => respond [r] db
  | inr dueDate =>
  let updated : Outcome + (Database * list Response * list ExternalCall) :=
    if negb (TaskItemChangeableFields.isZero fields)
    then TaskModify_update api now db userID task taskSourceResult fields dueDate
    else inr (db, [], []) in
  match updated with
  | inl outcome => outcome
  | inr (db2, rs, calls) =>
      if negb (isnil (TaskModifyParams.IDOrdering modifyParams))
         || (negb (isnil (TaskModifyParams.IDTaskSection modifyParams))
             || negb (Task.ParentTaskID task =? NilObjectID))
      then
        match ReOrderTask db2 taskID userID
                (TaskModifyParams.IDOrdering modifyParams)
                (TaskModifyParams.IDTaskSection modifyParams) task with
        | (db3, rs3, Some _) =>
            {| responses := rs ++ rs3; db_after := db3; external_calls := calls |}
        | (db3, rs3, None) =>
            {| responses := rs ++ rs3 ++ [JSON 200 []]; db_after := db3;
               external_calls := calls |}
        end
      else {| responses := rs ++ [JSON 200 []]; db_after := db2;
              external_calls := calls |}
  end end end end end end end.

(** The scope of a reorder in words: the user's tasks that are not deleted
    and, for a subtask, have the same parent, or, for a top-level task, lie
    in the section and are not completed. *)
Definition inReorderScope (userID section : ObjectID) (task d : Task.t) : Prop :=
  Task.UserID d = userID /\
  Task.IsDeleted d <> Some true /\
  (if Z.eq_dec (Task.ParentTaskID task) NilObjectID
   then Task.IDTaskSection d = section /\ Task.IsCompleted d <> Some true
   else Task.ParentTaskID d = Task.ParentTaskID task).

(** The section a reorder works in: the one the request names, else the
    task's. An ID that does not parse is taken as [NilObjectID]. *)
Definition reorderSectionUpdate (IDTaskSectionHex : option string) : option ObjectID :=
  match IDTaskSectionHex with
  | Some hex => Some (match ObjectIDFromHex hex with Ok s => s | _ => NilObjectID end)
  | None => None
  end.

Definition reorderSection (IDTaskSectionHex : option string) (task : Task.t) : ObjectID :=
  match reorderSectionUpdate IDTaskSectionHex with
  | Some s => s
  | None => Task.IDTaskSection task
  end.

(** The two writes that open [ReOrderTask], document by document. *)
Definition shifted (taskID userID : ObjectID) (k : Z)
    (IDTaskSectionHex : option string) (task : Task.t) (d : Task.t) : Task.t :=
  if Task.ID d =? taskID
  then ReOrderTask_set (Some k) (reorderSectionUpdate IDTaskSectionHex) d
  else if ReOrderTask_taskQuery userID (reorderSection IDTaskSectionHex task) task d
          && (k <=? Task.IDOrdering d)
       then Task_set_IDOrdering (Task.IDOrdering d + 1) d
       else d.



(** ** Untyped documents and the generic upsert helpers *)

#[export] Instance Value_eq_dec : EqDecision Value.
Proof. solve_decision. Defined.

(** A BSON document, and [bson.M]: a map from field names to values. *)
Abbreviation Doc := (gmap string Value).

(** One [bson.M] of a ["$and"] list: [{"field": v}] or
    [{"field": bson.M{"$ne": v}}]. *)
Inductive Filter :=
| FEq (field : string) (v : Value)
| FNe (field : string) (v : Value).

Definition matches (f : Filter) (d : Doc) : bool :=
  match f with
  | FEq k v => bool_decide (d !! k = Some v)
  | FNe k v => negb (bool_decide (d !! k = Some v))
  end.

(** [bson.M{"$and": filters}]. *)
Definition matchesAll (filters : list Filter) (d : Doc) : bool :=
  List.forallb (fun f => matches f d) filters.

(** Struct fields read off a document, with Go's zero value where the
    field is missing. *)
Definition getStr (k : string) (d : Doc) : string :=
  match d !! k with Some (VStr s) => s | _ => EmptyString end.
Definition getOid (k : string) (d : Doc) : ObjectID :=
  match d !! k with Some (VOid o) => o | _ => NilObjectID end.
Definition getInt (k : string) (d : Doc) : Z :=
  match d !! k with Some (VInt z) => z | _ => 0 end.
Definition getTime (k : string) (d : Doc) : DateTime :=
  match d !! k with Some (VTime t) => t | _ => 0 end.
Definition getBoolPtr (k : string) (d : Doc) : option bool :=
  match d !! k with Some (VBool b) => Some b | _ => None end.

Definition getDBQuery (userID : ObjectID) (IDExternal sourceID : string)
    (additionalFilters : option (list Filter)) : list Filter :=
  let dbQuery :=
    [FEq "id_external" (VStr IDExternal);
     FEq "source_id" (VStr sourceID);
     FEq "user_id" (VOid userID)] in
  match additionalFilters with
  | Some filters =>
      if (0 <? Z.of_nat (length filters))%Z
      then List.fold_left (fun q filter => q ++ [filter]) filters dbQuery
      else dbQuery
  | None => dbQuery
  end.

(** An upsert that matches nothing inserts a document made of the
    equality conditions of the query, then of the update, under an [_id]
    the driver generates: any value no stored document has. *)
Definition queryEqualities (filters : list Filter) : Doc :=
  List.fold_right
    (fun f m => match f with FEq k v => <[k := v]> m | FNe _ _ => m end)
    ∅ filters.

Definition freshObjectID (collection : list Doc) : ObjectID :=
  1 + List.fold_right Z.max 0 (List.map (getOid "_id") collection).

Definition upsertDoc (filters : list Filter) (fields : Doc)
    (collection : list Doc) : Doc :=
  fields ∪ queryEqualities filters ∪ {["_id"%string := VOid (freshObjectID collection)]}.

(** [collection.UpdateOne(ctx, query, bson.M{"$setOnInsert": fields},
    options.Update().SetUpsert(true))]. *)
Definition UpdateOne_setOnInsert (filters : list Filter) (fields : Doc)
    (collection : list Doc) : list Doc :=
  if List.existsb (matchesAll filters) collection then collection
  else collection ++ [upsertDoc filters fields collection].

(** [collection.FindOneAndUpdate(ctx, query, bson.M{"$set": fields},
    options.FindOneAndUpdate().SetUpsert(true).SetReturnDocument(options.After))]:
    the collection afterwards and the document returned. *)
Definition FindOneAndUpdate_set (filters : list Filter) (fields : Doc)
    (collection : list Doc) : list Doc * Doc :=
  match FindOne (matchesAll filters) collection with
  | Some d =>
      (fst (UpdateOne (matchesAll filters) (fun d => fields ∪ d) collection),
       fields ∪ d)
  | None =>
      let d := upsertDoc filters fields collection in
      (collection ++ [d], d)
  end.

Definition FindOneAndUpdateWithCollection (collection : list Doc)
    (userID : ObjectID) (IDExternal sourceID : string)
    (fieldsToInsertIfMissing : option Doc) (fields : Doc)
    (additionalFilters : option (list Filter)) : list Doc * Doc :=
  let dbQuery := getDBQuery userID IDExternal sourceID additionalFilters in
  let collection1 :=
    match fieldsToInsertIfMissing with
    | Some toInsert => UpdateOne_setOnInsert dbQuery toInsert collection
    | None => collection
    end in
  FindOneAndUpdate_set dbQuery fields collection1.

(** The wrappers decode the returned document into their struct; the
    document itself stands for it here. *)
Definition UpdateOrCreateTask (collection : list Doc) (userID : ObjectID)
    (IDExternal sourceID : string) (fieldsToInsertIfMissing : option Doc)
    (fieldsToUpdate : Doc) (additionalFilters : option (list Filter))
    : list Doc * result Doc :=
  let '(collection', mongoResult) :=
    FindOneAndUpdateWithCollection collection userID IDExternal sourceID
      fieldsToInsertIfMissing fieldsToUpdate additionalFilters in
  (collection', Ok mongoResult).


Definition UpdateOrCreatePullRequest (collection : list Doc) (userID : ObjectID)
    (IDExternal sourceID : string) (fields : Doc)
    (additionalFilters : option (list Filter)) : list Doc * result Doc :=
  let '(collection', mongoResult) :=
    FindOneAndUpdateWithCollection collection userID IDExternal sourceID
      None fields additionalFilters in
  (collection', Ok mongoResult).

Definition GetOrCreateWithCollection (collection : list Doc) (userID : ObjectID)
    (IDExternal sourceID : string) (fieldsToInsertIfMissing : Doc)
    : list Doc * option Doc :=
  let dbQuery := getDBQuery userID IDExternal sourceID None in
  let collection' := UpdateOne_setOnInsert dbQuery fieldsToInsertIfMissing collection in
  (collection', FindOne (matchesAll dbQuery) collection').

Definition FindOneExternalWithCollection (collection : list Doc)
    (userID : ObjectID) (externalID : string) : option Doc :=
  FindOne (matchesAll [FEq "id_external" (VStr externalID);
                       FEq "user_id" (VOid userID)]) collection.

Definition GetPullRequestByExternalID (collection : list Doc)
    (externalID : string) (userID : ObjectID) : result Doc :=
  Decode (FindOneExternalWithCollection collection userID externalID).

(** The key a cached record is filed under: user, source and external
    ID, when the document has all three at their types. *)
Definition tripleOf (d : Doc) : option (ObjectID * string * string) :=
  match d !! "user_id"%string, d !! "source_id"%string, d !! "id_external"%string with
  | Some (VOid u), Some (VStr s), Some (VStr e) => Some (u, s, e)
  | _, _, _ => None
  end.


(** The fields of an update agree with the keys it is filed under: each
    key field is left out or carries the key's value. *)
Definition keysAgree (fields : Doc) (userID : ObjectID)
    (sourceID IDExternal : string) : Prop :=
  (fields !! "user_id"%string = None \/ fields !! "user_id"%string = Some (VOid userID)) /\
  (fields !! "source_id"%string = None \/ fields !! "source_id"%string = Some (VStr sourceID)) /\
  (fields !! "id_external"%string = None \/ fields !! "id_external"%string = Some (VStr IDExternal)).

(** ** Package external: the Github pull-request fetch *)

(** Modelled from the spec: the identifier of the Github pull-request
    source ([TASK_SOURCE_ID_GITHUB_PR]) is declared outside the sources;
    nothing below depends on its spelling. *)
Definition TASK_SOURCE_ID_GITHUB_PR : string := "github_pr".

Definition GithubAPIBaseURL : string := "https://api.github.com/".

(** [github.Repository] and [github.PullRequest], as far as the fetch
    reads them. *)
Record GithubRepository := {
  Repo_ID : Z;
  Repo_OwnerLogin : string;
  Repo_Name : string;
  Repo_FullName : string
}.

Record GithubPullRequest := {
  GPR_ID : Z;
  GPR_Number : Z;
  GPR_HTMLURL : string;
  GPR_Title : string;
  GPR_Body : string;
  GPR_CreatedAt : DateTime;
  GPR_UserLogin : string;
  GPR_HeadRef : string;
  GPR_BaseRef : string;
  GPR_UpdatedAt : DateTime
}.

(** [GithubPRRequestData]; the client, the user and the teams matter to
    the detailed fetch only, which is an external call here. *)
Record GithubPRRequestData := {
  RD_Repository : GithubRepository;
  RD_PullRequest : GithubPullRequest;
  RD_Token : option string
}.

(** The request [pullRequestHasBeenModified] sends. The
    [If-Modified-Since] header is kept as the time it spells. *)
Record HTTPRequest := {
  Method : string;
  URL : string;
  Header_Accept : string;
  Header_Authorization : option string;
  Header_IfModifiedSince : option DateTime
}.

(** What the detailed fetch of [getPullRequestInfo] gathers from the
    reviews, comments, comparison and check-run endpoints. *)
Record PRDetails := {
  Details_RequiredAction : string;
  Details_Comments : Z;
  Details_CommentCount : Z;
  Details_CommitCount : Z;
  Details_Additions : Z;
  Details_Deletions : Z
}.

(** Github as the fetch meets it: the answer to the conditional request
    (a status code, or a transport error) and the outcome of the detailed
    fetch, the series of API calls between the check and the construction
    of the result in [getPullRequestInfo]. *)
Record GithubAPI := {
  client_Do : HTTPRequest -> result Z;
  fetchDetails : GithubPRRequestData -> result PRDetails
}.

Inductive GithubCall :=
| CallConditional (request : HTTPRequest)
| CallDetails (requestData : GithubPRRequestData).

Definition StatusNotModified : Z := 304.

(** [d.Time().IsZero()] for a [primitive.DateTime]: the zero [time.Time]
    is the first instant of year 1, which is this many milliseconds before
    the Unix epoch. *)
Definition DateTime_Time_IsZero (d : DateTime) : bool :=
  d =? -62135596800000.

(** The result is [(hasBeenModified, cachedPR)] and the calls made. *)
Definition pullRequestHasBeenModified (gh : GithubAPI) (collection : list Doc)
    (userID : ObjectID) (requestData : GithubPRRequestData)
    (overrideURL : option string) : bool * option Doc * list GithubCall :=
  let pullRequest := RD_PullRequest requestData in
  let token := RD_Token requestData in
  let repository := RD_Repository requestData in
  match GetPullRequestByExternalID collection (pretty (GPR_ID pullRequest)) userID with
  | Err _ | Panic => (true, None, [])
  | Ok dbPR =>
      let requestURL :=
        match overrideURL with
        | Some url => url
        | None =>
            (GithubAPIBaseURL ++ "repos/" ++ Repo_OwnerLogin repository ++ "/"
             ++ Repo_Name repository ++ "/pulls/" ++ pretty (GPR_Number pullRequest))%string
        end in
      let request :=
        {| Method := "GET";
           URL := requestURL;
           Header_Accept := "application/vnd.github+json";
           Header_Authorization :=
             match token with
             | Some accessToken => Some ("token " ++ accessToken)%string
             | None => None
             end;
           Header_IfModifiedSince :=
             if negb (DateTime_Time_IsZero (getTime "last_fetched" dbPR))
             then Some (getTime "last_fetched" dbPR)
             else None |} in
      match client_Do gh request with
      | Err _ | Panic => (true, Some dbPR, [CallConditional request])
      | Ok statusCode =>
          (negb (statusCode =? StatusNotModified), Some dbPR, [CallConditional request])
      end
  end.

(** The [database.PullRequest] that [getPullRequestInfo] builds from a
    detailed fetch. Modelled from the spec: the struct is declared outside
    the sources, and its fields appear under the names of the queries. *)
Definition newPullRequest (userID : ObjectID) (accountID : string)
    (requestData : GithubPRRequestData) (details : PRDetails) : Doc :=
  let pullRequest := RD_PullRequest requestData in
  let repository := RD_Repository requestData in
  list_to_map
    [("user_id"%string, VOid userID);
     ("id_external"%string, VStr (pretty (GPR_ID pullRequest)));
     ("deeplink"%string, VStr (GPR_HTMLURL pullRequest));
     ("source_id"%string, VStr TASK_SOURCE_ID_GITHUB_PR);
     ("title"%string, VStr (GPR_Title pullRequest));
     ("body"%string, VStr (GPR_Body pullRequest));
     ("source_account_id"%string, VStr accountID);
     ("created_at_external"%string, VTime (GPR_CreatedAt pullRequest));
     ("repository_id"%string, VStr (pretty (Repo_ID repository)));
     ("repository_name"%string, VStr (Repo_FullName repository));
     ("number"%string, VInt (GPR_Number pullRequest));
     ("author"%string, VStr (GPR_UserLogin pullRequest));
     ("branch"%string, VStr (GPR_HeadRef pullRequest));
     ("base_branch"%string, VStr (GPR_BaseRef pullRequest));
     ("required_action"%string, VStr (Details_RequiredAction details));
     ("comments"%string, VOpaque (Details_Comments details));
     ("comment_count"%string, VInt (Details_CommentCount details));
     ("commit_count"%string, VInt (Details_CommitCount details));
     ("additions"%string, VInt (Details_Additions details));
     ("deletions"%string, VInt (Details_Deletions details));
     ("last_updated_at"%string, VTime (GPR_UpdatedAt pullRequest))].

(** What the function sends on its result channel ([None] is [nil]) and
    the calls it made. The log events it inserts go to another collection
    and are left out. *)
Definition getPullRequestInfo (gh : GithubAPI) (collection : list Doc)
    (userID : ObjectID) (accountID : string) (requestData : GithubPRRequestData)
    (PullRequestModifiedURL : option string) : option Doc * list GithubCall :=
  let '(hasBeenModified, cachedPR, calls) :=
    pullRequestHasBeenModified gh collection userID requestData PullRequestModifiedURL in
  if negb hasBeenModified then (cachedPR, calls)
  else
    match fetchDetails gh requestData with
    | Err _ | Panic => (None, calls ++ [CallDetails requestData])
    | Ok details =>
        (Some (newPullRequest userID accountID requestData details),
         calls ++ [CallDetails requestData])
    end.

(** The loop of [GetPullRequests] that receives the results
    ([for index, pullRequestChan := range pullRequestChannels]); each item
    is what a channel delivers, with its entry of [requestTimes]. *)
Fixpoint GetPullRequests_join (userID : ObjectID)
    (items : list (option Doc * DateTime)) (collection : list Doc)
    (pullRequests : list Doc) : list Doc * result (list Doc) :=
  match items with
  | [] => (collection, Ok pullRequests)
  | (None, _) :: rest => GetPullRequests_join userID rest collection pullRequests
  | (Some pullRequest, requestTime) :: rest =>
      if negb (getOid "_id" pullRequest =? NilObjectID)
         && match getBoolPtr "is_completed" pullRequest with
            | None => true
            | Some isCompleted => negb isCompleted
            end
      then GetPullRequests_join userID rest collection (pullRequests ++ [pullRequest])
      else
        let pullRequest1 :=
          <["last_fetched"%string := VTime requestTime]>
            (<["is_completed"%string := VBool false]> pullRequest) in
        match UpdateOrCreatePullRequest collection userID
                (getStr "id_external" pullRequest1) (getStr "source_id" pullRequest1)
                pullRequest1 None with
        | (collection', Ok dbPR) =>
            let pullRequest2 :=
              <["id_ordering"%string := VInt (getInt "id_ordering" dbPR)]>
                (<["_id"%string := VOid (getOid "_id" dbPR)]> pullRequest1) in
            GetPullRequests_join userID rest collection' (pullRequests ++ [pullRequest2])
        | (collection', Err e) => (collection', Err e)
        | (collection', Panic) => (collection', Panic)
        end
  end.

(** [GetPullRequests] from the point where the pull requests of the
    repositories are listed: one [getPullRequestInfo] per pull request,
    then the receiving loop. The goroutines are taken in the schedule in
    which every [getPullRequestInfo] has read the cache before the loop
    writes to it. *)
Definition GetPullRequests_fetch (gh : GithubAPI) (collection : list Doc)
    (userID : ObjectID) (accountID : string)
    (PullRequestModifiedURL : option string)
    (requests : list (GithubPRRequestData * DateTime))
    : list Doc * result (list Doc) :=
  let items :=
    List.map (fun '(requestData, requestTime) =>
                (fst (getPullRequestInfo gh collection userID accountID requestData
                        PullRequestModifiedURL),
                 requestTime))
             requests in
  GetPullRequests_join userID items collection [].

(** The conditional request for a pull request whose cached record is
    [dbPR]. *)
Definition conditionalRequest (requestData : GithubPRRequestData)
    (overrideURL : option string) (dbPR : Doc) : HTTPRequest :=
  {| Method := "GET";
     URL :=
       match overrideURL with
       | Some url => url
       | None =>
           (GithubAPIBaseURL ++ "repos/"
            ++ Repo_OwnerLogin (RD_Repository requestData) ++ "/"
            ++ Repo_Name (RD_Repository requestData) ++ "/pulls/"
            ++ pretty (GPR_Number (RD_PullRequest requestData)))%string
       end;
     Header_Accept := "application/vnd.github+json";
     Header_Authorization :=
       match RD_Token requestData with
       | Some accessToken => Some ("token " ++ accessToken)%string
       | None => None
       end;
     Header_IfModifiedSince := Some (getTime "last_fetched" dbPR) |}.

(** ** Example data *)

(** A task with the given ID, owner, ordering ID, section, parent and
    source, not completed, not deleted, not shared. *)
Definition exampleTask (id user : ObjectID) (ordering : Z)
    (section parent : ObjectID) (source : string) : Task.t :=
  Task.mk id user "ext" ordering section parent source "account"
    (Some "a task"%string) None None None (Some false) 0 None 0 false
    None 0 0 None None [] None None None None None [] NilObjectID.

Definition exampleShared (id user : ObjectID) (access : SharedAccess)
    (sharedUntil : DateTime) : Task.t :=
  Task.mk id user "ext" 1 1 NilObjectID TASK_SOURCE_ID_GT_TASK "account"
    (Some "a shared task"%string) None None None (Some false) 0 None 0 false
    (Some access) sharedUntil 0 None None [] None None None None None []
    NilObjectID.

(** Two tasks of user 7 in section 1, at 3 and 7, and a task of user 8. *)
Definition reorderDB : Database :=
  {| tasks := [exampleTask 1 7 3 1 0 TASK_SOURCE_ID_GT_TASK;
               exampleTask 2 7 7 1 0 TASK_SOURCE_ID_GT_TASK;
               exampleTask 3 8 5 1 0 TASK_SOURCE_ID_GT_TASK];
     notes := []; users := []; calendar_events := [] |}.

(** Ann (7) shares a task with everyone and one with her domain; Bob (8)
    is in her domain, Eve (9) is not. A third task of Ann's was shared
    until time 50. *)
Definition sharingDB : Database :=
  {| tasks := [exampleShared 1 7 SharedAccessPublic 1000;
               exampleShared 2 7 SharedAccessDomain 1000;
               exampleShared 3 7 SharedAccessPublic 50];
     notes := [Note.mk 4 7 None None NilObjectID (Some true)
                       (Some SharedAccessPublic) 1000];
     users := [User.mk 7 "ann@corp.example"; User.mk 8 "bob@corp.example";
               User.mk 9 "eve@else.example"];
     calendar_events := [] |}.

Definition exampleViews : list View.t :=
  [View.mk 11 7 5 "github"; View.mk 12 7 2 "linear";
   View.mk 13 8 9 "github"; View.mk 14 7 5 "slack"].

(** A source that takes every change, and an encoding of [$set] that
    writes the title alone. *)
Definition exampleSource : TaskSourceResult :=
  {| Details_IsCompletable := true;
     Source_ModifyTask := fun db _ _ _ updateTask _ => (db, updateTask, None) |}.

Definition exampleAPI : API :=
  {| ExternalConfig_GetSourceResult := fun _ => Ok exampleSource;
     getValidExternalOwnerAssignedTask :=
       fun _ _ _ => Err (errors_New "no assignee in the title");
     time_Parse_YEAR_MONTH_DAY := fun _ => Err (errors_New "parsing time");
     time_Parse_RFC3339 := fun _ => Err (errors_New "parsing time");
     bson_set_Task := fun updateFields d =>
       match Task.Title updateFields with
       | Some title =>
           Task_set_assignee (Task.UserID d) (Task.IDTaskSection d) (Some title) d
       | None => d
       end |}.

(** A task of user 7 from another source than General Task. *)
Definition linearDB : Database :=
  {| tasks := [exampleTask 1 7 1 1 0 "linear_task"];
     notes := []; users := []; calendar_events := [] |}.

Definition objectID1Hex : string := "000000000000000000000001".

Definition shareFields (title : option string) : TaskItemChangeableFields.t :=
  TaskItemChangeableFields.mk TaskChangeable.zero title None None None None 0
    None 0 (Some "public"%string) 0.

Definition shareRequest (title : option string) : Request :=
  {| Param_task_id := objectID1Hex;
     BindJSON := Ok (TaskModifyParams.mk None None (shareFields title));
     UserIDFromContext := 7 |}.

(** A cached pull request of user 7, and the pull request and repository
    Github lists for it. *)
Definition cachedPR (isCompleted : bool) : Doc :=
  list_to_map
    [("_id"%string, VOid 5); ("user_id"%string, VOid 7);
     ("source_id"%string, VStr TASK_SOURCE_ID_GITHUB_PR);
     ("id_external"%string, VStr "42");
     ("is_completed"%string, VBool isCompleted);
     ("last_fetched"%string, VTime 1000);
     ("title"%string, VStr "Fix the parser")].

Definition exampleRequestData : GithubPRRequestData :=
  {| RD_Repository := {| Repo_ID := 9; Repo_OwnerLogin := "corp";
                         Repo_Name := "tool"; Repo_FullName := "corp/tool" |};
     RD_PullRequest := {| GPR_ID := 42; GPR_Number := 3;
                          GPR_HTMLURL := "https://github.com/corp/tool/pull/3";
                          GPR_Title := "Fix the parser"; GPR_Body := "";
                          GPR_CreatedAt := 900; GPR_UserLogin := "ann";
                          GPR_HeadRef := "fix"; GPR_BaseRef := "main";
                          GPR_UpdatedAt := 950 |};
     RD_Token := Some "t0ken"%string |}.

(** Github answering every conditional request with the given status. *)
Definition githubAnswering (status : Z) : GithubAPI :=
  {| client_Do := fun _ => Ok status;
     fetchDetails := fun _ =>
       Ok {| Details_RequiredAction := "Review PR"; Details_Comments := 0;
             Details_CommentCount := 0; Details_CommitCount := 1;
             Details_Additions := 10; Details_Deletions := 2 |} |}.

(** The sharing fields of two versions of a request body agree. *)
Definition same_sharing (f f' : TaskItemChangeableFields.t) : Prop :=
  TaskItemChangeableFields.SharedAccess f' = TaskItemChangeableFields.SharedAccess f /\
  TaskItemChangeableFields.SharedUntil f' = TaskItemChangeableFields.SharedUntil f.

(** The additional filters a caller passes, [nil] being none. *)
Definition filtersOf (additionalFilters : option (list Filter)) : list Filter :=
  match additionalFilters with Some fs => fs | None => [] end.

(** ** Tactics *)

(** Case analysis on the innermost scrutinee of the matches in a
    hypothesis. *)
Ltac destruct_innermost H :=
  match type of H with
  | context [match ?x with _ => _ end] =>
      lazymatch x with
      | context [match _ with _ => _ end] => fail
      | _ => destruct x eqn:?; cbv beta iota in H
      end
  end.

(** A stage of [ValidateFields] that returns fields returns them with the
    sharing fields it was given. *)
Ltac stage_sharing H :=
  cbv zeta in H;
  repeat (destruct_innermost H; try discriminate H);
  injection H as <-; split; reflexivity.

(** Duplicate-freeness of a list of distinct literals. *)
Ltac nodup_literals :=
  simpl; repeat constructor; simpl;
  intros H; repeat (destruct H as [H|H]; [discriminate H|]); exact H.

(** ** Orders by key

    The order of a list sorted in ascending order of a key, and its strict
    version. *)

Definition le_key {A : Type} (key : A -> Z) (a b : A) : Prop := key a <= key b.

Definition lt_key {A : Type} (key : A -> Z) (a b : A) : Prop := key a < key b.

(* --------------------------------------------------------------------- *)
(** ** Further functions of the three packages *)

(** ** Package external: what a pull request asks of the user *)

Definition StateApproved : string := "APPROVED".
Definition StateChangesRequested : string := "CHANGES_REQUESTED".
Definition StateCommented : string := "COMMENTED".

Definition ActionReviewPR : string := "Review PR".
Definition ActionAddReviewers : string := "Add Reviewers".
Definition ActionFixFailedCI : string := "Fix Failed CI".
Definition ActionAddressComments : string := "Address Comments".
Definition ActionFixMergeConflicts : string := "Fix Merge Conflicts".
Definition ActionWaitingOnCI : string := "Waiting on CI".
Definition ActionMergePR : string := "Merge PR".
Definition ActionWaitingOnReview : string := "Waiting on Review".
Definition ActionWaitingOnAuthor : string := "Waiting on Author".
Definition ActionNoneNeeded : string := "Not Actionable".

Definition ActionOrdering : gmap string Z :=
  list_to_map
    [(ActionReviewPR, 0); (ActionAddReviewers, 1); (ActionFixFailedCI, 2);
     (ActionAddressComments, 3); (ActionFixMergeConflicts, 4);
     (ActionWaitingOnCI, 5); (ActionMergePR, 6); (ActionWaitingOnReview, 7);
     (ActionWaitingOnAuthor, 8); (ActionNoneNeeded, 9)].

Definition ChecksStatusCompleted : string := "completed".
Definition ChecksConclusionFailure : string := "failure".
Definition ChecksConclusionTimedOut : string := "timed_out".

(** The structs of go-github, as far as the functions below read them. A
    pointer field is an [option]; the library's getters ([GetID],
    [GetLogin], [GetState], ...) answer the zero value for a nil field and
    for a nil receiver. *)
Record GithubUser := {
  GU_ID : option Z;
  GU_Login : option string
}.

Record GithubTeam := {
  GTeam_ID : option Z
}.

Record GithubReviewers := {
  Reviewers_Users : list GithubUser;
  Reviewers_Teams : list GithubTeam
}.

Record GithubReview := {
  Review_State : option string;
  Review_User : option GithubUser;
  Review_Body : option string;
  Review_SubmittedAt : DateTime
}.

Record GithubCheckRun := {
  CheckRun_Status : option string;
  CheckRun_Conclusion : option string
}.

(** The fields of [github.PullRequest] that [userIsOwner] and
    [userIsReviewer] read. *)
Record GithubPullRequestPeople := {
  PR_User : option GithubUser;
  PR_RequestedReviewers : list GithubUser;
  PR_RequestedTeams : list GithubTeam
}.

Definition GetString (p : option string) : string :=
  match p with Some s => s | None => EmptyString end.

Definition GetInt (p : option Z) : Z :=
  match p with Some z => z | None => 0 end.

(** [u.GetID()] and [u.GetLogin()] on a [*github.User]. *)
Definition User_GetID (u : option GithubUser) : Z :=
  match u with Some u => GetInt (GU_ID u) | None => 0 end.

Definition User_GetLogin (u : option GithubUser) : string :=
  match u with Some u => GetString (GU_Login u) | None => EmptyString end.

Record GithubPRData := {
  RequestedReviewers : Z;
  Reviewers : option GithubReviewers;
  IsMergeable : bool;
  IsApproved : bool;
  HaveRequestedChanges : bool;
  ChecksDidFail : bool;
  ChecksDidFinish : bool;
  IsOwnedByUser : bool;
  UserLogin : string;
  UserIsReviewer : bool
}.

(** [Panic] is the nil dereference of [githubUser.ID] or
    [pullRequest.User.ID]. *)
Definition userIsOwner (githubUser : option GithubUser)
    (pullRequest : GithubPullRequestPeople) : result bool :=
  match githubUser with
  | None => Panic
  | Some user =>
      match GU_ID user with
      | None => Ok false
      | Some userID =>
          match PR_User pullRequest with
          | None => Panic
          | Some author =>
              match GU_ID author with
              | None => Ok false
              | Some authorID => Ok (userID =? authorID)
              end
          end
      end
  end.

Definition userNeedsToSubmitReview (githubUser : option GithubUser)
    (reviewers : option GithubReviewers) (userTeams : list GithubTeam) : bool :=
  match githubUser, reviewers with
  | Some user, Some reviewers =>
      if List.existsb (fun reviewer => GetInt (GU_ID reviewer) =? GetInt (GU_ID user))
                      (Reviewers_Users reviewers)
      then true
      else
        List.existsb
          (fun userTeam =>
             List.existsb (fun team => GetInt (GTeam_ID team) =? GetInt (GTeam_ID userTeam))
                          (Reviewers_Teams reviewers))
          userTeams
  | _, _ => false
  end.

Definition userIsReviewer (githubUser : option GithubUser)
    (pullRequest : option GithubPullRequestPeople) (reviews : list GithubReview)
    (userTeams : list GithubTeam) : bool :=
  match pullRequest, githubUser with
  | Some pullRequest, Some user =>
      if List.existsb
           (fun reviewer =>
              match GU_ID user, GU_ID reviewer with
              | Some userID, Some reviewerID => userID =? reviewerID
              | _, _ => false
              end)
           (PR_RequestedReviewers pullRequest)
      then true
      else if List.existsb
                (fun userTeam =>
                   List.existsb
                     (fun team =>
                        match GTeam_ID team, GTeam_ID userTeam with
                        | Some teamID, Some userTeamID => teamID =? userTeamID
                        | _, _ => false
                        end)
                     (PR_RequestedTeams pullRequest))
                userTeams
      then true
      else List.existsb
             (fun review => GetInt (GU_ID user) =? User_GetID (Review_User review))
             reviews
  | _, _ => false
  end.

Definition pullRequestIsApproved (pullRequestReviews : list GithubReview) : bool :=
  List.existsb
    (fun review =>
       match Review_State review with
       | Some state => String.eqb state StateApproved
       | None => false
       end)
    pullRequestReviews.

(** [getReviewerCount] once [listReviewers] has answered with
    [reviewers]. *)
Definition getReviewerCount_counted (reviews : list GithubReview)
    (reviewers : GithubReviewers) : Z :=
  let submittedReviews :=
    List.fold_left
      (fun submittedReviews review =>
         let state := GetString (Review_State review) in
         if negb (isnil (Review_User review))
            && (String.eqb state StateApproved || String.eqb state StateChangesRequested)
         then submittedReviews + 1
         else submittedReviews)
      reviews 0 in
  submittedReviews + Z.of_nat (length (Reviewers_Users reviewers))
  + Z.of_nat (length (Reviewers_Teams reviewers)).

(** The map from a reviewer's login to the state of the latest review
    that is not a comment. *)
Definition userToMostRecentReview (reviews : list GithubReview) : gmap string string :=
  List.fold_left
    (fun m review =>
       let reviewState := GetString (Review_State review) in
       if String.eqb reviewState StateCommented then m
       else <[User_GetLogin (Review_User review) := reviewState]> m)
    reviews ∅.

Definition reviewersHaveRequestedChanges (reviews : list GithubReview) : bool :=
  List.existsb (fun entry => String.eqb (snd entry) StateChangesRequested)
               (map_to_list (userToMostRecentReview reviews)).

Definition checkRunsDidFinish (checkRuns : list GithubCheckRun) : bool :=
  List.forallb
    (fun checkRun => String.eqb (GetString (CheckRun_Status checkRun)) ChecksStatusCompleted)
    checkRuns.

Definition checkRunsDidFail (checkRuns : list GithubCheckRun) : bool :=
  List.existsb
    (fun run =>
       String.eqb (GetString (CheckRun_Status run)) ChecksStatusCompleted
       && (String.eqb (GetString (CheckRun_Conclusion run)) ChecksConclusionFailure
           || String.eqb (GetString (CheckRun_Conclusion run)) ChecksConclusionTimedOut))
    checkRuns.

Definition getPullRequestRequiredAction (data : GithubPRData) : string :=
  if IsOwnedByUser data then
    if RequestedReviewers data =? 0 then ActionAddReviewers
    else if ChecksDidFail data then ActionFixFailedCI
    else if HaveRequestedChanges data then ActionAddressComments
    else if negb (IsMergeable data) then ActionFixMergeConflicts
    else if negb (ChecksDidFinish data) then ActionWaitingOnCI
    else if IsApproved data then ActionMergePR
    else ActionWaitingOnReview
  else
    let action := if UserIsReviewer data then ActionReviewPR else EmptyString in
    if String.eqb action EmptyString then ActionWaitingOnAuthor else action.

(** The block of [getPullRequestInfo] that settles [requiredAction], once
    the calls it makes have answered: the reviewers ([listReviewers], and
    again inside [getReviewerCount]), the pull request itself for
    [GetMergeable], and the check runs. *)
Definition getPullRequestInfo_requiredAction (githubUser : GithubUser)
    (pullRequest : GithubPullRequestPeople) (reviews : list GithubReview)
    (userTeams : list GithubTeam) (reviewers reviewersCounted : GithubReviewers)
    (mergeable : bool) (checkRunsForCommit : list GithubCheckRun) : result string :=
  match userIsOwner (Some githubUser) pullRequest with
  | Panic => Panic
  | Err e => Err e
  | Ok isOwner =>
      if isOwner || userIsReviewer (Some githubUser) (Some pullRequest) reviews userTeams
      then
        let requestedReviewers := getReviewerCount_counted reviews reviewersCounted in
        let checksDidFail := checkRunsDidFail checkRunsForCommit in
        let checksDidFinish := checkRunsDidFinish checkRunsForCommit in
        Ok (getPullRequestRequiredAction
              {| RequestedReviewers := requestedReviewers;
                 Reviewers := Some reviewers;
                 IsMergeable := mergeable;
                 IsApproved := pullRequestIsApproved reviews;
                 HaveRequestedChanges := reviewersHaveRequestedChanges reviews;
                 ChecksDidFail := checksDidFail;
                 ChecksDidFinish := checksDidFinish;
                 IsOwnedByUser := isOwner;
                 UserLogin := GetString (GU_Login githubUser);
                 UserIsReviewer :=
                   userNeedsToSubmitReview (Some githubUser) (Some reviewers) userTeams |})
      else Ok ActionNoneNeeded
  end.

(** ** State tokens *)

(** Modelled from the spec: the [StateToken] struct of package database is
    declared outside the sources; the record carries the fields the three
    functions below set or query. *)
Module StateToken.
Record t := mk {
  ID : ObjectID;
  UserID : ObjectID;
  UseDeeplink : bool
}.
End StateToken.

(** [primitive.ObjectID.Hex]: the 12 bytes as 24 lower-case hexadecimal
    digits. *)
Definition hexChar (v : Z) : ascii :=
  ascii_of_nat (Z.to_nat (if v <? 10 then 48 + v else 87 + v)).

Fixpoint hexDigits (n : nat) (z : Z) (acc : string) : string :=
  match n with
  | O => acc
  | S n' => hexDigits n' (z / 16) (String (hexChar (z mod 16)) acc)
  end.

Definition ObjectID_Hex (id : ObjectID) : string := hexDigits 24 id EmptyString.

(** [collection.DeleteOne(ctx, query)]: the first selected document is
    removed; the second component is [DeletedCount]. *)
Fixpoint DeleteOne {A : Type} (query : A -> bool) (collection : list A)
    : list A * Z :=
  match collection with
  | [] => ([], 0)
  | d :: rest =>
      if query d then (rest, 1)
      else let '(rest', n) := DeleteOne query rest in (d :: rest', n)
  end.

(** [InsertOne] of a token without an ID stores it under the ID the driver
    generates, [insertedID]. *)
Definition CreateStateToken (collection : list StateToken.t)
    (userID : option ObjectID) (useDeeplink : bool) (insertedID : ObjectID)
    : list StateToken.t * result string :=
  let stateToken := StateToken.mk NilObjectID NilObjectID useDeeplink in
  let stateToken :=
    match userID with
    | Some u => StateToken.mk (StateToken.ID stateToken) u
                  (StateToken.UseDeeplink stateToken)
    | None => stateToken
    end in
  (collection ++ [StateToken.mk insertedID (StateToken.UserID stateToken)
                    (StateToken.UseDeeplink stateToken)],
   Ok (ObjectID_Hex insertedID)).

Definition stateTokenQuery (stateTokenID : ObjectID) (userID : option ObjectID)
    (d : StateToken.t) : bool :=
  match userID with
  | None => StateToken.ID d =? stateTokenID
  | Some u => (StateToken.UserID d =? u) && (StateToken.ID d =? stateTokenID)
  end.

Definition GetStateToken (collection : list StateToken.t)
    (stateTokenID : ObjectID) (userID : option ObjectID) : result StateToken.t :=
  Decode (FindOne (stateTokenQuery stateTokenID userID) collection).

Definition DeleteStateToken (collection : list StateToken.t)
    (stateTokenID : ObjectID) (userID : option ObjectID)
    : list StateToken.t * option error :=
  let '(collection', deletedCount) :=
    DeleteOne (stateTokenQuery stateTokenID userID) collection in
  if negb (deletedCount =? 1)
  then (collection', Some (errors_New "invalid state token"))
  else (collection', None).

(** Whether a requester may use a token: no user ID given, or the one the
    token holds. *)
Definition mayUse (requester : option ObjectID) (owner : ObjectID) : bool :=
  match requester with
  | None => true
  | Some u => owner =? u
  end.

(** ** Package database: the lists of a user's tasks *)

(** [{"field": false}] and [{"field": true}] on a [*bool] field: a missing
    field matches neither. *)
Definition equals_false (b : option bool) : bool :=
  match b with Some false => true | _ => false end.

Definition equals_true (b : option bool) : bool :=
  match b with Some true => true | _ => false end.

(** [GetActiveItemsWithCollection] on the task collection, with the cursor
    read out by [cursor.All]. *)
Definition GetActiveItemsWithCollection (collection : list Task.t)
    (userID : ObjectID) : list Task.t :=
  Find (fun d => (Task.UserID d =? userID)
                 && equals_false (Task.IsCompleted d)
                 && ne_true (Task.IsDeleted d)) collection.

Definition GetActiveTasks (db : Database) (userID : ObjectID) : result (list Task.t) :=
  Ok (GetActiveItemsWithCollection (GetTaskCollection db) userID).

(** [$set] of [is_completed: true] and [completed_at]. *)
Definition Task_set_completed (now : DateTime) (d : Task.t) : Task.t :=
  Task.mk (Task.ID d) (Task.UserID d) (Task.IDExternal d) (Task.IDOrdering d)
    (Task.IDTaskSection d) (Task.ParentTaskID d) (Task.SourceID d)
    (Task.SourceAccountID d) (Task.Title d) (Task.Body d) (Task.DueDate d)
    (Task.TimeAllocation d) (Some true) now
    (Task.IsDeleted d) (Task.DeletedAt d) (Task.HasBeenReordered d)
    (Task.SharedAccess d) (Task.SharedUntil d) (Task.UpdatedAt d)
    (Task.PriorityNormalized d) (Task.ExternalPriority d)
    (Task.AllExternalPriorities d) (Task.TaskNumber d) (Task.Comments d)
    (Task.Status d) (Task.PreviousStatus d) (Task.CompletedStatus d)
    (Task.AllStatuses d) (Task.RecurringTaskTemplateID d).

(** [MarkCompleteWithCollection] on the task collection; [now] is
    [time.Now()]. *)
Definition MarkCompleteWithCollection (collection : list Task.t)
    (itemID : ObjectID) (now : DateTime) : list Task.t * option error :=
  let '(collection', matchedCount) :=
    UpdateOne (fun d => Task.ID d =? itemID) (Task_set_completed now) collection in
  if negb (matchedCount =? 1)
  then (collection', Some (errors_New "did not find item to mark complete"))
  else (collection', None).

(** [findOptions.SetSort(bson.D{{Key: key1, Value: -1}, {Key: "_id", Value: -1}})]:
    descending in the first key, and among equal first keys descending in
    the second. *)
Definition sortsBefore {A : Type} (key1 key2 : A -> Z) (a b : A) : bool :=
  (key1 b <? key1 a) || ((key1 b =? key1 a) && (key2 b <=? key2 a)).

Fixpoint insert_desc {A : Type} (key1 key2 : A -> Z) (x : A) (l : list A) : list A :=
  match l with
  | [] => [x]
  | y :: l' => if sortsBefore key1 key2 x y then x :: l
               else y :: insert_desc key1 key2 x l'
  end.

Definition sort_desc {A : Type} (key1 key2 : A -> Z) (l : list A) : list A :=
  List.fold_right (insert_desc key1 key2) [] l.

(** [findOptions.SetLimit(n)]: 0 is no limit, and a negative limit is the
    limit of its absolute value (returned in a single batch). *)
Definition SetLimit {A : Type} (n : Z) (l : list A) : list A :=
  if n =? 0 then l else List.firstn (Z.to_nat (Z.abs n)) l.

(** [FindWithCollection] on the task collection: the user's tasks that
    pass the additional filters, sorted and limited when the caller's
    options say so. *)
Definition FindWithCollection (collection : list Task.t) (userID : ObjectID)
    (additionalFilters : option (list (Task.t -> bool)))
    (findOptions : list Task.t -> list Task.t) : list Task.t :=
  let filter :=
    [fun d => Task.UserID d =? userID]
    ++ match additionalFilters with
       | Some fs => fs
       | None => []
       end in
  findOptions (Find (fun d => List.forallb (fun f => f d) filter) collection).

Definition GetTasks (db : Database) (userID : ObjectID)
    (additionalFilters : option (list (Task.t -> bool)))
    (findOptions : list Task.t -> list Task.t) : result (list Task.t) :=
  Ok (FindWithCollection (GetTaskCollection db) userID additionalFilters findOptions).

(** [GetDeletedTasks]; the constant [MAX_DELETED_TASKS] is declared outside
    the sources and is a parameter. *)
Definition GetDeletedTasks (MAX_DELETED_TASKS : Z) (db : Database)
    (userID : ObjectID) : result (list Task.t) :=
  let findOptions l := SetLimit MAX_DELETED_TASKS (sort_desc Task.DeletedAt Task.ID l) in
  let filter := [fun d => equals_true (Task.IsDeleted d)] in
  GetTasks db userID (Some filter) findOptions.

(** [GetCompletedTasks]; the constant [MAX_COMPLETED_TASKS] is declared
    outside the sources, and whether a stored task has a [parent_task_id]
    field ([$exists]) depends on the struct tags of [Task], declared outside
    the sources: both are parameters. *)
Definition GetCompletedTasks (MAX_COMPLETED_TASKS : Z)
    (parent_task_id_exists : Task.t -> bool) (db : Database)
    (userID : ObjectID) : result (list Task.t) :=
  let tasks :=
    SetLimit MAX_COMPLETED_TASKS
      (sort_desc Task.CompletedAt Task.ID
         (Find (fun d => (Task.UserID d =? userID)
                         && equals_true (Task.IsCompleted d)
                         && ne_true (Task.IsDeleted d)
                         && negb (parent_task_id_exists d))
               (GetTaskCollection db))) in
  let subtasks :=
    Find (fun d => (Task.UserID d =? userID)
                   && equals_true (Task.IsCompleted d)
                   && ne_true (Task.IsDeleted d)
                   && parent_task_id_exists d)
         (GetTaskCollection db) in
  Ok (tasks ++ subtasks).

(** The order of a list sorted by [sort_desc]. *)
Definition desc_by {A : Type} (key1 key2 : A -> Z) (a b : A) : Prop :=
  key1 b < key1 a \/ (key1 b = key1 a /\ key2 b <= key2 a).

(** ** external: the repository records *)

(** [collection.UpdateOne(ctx, bson.M{"$and": filters}, bson.M{"$set": fields},
    options.Update().SetUpsert(true))]. *)
Definition UpdateOne_set_upsert (filters : list Filter) (fields : Doc)
    (collection : list Doc) : list Doc :=
  match FindOne (matchesAll filters) collection with
  | Some _ => fst (UpdateOne (matchesAll filters) (fun d => fields ∪ d) collection)
  | None => collection ++ [upsertDoc filters fields collection]
  end.

(** [updateOrCreateRepository]; [repository_HTMLURL] is
    [repository.GetHTMLURL()]. *)
Definition updateOrCreateRepository (collection : list Doc)
    (repository : GithubRepository) (repository_HTMLURL : string)
    (accountID : string) (userID : ObjectID) : list Doc :=
  UpdateOne_set_upsert
    [FEq "repository_id" (VStr (pretty (Repo_ID repository)));
     FEq "user_id" (VOid userID)]
    (list_to_map
       [("account_id"%string, VStr accountID);
        ("full_name"%string, VStr (Repo_FullName repository));
        ("deeplink"%string, VStr repository_HTMLURL)])
    collection.

(** ** Further example data *)

(** Ann (7) has four notes inside their sharing window: one public, one
    for the attendees of event 31, one for her domain and one without a
    mode. Eve (9) is invited to the event; Bob (8) is in Ann's domain. *)
Definition notesDB : Database :=
  {| tasks := [];
     notes := [Note.mk 21 7 (Some "plan"%string) None NilObjectID None
                       (Some SharedAccessPublic) 1000;
               Note.mk 22 7 (Some "minutes"%string) None 31 None
                       (Some SharedAccessMeetingAttendees) 1000;
               Note.mk 23 7 (Some "roadmap"%string) None NilObjectID None
                       (Some SharedAccessDomain) 1000;
               Note.mk 24 7 (Some "draft"%string) None NilObjectID None None 1000];
     users := [User.mk 7 "ann@corp.example"; User.mk 8 "bob@corp.example";
               User.mk 9 "eve@else.example"];
     calendar_events := [CalendarEvent.mk 31 7 ["eve@else.example"%string]] |}.

(** ** What the channels of [GetPullRequests] deliver *)

(** Whether a channel delivered a pull request ([nil] stands for a failed
    fetch), and the external ID of the one it delivered. *)
Definition delivered (item : option Doc * DateTime) : bool :=
  match fst item with Some _ => true | None => false end.

Definition deliveredExternalID (item : option Doc * DateTime) : string :=
  match fst item with Some pr => getStr "id_external" pr | None => EmptyString end.

(** A task from a source with statuses: "Todo" and "Done". *)
Definition statusTodo : ExternalTaskStatus :=
  {| ETS_ExternalID := "s1"; ETS_State := "Todo"; ETS_IsCompletedStatus := false |}.

Definition statusDone : ExternalTaskStatus :=
  {| ETS_ExternalID := "s2"; ETS_State := "Done"; ETS_IsCompletedStatus := true |}.

Definition linearTask : Task.t :=
  Task.mk 1 7 "ext" 1 1 NilObjectID "linear_task" "account"
    (Some "a task"%string) None None None (Some false) 0 None 0 false
    None 0 0 None None [] None None (Some statusTodo) None None
    [statusTodo; statusDone] NilObjectID.

(** Each stage of [ValidateFields] either answers or hands the fields on. *)
Ltac stage_fields H :=
  cbv zeta in H;
  repeat (destruct_innermost H; try discriminate H);
  injection H as <-; repeat split; reflexivity.

(** ** Further notions and example data *)

(** The three keys on a record: a key the fields set has the fields'
    value, another has the value the record is asked for under. *)
Definition keysOrFields (r fields : Doc) (userID : ObjectID)
    (sourceID IDExternal : string) : Prop :=
  (fields !! "id_external"%string = None ->
   r !! "id_external"%string = Some (VStr IDExternal)) /\
  (fields !! "source_id"%string = None ->
   r !! "source_id"%string = Some (VStr sourceID)) /\
  (fields !! "user_id"%string = None ->
   r !! "user_id"%string = Some (VOid userID)).

(** [$set] of [shared_access]. *)
Definition Task_set_SharedAccess (sharedAccess : option SharedAccess) (d : Task.t)
    : Task.t :=
  Task.mk (Task.ID d) (Task.UserID d) (Task.IDExternal d) (Task.IDOrdering d)
    (Task.IDTaskSection d) (Task.ParentTaskID d) (Task.SourceID d)
    (Task.SourceAccountID d) (Task.Title d) (Task.Body d) (Task.DueDate d)
    (Task.TimeAllocation d) (Task.IsCompleted d) (Task.CompletedAt d)
    (Task.IsDeleted d) (Task.DeletedAt d) (Task.HasBeenReordered d)
    sharedAccess (Task.SharedUntil d) (Task.UpdatedAt d)
    (Task.PriorityNormalized d) (Task.ExternalPriority d)
    (Task.AllExternalPriorities d) (Task.TaskNumber d) (Task.Comments d)
    (Task.Status d) (Task.PreviousStatus d) (Task.CompletedStatus d)
    (Task.AllStatuses d) (Task.RecurringTaskTemplateID d).

(** As [exampleAPI], with an encoding of [$set] that writes the sharing
    mode when the update has one. *)
Definition sharingAPI : API :=
  {| ExternalConfig_GetSourceResult := fun _ => Ok exampleSource;
     getValidExternalOwnerAssignedTask :=
       fun _ _ _ => Err (errors_New "no assignee in the title");
     time_Parse_YEAR_MONTH_DAY := fun _ => Err (errors_New "parsing time");
     time_Parse_RFC3339 := fun _ => Err (errors_New "parsing time");
     bson_set_Task := fun updateFields d =>
       match Task.SharedAccess updateFields with
       | Some sharedAccess => Task_set_SharedAccess (Some sharedAccess) d
       | None => d
       end |}.

(** The requests and databases on which the handler gets to the sharing
    checks of a General Task task: the checks that come first pass. *)
Definition reachesSharing (api : API) (now : DateTime) (db : Database) (c : Request)
    (modifyParams : TaskModifyParams.t) (taskID : ObjectID) (task : Task.t)
    (tsr : TaskSourceResult) (fields : TaskItemChangeableFields.t) : Prop :=
  ObjectIDFromHex (Param_task_id c) = Ok taskID /\
  BindJSON c = Ok modifyParams /\
  (forall hex, TaskModifyParams.IDTaskSection modifyParams = Some hex ->
               exists id, ObjectIDFromHex hex = Ok id) /\
  GetTask db taskID (UserIDFromContext c) = Ok task /\
  Task.SourceID task = TASK_SOURCE_ID_GT_TASK /\
  ExternalConfig_GetSourceResult api (Task.SourceID task) = Ok tsr /\
  ValidateFields now (TaskModifyParams.Fields modifyParams) tsr task = inr fields /\
  (forall s, TaskItemChangeableFields.DueDate fields = Some s ->
             (exists t, time_Parse_YEAR_MONTH_DAY api s = Ok t) \/
             (exists t, time_Parse_RFC3339 api s = Ok t)) /\
  (forall hex, TaskChangeable.RecurringTaskTemplateID
                 (TaskItemChangeableFields.Task_ fields) = Some hex ->
               exists id, ObjectIDFromHex hex = Ok id).

(** A source that takes every change, a title that assigns the task to
    user 8, and an encoding of [$set] that writes the owner. *)
Definition assigningAPI : API :=
  {| ExternalConfig_GetSourceResult := fun _ => Ok exampleSource;
     getValidExternalOwnerAssignedTask :=
       fun _ _ title => Ok (User.mk 8 "bob@corp.example", title);
     time_Parse_YEAR_MONTH_DAY := fun _ => Err (errors_New "parsing time");
     time_Parse_RFC3339 := fun _ => Err (errors_New "parsing time");
     bson_set_Task := fun updateFields d =>
       Task_set_assignee (Task.UserID updateFields) (Task.IDTaskSection updateFields)
                         (Task.Title d) d |}.

(** User 7 retitles task 1 and moves it to position 1. *)
Definition assignRequest : Request :=
  {| Param_task_id := objectID1Hex;
     BindJSON :=
       Ok (TaskModifyParams.mk (Some 1) None
             (TaskItemChangeableFields.mk TaskChangeable.zero (Some "for bob"%string)
                None None None None 0 None 0 None 0));
     UserIDFromContext := 7 |}.

(* ===================================================================== *)
(** * Part II. Properties                                                  *)
(* ===================================================================== *)

(** ** GetEmailDomain *)

Lemma strings_Split_shape (s : string) :
  strings_Split s "@"%char =
  uptoNextAt s ::
    match afterFirstAt s with
    | None => []
    | Some r => strings_Split r "@"%char
    end.
Proof.
  induction s as [|a s IH]; simpl; [reflexivity|].
  destruct (Ascii.eqb a "@"%char); [reflexivity|].
  rewrite IH. reflexivity.
Qed.

Lemma strings_Contains_afterFirstAt (s : string) :
  strings_Contains s "@"%char = match afterFirstAt s with None => false | Some _ => true end.
Proof.
  induction s as [|a s IH]; simpl; [reflexivity|].
  destruct (Ascii.eqb a "@"%char); [reflexivity|exact IH].
Qed.

Lemma strings_Split_second (s : string) :
  nth_error (strings_Split s "@"%char) 1 = domainSegment s.
Proof.
  rewrite strings_Split_shape. unfold domainSegment. simpl.
  destruct (afterFirstAt s) as [r|]; [|reflexivity].
  rewrite strings_Split_shape. reflexivity.
Qed.

Lemma GetEmailDomain_eq_spec (email : string) :
  GetEmailDomain email = GetEmailDomain_spec email.
Proof.
  unfold GetEmailDomain, GetEmailDomain_spec.
  rewrite strings_Contains_afterFirstAt, strings_Split_second.
  unfold domainSegment.
  destruct (afterFirstAt email) as [r|]; simpl; [|reflexivity].
  destruct (String.eqb (uptoNextAt r) EmptyString); reflexivity.
Qed.


(** C10. On every input [GetEmailDomain] returns (the index expression
    never panics); it fails exactly when the string has no '@' or the
    segment between the first '@' and the following '@' (or the end) is
    empty, and otherwise returns that segment. ["@x.com"] gives ["x.com"];
    ["a@"] and ["a@@b"] fail. *)
Theorem GetEmailDomain_segment :
  (forall email, GetEmailDomain email = GetEmailDomain_spec email) /\
  (forall email,
      is_Err (GetEmailDomain email) <->
      (strings_Contains email "@"%char = false \/
       domainSegment email = Some EmptyString)) /\
  (forall email seg,
      domainSegment email = Some seg -> seg <> EmptyString ->
      GetEmailDomain email = Ok seg) /\
  GetEmailDomain "@x.com" = Ok "x.com"%string /\
  is_Err (GetEmailDomain "a@") /\
  is_Err (GetEmailDomain "a@@b").
Proof.
  pose proof GetEmailDomain_eq_spec as Hspec.
  split; [exact Hspec|].
  split.
  { intros email. rewrite Hspec. unfold GetEmailDomain_spec.
    rewrite strings_Contains_afterFirstAt. unfold domainSegment.
    destruct (afterFirstAt email) as [r|]; simpl.
    - destruct (String.eqb (uptoNextAt r) EmptyString) eqn:E; simpl.
      + apply String.eqb_eq in E. rewrite E. split; [intros _; right; reflexivity|].
        intros _. exact I.
      + apply String.eqb_neq in E. split.
        * intros [].
        * intros [H|H]; [discriminate H|]. congruence.
    - split; [intros _; left; reflexivity|]. intros _. exact I. }
  split.
  { intros email seg Hseg Hne. rewrite Hspec. unfold GetEmailDomain_spec.
    rewrite Hseg. apply String.eqb_neq in Hne. rewrite Hne. reflexivity. }
  split; [reflexivity|].
  split; exact I.
Qed.

Lemma GetEmailDomain_segment_witness :
  domainSegment "ann@corp.example" = Some "corp.example"%string /\
  GetEmailDomain "ann@corp.example" = Ok "corp.example"%string.
Proof.
  split; [reflexivity|].
  apply (proj1 (proj2 (proj2 GetEmailDomain_segment))); [reflexivity|discriminate].
Defined.

(** ** Lists, sorting and single-document updates *)

Section ListFacts.
Context {A : Type}.

Lemma find_unique_key (key : A -> Z) (q : A -> bool) (l : list A) (x : A) :
  List.NoDup (List.map key l) -> List.In x l -> q x = true ->
  (forall y, List.In y l -> q y = true -> key y = key x) ->
  List.find q l = Some x.
Proof.
  induction l as [|y l IH]; intros Hnd Hin Hq Hkey; [destruct Hin|].
  simpl in *. inversion Hnd as [|? ? Hnotin Hnd']; subst.
  destruct (q y) eqn:Eq.
  - destruct Hin as [->|Hin]; [reflexivity|].
    exfalso. apply Hnotin. rewrite (Hkey y (or_introl eq_refl) Eq).
    apply List.in_map. exact Hin.
  - destruct Hin as [->|Hin]; [congruence|].
    apply IH; auto.
Qed.

Lemma map_if_none (q : A -> bool) (u : A -> A) (l : list A) :
  (forall d, List.In d l -> q d = false) ->
  List.map (fun d => if q d then u d else d) l = l.
Proof.
  induction l as [|d l IH]; intros Hq; [reflexivity|].
  simpl. rewrite (Hq d (or_introl eq_refl)). f_equal.
  apply IH. intros; apply Hq; right; assumption.
Qed.

Lemma UpdateOne_as_map (key : A -> Z) (i : Z) (q : A -> bool) (u : A -> A) (l : list A) :
  List.NoDup (List.map key l) ->
  (forall d, List.In d l -> q d = true -> key d = i) ->
  fst (UpdateOne q u l) = List.map (fun d => if q d then u d else d) l.
Proof.
  induction l as [|d l IH]; intros Hnd Hq; [reflexivity|].
  simpl. inversion Hnd as [|? ? Hnotin Hnd']; subst.
  destruct (q d) eqn:Eq.
  - simpl. f_equal. symmetry. apply map_if_none.
    intros e He. destruct (q e) eqn:Ee; [|reflexivity].
    exfalso. apply Hnotin.
    rewrite (Hq d (or_introl eq_refl) Eq).
    rewrite <- (Hq e (or_intror He) Ee).
    apply List.in_map. exact He.
  - destruct (UpdateOne q u l) as [l' n] eqn:E. simpl in *.
    f_equal. apply IH; auto.
Qed.

Lemma UpdateOne_length (q : A -> bool) (u : A -> A) (l : list A) :
  length (fst (UpdateOne q u l)) = length l.
Proof.
  induction l as [|d l IH]; [reflexivity|].
  simpl. destruct (q d); [reflexivity|].
  destruct (UpdateOne q u l) as [l' n]. simpl in *. congruence.
Qed.

Lemma UpdateOne_matched (q : A -> bool) (u : A -> A) (l : list A) :
  snd (UpdateOne q u l) = if List.existsb q l then 1 else 0.
Proof.
  induction l as [|d l IH]; [reflexivity|].
  simpl. destruct (q d); [reflexivity|].
  destruct (UpdateOne q u l) as [l' n]. simpl in *. exact IH.
Qed.

Lemma UpdateOne_none (q : A -> bool) (u : A -> A) (l : list A) :
  (forall d, List.In d l -> q d = false) -> UpdateOne q u l = (l, 0).
Proof.
  induction l as [|d l IH]; intros Hq; [reflexivity|].
  simpl. rewrite (Hq d (or_introl eq_refl)).
  rewrite IH; [reflexivity|]. intros; apply Hq; right; assumption.
Qed.

Variable key : A -> Z.

Lemma insert_by_perm (x : A) (l : list A) :
  Permutation (insert_by key x l) (x :: l).
Proof.
  induction l as [|y l IH]; simpl; [reflexivity|].
  destruct (key x <=? key y); [reflexivity|].
  rewrite IH. apply perm_swap.
Qed.

Lemma sort_by_perm (l : list A) : Permutation (sort_by key l) l.
Proof.
  induction l as [|x l IH]; simpl; [reflexivity|].
  rewrite insert_by_perm. apply perm_skip. exact IH.
Qed.

Lemma insert_by_sorted (x : A) (l : list A) :
  StronglySorted (le_key key) l -> StronglySorted (le_key key) (insert_by key x l).
Proof.
  induction l as [|y l IH]; intros Hs; simpl.
  - constructor; constructor.
  - inversion Hs as [|? ? Hs' Hall]; subst.
    destruct (key x <=? key y) eqn:E.
    + apply Z.leb_le in E. constructor; [exact Hs|].
      constructor; [exact E|].
      eapply List.Forall_impl; [|exact Hall].
      intros a Ha. unfold le_key in *. lia.
    + apply Z.leb_gt in E. constructor; [apply IH; exact Hs'|].
      apply List.Forall_forall. intros a Ha.
      apply (Permutation_in _ (insert_by_perm x l)) in Ha.
      destruct Ha as [<-|Ha]; [unfold le_key; lia|].
      rewrite List.Forall_forall in Hall. apply Hall. exact Ha.
Qed.

Lemma sort_by_sorted (l : list A) : StronglySorted (le_key key) (sort_by key l).
Proof.
  induction l as [|x l IH]; simpl; [constructor|].
  apply insert_by_sorted. exact IH.
Qed.

(** A list whose keys strictly increase is the only sorted arrangement
    of its elements. *)
Lemma sorted_perm_unique (l1 l2 : list A) :
  Permutation l1 l2 -> StronglySorted (le_key key) l1 -> StronglySorted (lt_key key) l2 ->
  l1 = l2.
Proof.
  revert l1. induction l2 as [|x l2 IH]; intros l1 Hp Hs1 Hs2.
  - apply Permutation_nil. symmetry. exact Hp.
  - destruct l1 as [|y l1].
    { apply Permutation_nil in Hp. discriminate Hp. }
    inversion Hs1 as [|? ? Hs1' Hall1]; subst.
    inversion Hs2 as [|? ? Hs2' Hall2]; subst.
    rewrite List.Forall_forall in Hall1, Hall2.
    assert (Hy : List.In y (x :: l2)).
    { apply (Permutation_in _ Hp). left; reflexivity. }
    assert (Hx : List.In x (y :: l1)).
    { apply (Permutation_in _ (Permutation_sym Hp)). left; reflexivity. }
    assert (Heq : y = x).
    { destruct Hy as [Hy|Hy]; [symmetry; exact Hy|].
      destruct Hx as [Hx|Hx]; [exact Hx|].
      specialize (Hall1 _ Hx). specialize (Hall2 _ Hy).
      unfold le_key, lt_key in *. lia. }
    subst y. f_equal. apply IH; auto.
    eapply Permutation_cons_inv. exact Hp.
Qed.

Lemma sort_by_sorted_id (l : list A) :
  StronglySorted (lt_key key) l -> sort_by key l = l.
Proof.
  intros Hs. apply sorted_perm_unique; auto using sort_by_perm, sort_by_sorted.
Qed.
End ListFacts.

(** ** Renumbering passes *)

Lemma rank_of_notin (i : ObjectID) (ids : list ObjectID) :
  ~ List.In i ids -> rank_of i ids = None.
Proof.
  induction ids as [|j ids IH]; intros Hn; [reflexivity|].
  simpl. destruct (j =? i) eqn:E.
  - apply Z.eqb_eq in E. exfalso. apply Hn. left. exact E.
  - rewrite IH; [reflexivity|]. intro Hc. apply Hn. right. exact Hc.
Qed.

Lemma consecutive_from_length (s : Z) (n : nat) :
  length (consecutive_from s n) = n.
Proof. revert s. induction n as [|n IH]; intros s; simpl; [reflexivity|]. rewrite IH. reflexivity. Qed.

Lemma consecutive_from_ge (s : Z) (n : nat) (x : Z) :
  List.In x (consecutive_from s n) -> s <= x.
Proof.
  revert s. induction n as [|n IH]; intros s Hin; [destruct Hin|].
  simpl in Hin. destruct Hin as [<-|Hin]; [lia|].
  apply IH in Hin. lia.
Qed.

Lemma consecutive_sorted {A : Type} (key : A -> Z) (l : list A) (s : Z) :
  List.map key l = consecutive_from s (length l) ->
  StronglySorted (lt_key key) l.
Proof.
  revert s. induction l as [|x l IH]; intros s Hk; [constructor|].
  simpl in Hk. injection Hk as Hx Hl.
  constructor; [eapply IH; exact Hl|].
  apply List.Forall_forall. intros y Hy. unfold lt_key.
  assert (Hin : List.In (key y) (consecutive_from (s + 1) (length l))).
  { rewrite <- Hl. apply List.in_map. exact Hy. }
  apply consecutive_from_ge in Hin. lia.
Qed.

Section Renumbering.
Context {A : Type} `{Reorderable A}.

Lemma renumbered_ID (index : Z) (ids : list ObjectID) (d : A) :
  doc_ID (renumbered index ids d) = doc_ID d.
Proof. unfold renumbered. destruct (rank_of _ _); [apply doc_set_ID|reflexivity]. Qed.

Lemma renumbered_UserID (index : Z) (ids : list ObjectID) (d : A) :
  doc_UserID (renumbered index ids d) = doc_UserID d.
Proof. unfold renumbered. destruct (rank_of _ _); [apply doc_set_UserID|reflexivity]. Qed.

Lemma renumbered_head (index : Z) (i : ObjectID) (ids : list ObjectID) (d : A) :
  doc_ID d = i -> renumbered index (i :: ids) d = doc_set_IDOrdering (index + 1) d.
Proof.
  intros <-. unfold renumbered. simpl. rewrite Z.eqb_refl.
  f_equal. lia.
Qed.

Lemma renumbered_tail (index : Z) (i : ObjectID) (ids : list ObjectID) (d : A) :
  doc_ID d <> i -> renumbered index (i :: ids) d = renumbered (index + 1) ids d.
Proof.
  intros Hne. unfold renumbered. simpl.
  destruct (i =? doc_ID d) eqn:E; [apply Z.eqb_eq in E; congruence|].
  destruct (rank_of (doc_ID d) ids) as [j|]; simpl; [|reflexivity].
  f_equal. lia.
Qed.

Lemma renumbered_notin (index : Z) (ids : list ObjectID) (d : A) :
  ~ List.In (doc_ID d) ids -> renumbered index ids d = d.
Proof. intros Hn. unfold renumbered. rewrite rank_of_notin; auto. Qed.

Lemma renumbered_is_set (index : Z) (ids : list ObjectID) (d : A) :
  renumbered index ids d =
  doc_set_IDOrdering (doc_IDOrdering (renumbered index ids d)) d.
Proof.
  unfold renumbered. destruct (rank_of _ _).
  - rewrite doc_set_get. reflexivity.
  - symmetry. apply doc_set_same.
Qed.

Lemma renumber_loop_char (sel : ObjectID -> A -> bool) (items : list (ObjectID * Z)) :
  (forall i d, sel i d = true -> doc_ID d = i) ->
  forall (index : Z) (c : list A),
    List.NoDup (List.map doc_ID c) ->
    List.NoDup (List.map fst items) ->
    (forall i o d, List.In (i, o) items -> List.In d c -> doc_ID d = i ->
                   sel i d = true /\ doc_IDOrdering d = o) ->
    renumber_loop sel index items c =
    List.map (renumbered index (List.map fst items)) c.
Proof.
  intros Hsel. induction items as [|[i o] rest IH]; intros index c Hnd Hni Hsnap.
  - simpl. symmetry. erewrite List.map_ext; [apply List.map_id|]. reflexivity.
  - simpl in Hni. inversion Hni as [|? ? Hnotin Hni']; subst.
    set (f := fun d : A => if doc_ID d =? i then doc_set_IDOrdering (index + 1) d else d).
    assert (Hf_id : forall d, doc_ID (f d) = doc_ID d).
    { intros d. unfold f. destruct (doc_ID d =? i); [apply doc_set_ID|reflexivity]. }
    assert (Hsel_eq : forall d, List.In d c -> sel i d = (doc_ID d =? i)).
    { intros d Hd. destruct (doc_ID d =? i) eqn:E.
      - apply Z.eqb_eq in E. apply (Hsnap i o d); auto. left; reflexivity.
      - destruct (sel i d) eqn:Es; [|reflexivity].
        apply Hsel in Es. apply Z.eqb_neq in E. congruence. }
    assert (Hc' : (if negb (o =? index + 1)
                   then fst (UpdateOne (sel i) (doc_set_IDOrdering (index + 1)) c)
                   else c) = List.map f c).
    { destruct (o =? index + 1) eqn:Eo; simpl.
      - apply Z.eqb_eq in Eo. symmetry.
        erewrite List.map_ext_in; [apply List.map_id|].
        intros d Hd. unfold f. destruct (doc_ID d =? i) eqn:E; [|reflexivity].
        apply Z.eqb_eq in E.
        destruct (Hsnap i o d (or_introl eq_refl) Hd E) as [_ Ho].
        rewrite <- Eo, <- Ho. apply doc_set_same.
      - rewrite (UpdateOne_as_map doc_ID i);
          [|exact Hnd|intros d _ Hs; apply Hsel; exact Hs].
        apply List.map_ext_in. intros d Hd. rewrite (Hsel_eq d Hd). reflexivity. }
    simpl. rewrite Hc'. rewrite IH.
    + rewrite List.map_map. apply List.map_ext_in. intros d Hd.
      destruct (Z.eq_dec (doc_ID d) i) as [E|E].
      * rewrite (renumbered_head _ _ _ _ E).
        assert (Hfd : f d = doc_set_IDOrdering (index + 1) d).
        { unfold f. apply Z.eqb_eq in E. rewrite E. reflexivity. }
        rewrite Hfd. apply renumbered_notin. rewrite doc_set_ID, E. exact Hnotin.
      * rewrite (renumbered_tail _ _ _ _ E).
        assert (Hfd : f d = d).
        { unfold f. apply Z.eqb_neq in E. rewrite E. reflexivity. }
        rewrite Hfd. reflexivity.
    + rewrite List.map_map. erewrite List.map_ext; [exact Hnd|]. exact Hf_id.
    + exact Hni'.
    + intros i' o' d' Hin' Hd' Hid'.
      apply List.in_map_iff in Hd'. destruct Hd' as [d [<- Hd]].
      rewrite Hf_id in Hid'.
      assert (Hne : doc_ID d <> i).
      { intro Hc. apply Hnotin. rewrite <- Hc, Hid'.
        change i' with (fst (i', o')). apply List.in_map. exact Hin'. }
      assert (Hfd : f d = d).
      { unfold f. apply Z.eqb_neq in Hne. rewrite Hne. reflexivity. }
      rewrite Hfd. apply (Hsnap i' o' d); auto. right. exact Hin'.
Qed.

(** A pass over a list already numbered from [index + 1] writes
    nothing. *)
Lemma renumber_loop_noop (sel : ObjectID -> A -> bool) (items : list (ObjectID * Z)) :
  forall (index : Z) (c : list A),
    List.map snd items = consecutive_from (index + 1) (length items) ->
    renumber_loop sel index items c = c.
Proof.
  induction items as [|[i o] rest IH]; intros index c Hk; [reflexivity|].
  simpl in *. injection Hk as Ho Hrest. subst o.
  rewrite Z.eqb_refl. simpl. apply IH. exact Hrest.
Qed.

(** Renumbering the documents of a duplicate-free list by their own
    positions numbers them consecutively. *)
Lemma renumbered_own_positions (S : list A) :
  List.NoDup (List.map doc_ID S) ->
  forall index,
    List.map doc_IDOrdering (List.map (renumbered index (List.map doc_ID S)) S) =
    consecutive_from (index + 1) (length S).
Proof.
  induction S as [|d S IH]; intros Hnd index; [reflexivity|].
  simpl. inversion Hnd as [|? ? Hnotin Hnd']; subst.
  rewrite (renumbered_head _ _ _ _ eq_refl), doc_set_get. f_equal.
  rewrite <- (IH Hnd' (index + 1)). f_equal.
  apply List.map_ext_in. intros e He. apply renumbered_tail.
  intro Hc. apply Hnotin. rewrite <- Hc. apply List.in_map. exact He.
Qed.

Lemma AdjustOrderingIDs_normalize_loop (userID : ObjectID) (items : list ReorderableSubmodel) :
  forall (index : Z) (c : list A),
    AdjustOrderingIDs_normalize userID index items c =
    renumber_loop (fun i d => (doc_ID d =? i) && (doc_UserID d =? userID)) index
                  (List.map (fun it => (RS_ID it, RS_IDOrdering it)) items) c.
Proof.
  induction items as [|it rest IH]; intros index c; [reflexivity|].
  simpl. rewrite IH. reflexivity.
Qed.
End Renumbering.

Section ListFacts2.
Context {A B : Type}.

Lemma filter_map_commute (p : A -> bool) (g : A -> A) (l : list A) :
  (forall d, p (g d) = p d) ->
  List.filter p (List.map g l) = List.map g (List.filter p l).
Proof.
  intros Hp. induction l as [|d l IH]; [reflexivity|].
  simpl. rewrite Hp. destruct (p d); simpl; rewrite IH; reflexivity.
Qed.

Lemma NoDup_map_filter (f : A -> B) (p : A -> bool) (l : list A) :
  List.NoDup (List.map f l) -> List.NoDup (List.map f (List.filter p l)).
Proof.
  induction l as [|d l IH]; intros Hnd; [constructor|].
  simpl in *. inversion Hnd as [|? ? Hnotin Hnd']; subst.
  destruct (p d); simpl; [|apply IH; exact Hnd'].
  constructor; [|apply IH; exact Hnd'].
  intro Hc. apply Hnotin.
  apply List.in_map_iff in Hc. destruct Hc as [e [He Hin]].
  apply List.filter_In in Hin. destruct Hin as [Hin _].
  rewrite <- He. apply List.in_map. exact Hin.
Qed.

Lemma NoDup_map_inj_in (f : A -> B) (l : list A) (x y : A) :
  List.NoDup (List.map f l) -> List.In x l -> List.In y l -> f x = f y -> x = y.
Proof.
  induction l as [|d l IH]; intros Hnd Hx Hy Hf; [destruct Hx|].
  simpl in *. inversion Hnd as [|? ? Hnotin Hnd']; subst.
  destruct Hx as [->|Hx], Hy as [->|Hy]; auto.
  - exfalso. apply Hnotin. rewrite Hf. apply List.in_map. exact Hy.
  - exfalso. apply Hnotin. rewrite <- Hf. apply List.in_map. exact Hx.
Qed.

Lemma Forall2_map_r_self (R : A -> A -> Prop) (g : A -> A) (l : list A) :
  (forall d, R d (g d)) -> List.Forall2 R l (List.map g l).
Proof.
  intros HR. induction l as [|d l IH]; simpl; constructor; auto.
Qed.
End ListFacts2.

Section NormalizeOrderingIDs.
Context {A : Type} `{Reorderable A}.

Lemma itemsSorted_NoDup (p : A -> bool) (c : list A) :
  List.NoDup (List.map doc_ID c) ->
  List.NoDup (List.map doc_ID (itemsSorted p c)).
Proof.
  intros Hnd. unfold itemsSorted, Find.
  eapply Permutation_NoDup.
  - apply Permutation_map. symmetry. apply sort_by_perm.
  - apply NoDup_map_filter. exact Hnd.
Qed.

Lemma itemsSorted_In (p : A -> bool) (c : list A) (d : A) :
  List.In d (itemsSorted p c) <-> List.In d c /\ p d = true.
Proof.
  unfold itemsSorted, Find. split.
  - intros Hin. apply (Permutation_in _ (sort_by_perm _ _)) in Hin.
    apply List.filter_In in Hin. exact Hin.
  - intros Hin.
    apply (Permutation_in _ (Permutation_sym (sort_by_perm _ _))).
    apply List.filter_In. exact Hin.
Qed.

(** After a pass that numbers the selected documents by their positions,
    the same query sorted again returns them in the same order. *)
Lemma itemsSorted_renumbered (p : A -> bool) (c : list A) :
  (forall z d, p (doc_set_IDOrdering z d) = p d) ->
  List.NoDup (List.map doc_ID c) ->
  let S := itemsSorted p c in
  itemsSorted p (List.map (renumbered 0 (List.map doc_ID S)) c) =
  List.map (renumbered 0 (List.map doc_ID S)) S.
Proof.
  intros Hp Hnd S. unfold itemsSorted at 1. unfold Find.
  rewrite filter_map_commute.
  2:{ intros d. unfold renumbered. destruct (rank_of _ _); [apply Hp|reflexivity]. }
  apply (sorted_perm_unique doc_IDOrdering).
  - etransitivity; [apply sort_by_perm|]. apply Permutation_map.
    symmetry. apply sort_by_perm.
  - apply sort_by_sorted.
  - apply (consecutive_sorted _ _ 1).
    rewrite List.length_map.
    apply (renumbered_own_positions S (itemsSorted_NoDup p c Hnd) 0).
Qed.

Lemma normalizeOrderingIDs_char (c : list A) (userID : ObjectID) :
  List.NoDup (List.map doc_ID c) ->
  normalizeOrderingIDs c userID =
  List.map (renumbered 0 (List.map doc_ID (userItemsSorted userID c))) c.
Proof.
  intros Hnd. unfold normalizeOrderingIDs.
  rewrite AdjustOrderingIDs_normalize_loop.
  rewrite renumber_loop_char.
  - rewrite !List.map_map. reflexivity.
  - intros i d Hs. apply andb_prop in Hs. destruct Hs as [Hs _].
    apply Z.eqb_eq in Hs. exact Hs.
  - exact Hnd.
  - rewrite !List.map_map. simpl. apply itemsSorted_NoDup. exact Hnd.
  - intros i o d Hin Hd Hid.
    rewrite List.map_map in Hin. apply List.in_map_iff in Hin.
    destruct Hin as [s [Hs Hin]]. simpl in Hs. injection Hs as <- <-.
    apply itemsSorted_In in Hin. destruct Hin as [Hin Hu].
    assert (d = s) by (eapply NoDup_map_inj_in; eauto). subst d.
    split; [|reflexivity].
    rewrite Z.eqb_refl. simpl. exact Hu.
Qed.

Lemma userItemsSorted_renumbered (c : list A) (userID : ObjectID) :
  List.NoDup (List.map doc_ID c) ->
  let S := userItemsSorted userID c in
  userItemsSorted userID (List.map (renumbered 0 (List.map doc_ID S)) c) =
  List.map (renumbered 0 (List.map doc_ID S)) S.
Proof.
  intros Hnd. apply itemsSorted_renumbered; [|exact Hnd].
  intros z d. rewrite doc_set_UserID. reflexivity.
Qed.
End NormalizeOrderingIDs.

Lemma rank_of_in (i : ObjectID) (ids : list ObjectID) :
  List.In i ids -> exists j, rank_of i ids = Some j /\ 0 <= j.
Proof.
  induction ids as [|a ids IH]; intros Hin; [destruct Hin|].
  simpl. destruct (a =? i) eqn:E.
  - exists 0. split; [reflexivity|lia].
  - destruct Hin as [Ha|Hin]; [apply Z.eqb_neq in E; congruence|].
    destruct (IH Hin) as [j [Hj H0]]. exists (Z.succ j).
    rewrite Hj. split; [reflexivity|lia].
Qed.

Section RankOrder.
Context {A : Type} `{Reorderable A}.

(** In a list sorted on [id_ordering], a document with a smaller ordering
    ID stands before one with a larger. *)
Lemma rank_of_sorted_lt (l : list A) (x y : A) :
  StronglySorted (le_key doc_IDOrdering) l ->
  List.NoDup (List.map doc_ID l) ->
  List.In x l -> List.In y l ->
  doc_IDOrdering x < doc_IDOrdering y ->
  exists i j, rank_of (doc_ID x) (List.map doc_ID l) = Some i /\
              rank_of (doc_ID y) (List.map doc_ID l) = Some j /\ i < j.
Proof.
  induction l as [|d l IH]; intros Hs Hnd Hx Hy Hlt; [destruct Hx|].
  inversion Hs as [|? ? Hs' Hall]; subst.
  simpl in Hnd. inversion Hnd as [|? ? Hnotin Hnd']; subst.
  rewrite List.Forall_forall in Hall.
  assert (Htail : forall z, List.In z l -> (doc_ID d =? doc_ID z) = false).
  { intros z Hz. apply Z.eqb_neq. intro Hc. apply Hnotin. rewrite Hc.
    apply List.in_map. exact Hz. }
  simpl. destruct Hx as [->|Hx], Hy as [->|Hy].
  - lia.
  - rewrite Z.eqb_refl, (Htail y Hy).
    destruct (rank_of_in (doc_ID y) (List.map doc_ID l)) as [j [Hj H0]].
    { apply List.in_map. exact Hy. }
    exists 0, (Z.succ j). rewrite Hj. repeat split; lia.
  - specialize (Hall x Hx). unfold le_key in Hall. lia.
  - rewrite (Htail x Hx), (Htail y Hy).
    destruct (IH Hs' Hnd' Hx Hy Hlt) as [i [j [Hi [Hj Hij]]]].
    exists (Z.succ i), (Z.succ j). rewrite Hi, Hj. repeat split; lia.
Qed.

(** The renumbering pass keeps the order of the ordering IDs it finds. *)
Lemma normalizeOrderingIDs_monotone (c : list A) (userID : ObjectID) (x y : A) :
  List.NoDup (List.map doc_ID c) ->
  List.In x c -> List.In y c ->
  doc_UserID x = userID -> doc_UserID y = userID ->
  doc_IDOrdering x < doc_IDOrdering y ->
  let ids := List.map doc_ID (userItemsSorted userID c) in
  doc_IDOrdering (renumbered 0 ids x) < doc_IDOrdering (renumbered 0 ids y).
Proof.
  intros Hnd Hx Hy Hux Huy Hlt ids.
  assert (Hin : forall z, List.In z c -> doc_UserID z = userID ->
                          List.In z (userItemsSorted userID c)).
  { intros z Hz Hu. apply itemsSorted_In. split; [exact Hz|].
    apply Z.eqb_eq. exact Hu. }
  destruct (rank_of_sorted_lt (userItemsSorted userID c) x y) as [i [j [Hi [Hj Hij]]]];
    auto.
  - apply sort_by_sorted.
  - apply itemsSorted_NoDup. exact Hnd.
  - unfold renumbered, ids. rewrite Hi, Hj, !doc_set_get. lia.
Qed.
End RankOrder.

Section RankSplit.
Context {A : Type} `{Reorderable A}.

(** The rank of a listed document is the number of documents listed
    before it. *)
Lemma rank_of_split (l : list A) (x : A) :
  List.NoDup (List.map doc_ID l) -> List.In x l ->
  exists l1 l2, l = l1 ++ x :: l2 /\
                rank_of (doc_ID x) (List.map doc_ID l) = Some (Z.of_nat (length l1)).
Proof.
  induction l as [|d l IH]; intros Hnd Hin; [destruct Hin|].
  simpl in Hnd. inversion Hnd as [|? ? Hnotin Hnd']; subst.
  destruct Hin as [->|Hin].
  - exists [], l. split; [reflexivity|]. simpl. rewrite Z.eqb_refl. reflexivity.
  - destruct (IH Hnd' Hin) as [l1 [l2 [-> Hr]]].
    exists (d :: l1), l2. split; [reflexivity|].
    simpl. assert (Hne : (doc_ID d =? doc_ID x) = false).
    { apply Z.eqb_neq. intros Hc. apply Hnotin. rewrite Hc.
      apply List.in_map. apply List.in_or_app. right. left. reflexivity. }
    rewrite Hne. simpl in Hr. rewrite Hr. simpl. f_equal. lia.
Qed.

(** In a list sorted on [id_ordering], the documents with a smaller
    ordering ID than [x] stand before [x], and those before [x] and [x]
    itself have ordering IDs up to that of [x]. *)
Lemma sorted_split_counts (l1 l2 : list A) (x : A) :
  StronglySorted (le_key doc_IDOrdering) (l1 ++ x :: l2) ->
  (length (List.filter (fun y => (doc_IDOrdering y <? doc_IDOrdering x)%Z)
                       (l1 ++ x :: l2))
   <= length l1)%nat /\
  (S (length l1)
   <= length (List.filter (fun y => (doc_IDOrdering y <=? doc_IDOrdering x)%Z)
                          (l1 ++ x :: l2)))%nat.
Proof.
  intros Hs. rewrite !List.filter_app, !List.length_app. simpl.
  rewrite Z.ltb_irrefl, Z.leb_refl. simpl.
  assert (H1 : forall y, List.In y l1 -> doc_IDOrdering y <= doc_IDOrdering x).
  { clear -Hs. induction l1 as [|d l1 IH]; intros y Hy; [destruct Hy|].
    simpl in Hs. inversion Hs as [|? ? Hs' Hall]; subst.
    destruct Hy as [->|Hy]; [|apply IH; assumption].
    rewrite List.Forall_forall in Hall. apply (Hall x).
    apply List.in_or_app. right. left. reflexivity. }
  assert (H2 : forall y, List.In y l2 -> doc_IDOrdering x <= doc_IDOrdering y).
  { clear -Hs. induction l1 as [|d l1 IH]; intros y Hy.
    - simpl in Hs. inversion Hs as [|? ? Hs' Hall]; subst.
      rewrite List.Forall_forall in Hall. apply (Hall y Hy).
    - simpl in Hs. inversion Hs as [|? ? Hs' Hall]; subst. apply IH; assumption. }
  assert (E2 : List.filter (fun y => doc_IDOrdering y <? doc_IDOrdering x) l2 = []).
  { clear -H2. induction l2 as [|d l2 IH]; [reflexivity|].
    simpl. assert (Hd : (doc_IDOrdering d <? doc_IDOrdering x) = false).
    { apply Z.ltb_ge. apply H2. left. reflexivity. }
    rewrite Hd. apply IH. intros y Hy. apply H2. right. exact Hy. }
  assert (E1 : List.filter (fun y => doc_IDOrdering y <=? doc_IDOrdering x) l1 = l1).
  { clear -H1. induction l1 as [|d l1 IH]; [reflexivity|].
    simpl. assert (Hd : (doc_IDOrdering d <=? doc_IDOrdering x) = true).
    { apply Z.leb_le. apply H1. left. reflexivity. }
    rewrite Hd. f_equal. apply IH. intros y Hy. apply H1. right. exact Hy. }
  rewrite E1, E2. split.
  - rewrite Nat.add_0_r. apply List.filter_length_le.
  - lia.
Qed.

Lemma StronglySorted_map_key (key : A -> Z) (l : list A) :
  StronglySorted (le_key key) l ->
  StronglySorted (le_key (fun z : Z => z)) (List.map key l).
Proof.
  induction 1 as [|x l Hs IH Hall]; simpl; constructor; [exact IH|].
  apply List.Forall_forall. intros z Hz. apply List.in_map_iff in Hz.
  destruct Hz as [y [<- Hy]]. rewrite List.Forall_forall in Hall. apply (Hall y Hy).
Qed.

Lemma consecutive_from_sorted (s : Z) (n : nat) :
  StronglySorted (lt_key (fun z : Z => z)) (consecutive_from s n).
Proof.
  apply (consecutive_sorted (fun z : Z => z) _ s).
  rewrite List.map_id, consecutive_from_length. reflexivity.
Qed.

Lemma filter_perm_length (p : A -> bool) (l l' : list A) :
  Permutation l l' -> length (List.filter p l) = length (List.filter p l').
Proof.
  induction 1 as [|x l l' Hp IH|x y l|l l' l'' H1 IH1 H2 IH2]; simpl.
  - reflexivity.
  - destruct (p x); simpl; rewrite IH; reflexivity.
  - destruct (p x), (p y); reflexivity.
  - congruence.
Qed.

(** The renumbering pass in terms of the ordering IDs it finds: a
    document of the user ends above the number of the user's documents
    with a smaller ordering ID, and not above the number of those with an
    ordering ID up to its own. *)
Lemma normalizeOrderingIDs_position (c : list A) (userID : ObjectID) (x : A) :
  List.NoDup (List.map doc_ID c) ->
  List.In x c -> doc_UserID x = userID ->
  let own := fun d : A => doc_UserID d =? userID in
  let ids := List.map doc_ID (userItemsSorted userID c) in
  Z.of_nat (length (List.filter (fun y => doc_IDOrdering y <? doc_IDOrdering x)
                                (List.filter own c)))
  < doc_IDOrdering (renumbered 0 ids x)
  <= Z.of_nat (length (List.filter (fun y => doc_IDOrdering y <=? doc_IDOrdering x)
                                   (List.filter own c))).
Proof.
  intros Hnd Hx Hu own ids.
  set (S := userItemsSorted userID c).
  assert (HxS : List.In x S).
  { apply itemsSorted_In. split; [exact Hx|]. apply Z.eqb_eq. exact Hu. }
  assert (HndS : List.NoDup (List.map doc_ID S)) by (apply itemsSorted_NoDup; exact Hnd).
  destruct (rank_of_split S x HndS HxS) as [l1 [l2 [HS Hr]]].
  assert (Hsorted : StronglySorted (le_key doc_IDOrdering) S) by apply sort_by_sorted.
  rewrite HS in Hsorted. destruct (sorted_split_counts l1 l2 x Hsorted) as [C1 C2].
  rewrite <- HS in C1, C2.
  assert (Hperm : Permutation S (List.filter own c)) by apply sort_by_perm.
  rewrite <- (filter_perm_length _ _ _ Hperm), <- (filter_perm_length _ _ _ Hperm).
  unfold renumbered, ids. fold S. rewrite Hr, doc_set_get. lia.
Qed.
End RankSplit.

(** C2. The renumbering pass that closes [AdjustOrderingIDsForCollection]
    gives a user's items, taken in ascending [id_ordering], the values
    1..n. In terms of the ordering IDs stored before the pass: an item of
    the user ends with a number above the count of the user's items with
    a smaller ordering ID and not above the count of those with an
    ordering ID up to its own, so a smaller ordering ID gives a smaller
    number; the numbers the user's items end with are 1..n, each once;
    nothing but [id_ordering] changes, and no document of another user
    changes. Items already numbered 1..n, in whatever order they are
    stored, are left as they are, so that a second pass changes nothing.
    [_id] values are unique in a collection. *)
Theorem normalizeOrderingIDs_consecutive
    {A : Type} `{Reorderable A} (c : list A) (userID : ObjectID) :
  List.NoDup (List.map doc_ID c) ->
  let own := fun d : A => doc_UserID d =? userID in
  let n := length (List.filter own c) in
  let before := userItemsSorted userID c in
  let c' := normalizeOrderingIDs c userID in
  let after := userItemsSorted userID c' in
  List.map doc_IDOrdering after = consecutive_from 1 (length before) /\
  List.map doc_ID after = List.map doc_ID before /\
  List.Forall2 (fun d d' => d' = doc_set_IDOrdering (doc_IDOrdering d') d) c c' /\
  (List.map doc_IDOrdering before = consecutive_from 1 (length before) -> c' = c) /\
  normalizeOrderingIDs c' userID = c' /\
  (exists new : A -> A,
     c' = List.map new c /\
     (forall d, List.In d c -> doc_UserID d <> userID -> new d = d) /\
     (forall x, List.In x c -> doc_UserID x = userID ->
        Z.of_nat (length (List.filter (fun y => doc_IDOrdering y <? doc_IDOrdering x)
                                      (List.filter own c)))
        < doc_IDOrdering (new x)
        <= Z.of_nat (length (List.filter (fun y => doc_IDOrdering y <=? doc_IDOrdering x)
                                         (List.filter own c)))) /\
     (forall x y, List.In x c -> List.In y c ->
        doc_UserID x = userID -> doc_UserID y = userID ->
        doc_IDOrdering x < doc_IDOrdering y ->
        doc_IDOrdering (new x) < doc_IDOrdering (new y))) /\
  Permutation (List.map doc_IDOrdering (List.filter own c')) (consecutive_from 1 n) /\
  (Permutation (List.map doc_IDOrdering (List.filter own c)) (consecutive_from 1 n) ->
   c' = c).
Proof.
  intros Hnd own n before c' after.
  assert (Hc' : c' = List.map (renumbered 0 (List.map doc_ID before)) c)
    by (apply normalizeOrderingIDs_char; exact Hnd).
  assert (Hafter : after = List.map (renumbered 0 (List.map doc_ID before)) before).
  { unfold after. rewrite Hc'. apply userItemsSorted_renumbered. exact Hnd. }
  assert (Hnoop : forall (x : list A),
             List.map doc_IDOrdering (userItemsSorted userID x) =
             consecutive_from 1 (length (userItemsSorted userID x)) ->
             normalizeOrderingIDs x userID = x).
  { intros x Hx. unfold normalizeOrderingIDs.
    rewrite AdjustOrderingIDs_normalize_loop. apply renumber_loop_noop.
    rewrite !List.map_map, !List.length_map. simpl. exact Hx. }
  assert (H1 : List.map doc_IDOrdering after = consecutive_from 1 (length before)).
  { rewrite Hafter.
    apply (renumbered_own_positions before (itemsSorted_NoDup _ c Hnd) 0). }
  assert (Hlen : length before = n).
  { unfold before, userItemsSorted, itemsSorted, Find.
    apply Permutation_length. apply sort_by_perm. }
  split; [exact H1|].
  split.
  { rewrite Hafter, List.map_map. apply List.map_ext. intros d. apply renumbered_ID. }
  split.
  { rewrite Hc'. apply Forall2_map_r_self. intros d. apply renumbered_is_set. }
  split; [apply Hnoop|].
  split.
  { apply Hnoop. fold after. rewrite H1. f_equal.
    rewrite Hafter, List.length_map. reflexivity. }
  split.
  { exists (renumbered 0 (List.map doc_ID before)).
    split; [exact Hc'|]. split.
    - intros d Hd Hu. apply renumbered_notin. intros Hin.
      apply List.in_map_iff in Hin. destruct Hin as [s [Hs Hin]].
      apply itemsSorted_In in Hin. destruct Hin as [Hin Hus].
      apply Z.eqb_eq in Hus.
      assert (s = d) by exact (NoDup_map_inj_in doc_ID c s d Hnd Hin Hd Hs).
      subst s. contradiction.
    - split.
      + intros x Hx Hu. apply normalizeOrderingIDs_position; assumption.
      + intros x y Hx Hy Hux Huy Hlt.
        apply normalizeOrderingIDs_monotone; assumption. }
  split.
  { rewrite <- Hlen, <- H1. apply Permutation_map.
    symmetry. apply sort_by_perm. }
  intros Hp. apply Hnoop. fold before. rewrite Hlen.
  apply (sorted_perm_unique (fun z : Z => z)).
  - rewrite <- Hp. apply Permutation_map. apply sort_by_perm.
  - apply StronglySorted_map_key. apply sort_by_sorted.
  - apply consecutive_from_sorted.
Qed.

(** ** ReOrderTask *)

Lemma ne_true_spec (b : option bool) : ne_true b = true <-> b <> Some true.
Proof. destruct b as [[|]|]; simpl; split; congruence. Qed.

Lemma ReOrderTask_taskQuery_scope (userID section : ObjectID) (task d : Task.t) :
  ReOrderTask_taskQuery userID section task d = true <->
  inReorderScope userID section task d.
Proof.
  unfold ReOrderTask_taskQuery, inReorderScope.
  rewrite !andb_true_iff, Z.eqb_eq, ne_true_spec.
  destruct (Z.eq_dec (Task.ParentTaskID task) NilObjectID) as [E|E].
  - rewrite E, Z.eqb_refl. simpl.
    rewrite andb_true_iff, Z.eqb_eq, ne_true_spec. tauto.
  - apply Z.eqb_neq in E. rewrite E. simpl. rewrite Z.eqb_eq. tauto.
Qed.

Lemma ReOrderTask_dbQuery_scope (taskID userID : ObjectID) (k : Z)
    (section : ObjectID) (task d : Task.t) :
  ReOrderTask_dbQuery taskID userID k section task d =
  negb (Task.ID d =? taskID)
  && (ReOrderTask_taskQuery userID section task d && (k <=? Task.IDOrdering d)).
Proof.
  unfold ReOrderTask_dbQuery, ReOrderTask_taskQuery.
  destruct (Task.ID d =? taskID), (ne_true (Task.IsDeleted d)),
    (k <=? Task.IDOrdering d), (Task.UserID d =? userID),
    (negb (Task.ParentTaskID task =? NilObjectID)),
    (Task.ParentTaskID d =? Task.ParentTaskID task),
    (Task.IDTaskSection d =? section), (ne_true (Task.IsCompleted d));
    reflexivity.
Qed.

Lemma ReOrderTask_taskQuery_set (userID section : ObjectID) (task : Task.t)
    (z : Z) (d : Task.t) :
  ReOrderTask_taskQuery userID section task (Task_set_IDOrdering z d) =
  ReOrderTask_taskQuery userID section task d.
Proof. reflexivity. Qed.

Lemma updateOrderingIDsV2_from_loop (items : list TaskResult) :
  forall (index : Z) (c : list Task.t),
    updateOrderingIDsV2_from (index + 1) items c =
    renumber_loop (fun i d => Task.ID d =? i) index
                  (List.map (fun t => (TR_ID t, TR_IDOrdering t)) items) c.
Proof.
  induction items as [|it rest IH]; intros index c; [reflexivity|].
  simpl. rewrite IH. reflexivity.
Qed.

Lemma updateOrderingIDsV2_char (q : Task.t -> bool) (userID : ObjectID)
    (c : list Task.t) :
  List.NoDup (List.map Task.ID c) ->
  updateOrderingIDsV2_from 1
    (taskListToTaskResultList (sort_by Task.IDOrdering (Find q c)) userID) c =
  List.map (renumbered 0 (List.map Task.ID (itemsSorted q c))) c.
Proof.
  intros Hnd. change 1 with (0 + 1) at 1.
  rewrite updateOrderingIDsV2_from_loop.
  unfold taskListToTaskResultList.
  rewrite renumber_loop_char.
  - rewrite !List.map_map. reflexivity.
  - intros i d Hs. apply Z.eqb_eq in Hs. exact Hs.
  - exact Hnd.
  - rewrite !List.map_map. simpl.
    apply (itemsSorted_NoDup (H:=Task_Reorderable) q c Hnd).
  - intros i o d Hin Hd Hid.
    rewrite List.map_map in Hin. apply List.in_map_iff in Hin.
    destruct Hin as [s [Hs Hin]]. simpl in Hs. injection Hs as <- <-.
    apply (itemsSorted_In (H:=Task_Reorderable) q c s) in Hin. destruct Hin as [Hin _].
    assert (d = s) by (eapply (NoDup_map_inj_in Task.ID); eauto). subst d.
    split; [apply Z.eqb_refl|reflexivity].
Qed.

Lemma ReOrderTask_shift_char (db : Database) (taskID userID : ObjectID) (k : Z)
    (IDTaskSectionHex : option string) (task : Task.t) :
  List.NoDup (List.map Task.ID (tasks db)) ->
  (exists d, List.In d (tasks db) /\ Task.ID d = taskID /\ Task.UserID d = userID) ->
  ReOrderTask_shift db taskID userID (Some k) IDTaskSectionHex task =
  Some (set_tasks (List.map (shifted taskID userID k IDTaskSectionHex task) (tasks db)) db).
Proof.
  intros Hnd [d0 [Hd0 [Hid0 Hu0]]].
  unfold ReOrderTask_shift, GetTaskCollection.
  fold (reorderSectionUpdate IDTaskSectionHex).
  fold (reorderSection IDTaskSectionHex task).
  set (q1 := fun d : Task.t => (Task.ID d =? taskID) && (Task.UserID d =? userID)).
  set (u1 := ReOrderTask_set (Some k) (reorderSectionUpdate IDTaskSectionHex)).
  assert (Hq1 : forall d, List.In d (tasks db) -> q1 d = (Task.ID d =? taskID)).
  { intros d Hd. unfold q1. destruct (Task.ID d =? taskID) eqn:E; [|reflexivity].
    apply Z.eqb_eq in E.
    assert (d = d0) by (eapply (NoDup_map_inj_in Task.ID); eauto; congruence).
    subst d. simpl. apply Z.eqb_eq. exact Hu0. }
  destruct (UpdateOne q1 u1 (tasks db)) as [c1 n] eqn:EU.
  assert (Hc1 : c1 = List.map (fun d => if q1 d then u1 d else d) (tasks db)).
  { change c1 with (fst (c1, n)). rewrite <- EU.
    apply (UpdateOne_as_map Task.ID taskID); [exact Hnd|].
    intros d _ Hq. apply andb_prop in Hq. destruct Hq as [Hq _].
    apply Z.eqb_eq in Hq. exact Hq. }
  assert (Hn : n = 1).
  { change n with (snd (c1, n)). rewrite <- EU, UpdateOne_matched.
    assert (Hex : List.existsb q1 (tasks db) = true).
    { apply List.existsb_exists. exists d0. split; [exact Hd0|].
      unfold q1. rewrite Hid0, Hu0, !Z.eqb_refl. reflexivity. }
    rewrite Hex. reflexivity. }
  rewrite Hn. simpl. f_equal. f_equal.
  rewrite Hc1. unfold UpdateMany. rewrite List.map_map.
  apply List.map_ext_in. intros d Hd. rewrite (Hq1 d Hd).
  unfold shifted. rewrite !ReOrderTask_dbQuery_scope.
  destruct (Task.ID d =? taskID) eqn:E.
  - unfold u1. simpl. rewrite E. reflexivity.
  - rewrite E. simpl. reflexivity.
Qed.

Lemma shifted_ID taskID userID k hex task d :
  Task.ID (shifted taskID userID k hex task d) = Task.ID d.
Proof.
  unfold shifted. destruct (Task.ID d =? taskID); [reflexivity|].
  destruct (_ && _); reflexivity.
Qed.

Lemma Forall2_map_r_in {A : Type} (R : A -> A -> Prop) (g : A -> A) (l : list A) :
  (forall d, List.In d l -> R d (g d)) -> List.Forall2 R l (List.map g l).
Proof.
  induction l as [|d l IH]; intros HR; simpl; constructor.
  - apply HR. left. reflexivity.
  - apply IH. intros e He. apply HR. right. exact He.
Qed.

Lemma ReOrderTask_section (IDTaskSectionHex : option string) (task : Task.t) :
  match IDTaskSectionHex with
  | Some hex => match ObjectIDFromHex hex with Ok s => s | _ => NilObjectID end
  | None => Task.IDTaskSection task
  end = reorderSection IDTaskSectionHex task.
Proof. destruct IDTaskSectionHex; reflexivity. Qed.

(** C1 (as amended). A reorder to position [k] of a task the user owns
    first writes [k] into the moved task (with [has_been_reordered], and
    the section when the request names one) and adds exactly 1 to the
    [id_ordering] of every other non-deleted task of the user in the scope
    whose [id_ordering] is at least [k], leaving every other task as it
    was; it then renumbers the tasks of the scope 1..n in ascending
    [id_ordering], which changes [id_ordering] only, keeps their order and
    leaves tasks outside the scope untouched. *)
Theorem ReOrderTask_shift_then_renumber
    (db : Database) (taskID userID : ObjectID) (k : Z)
    (IDTaskSectionHex : option string) (task : Task.t) :
  List.NoDup (List.map Task.ID (tasks db)) ->
  (exists d, List.In d (tasks db) /\ Task.ID d = taskID /\ Task.UserID d = userID) ->
  let section := reorderSection IDTaskSectionHex task in
  let scope := ReOrderTask_taskQuery userID section task in
  (forall d, scope d = true <-> inReorderScope userID section task d) /\
  exists db1 db2,
    ReOrderTask_shift db taskID userID (Some k) IDTaskSectionHex task = Some db1 /\
    ReOrderTask db taskID userID (Some k) IDTaskSectionHex task = (db2, [], None) /\
    List.Forall2
      (fun d d1 =>
         (Task.ID d = taskID ->
          d1 = ReOrderTask_set (Some k) (reorderSectionUpdate IDTaskSectionHex) d /\
          Task.IDOrdering d1 = k /\ Task.HasBeenReordered d1 = true) /\
         (Task.ID d <> taskID -> inReorderScope userID section task d ->
          k <= Task.IDOrdering d ->
          d1 = Task_set_IDOrdering (Task.IDOrdering d + 1) d) /\
         (Task.ID d <> taskID ->
          ~ (inReorderScope userID section task d /\ k <= Task.IDOrdering d) ->
          d1 = d))
      (tasks db) (tasks db1) /\
    List.Forall2
      (fun d1 d2 =>
         d2 = Task_set_IDOrdering (Task.IDOrdering d2) d1 /\
         (~ inReorderScope userID section task d1 -> d2 = d1))
      (tasks db1) (tasks db2) /\
    List.map Task.IDOrdering (itemsSorted scope (tasks db2)) =
      consecutive_from 1 (length (itemsSorted scope (tasks db1))) /\
    List.map Task.ID (itemsSorted scope (tasks db2)) =
      List.map Task.ID (itemsSorted scope (tasks db1)) /\
    notes db2 = notes db /\ users db2 = users db /\
    calendar_events db2 = calendar_events db.
Proof.
  intros Hnd Hex section scope.
  split; [intros d; apply ReOrderTask_taskQuery_scope|].
  pose proof (ReOrderTask_shift_char db taskID userID k IDTaskSectionHex task Hnd Hex) as Hshift.
  set (tasks1 := List.map (shifted taskID userID k IDTaskSectionHex task) (tasks db)) in *.
  assert (Hnd1 : List.NoDup (List.map Task.ID tasks1)).
  { unfold tasks1. rewrite List.map_map.
    erewrite List.map_ext; [exact Hnd|]. intros d. apply shifted_ID. }
  set (S1 := itemsSorted scope tasks1).
  set (g := renumbered (H:=Task_Reorderable) 0 (List.map Task.ID S1)).
  exists (set_tasks tasks1 db), (set_tasks (List.map g tasks1) db).
  split; [exact Hshift|].
  split.
  { unfold ReOrderTask. rewrite Hshift. rewrite ReOrderTask_section.
    unfold updateOrderingIDsV2, getTaskResultsFromQuery, GetTaskCollection. simpl.
    fold section. fold scope.
    rewrite (updateOrderingIDsV2_char scope userID tasks1 Hnd1). reflexivity. }
  simpl.
  split.
  { apply Forall2_map_r_in. intros d Hd. unfold shifted. fold section. fold scope.
    destruct (Task.ID d =? taskID) eqn:E.
    - apply Z.eqb_eq in E. split; [|split]; [|congruence|congruence].
      intros _. split; [reflexivity|]. split; reflexivity.
    - apply Z.eqb_neq in E. split; [congruence|].
      destruct (scope d && (k <=? Task.IDOrdering d)) eqn:Es.
      + split; [reflexivity|]. intros _ Hn. exfalso. apply Hn.
        apply andb_prop in Es. destruct Es as [Es Ek].
        split; [apply ReOrderTask_taskQuery_scope; exact Es|].
        apply Z.leb_le. exact Ek.
      + split; [|reflexivity]. intros _ Hsc Hk. exfalso.
        apply ReOrderTask_taskQuery_scope in Hsc. fold scope in Hsc.
        apply Z.leb_le in Hk. rewrite Hsc, Hk in Es. discriminate Es. }
  split.
  { apply Forall2_map_r_in. intros d Hd. split.
    - apply (renumbered_is_set (H:=Task_Reorderable)).
    - intros Hn. apply (renumbered_notin (H:=Task_Reorderable)).
      intro Hin. apply Hn. apply ReOrderTask_taskQuery_scope.
      apply List.in_map_iff in Hin. destruct Hin as [s [Hs Hin]].
      apply (itemsSorted_In (H:=Task_Reorderable) scope tasks1 s) in Hin.
      destruct Hin as [Hin Hsc].
      assert (s = d) by (eapply (NoDup_map_inj_in Task.ID); eauto).
      subst s. exact Hsc. }
  assert (Hafter : itemsSorted scope (List.map g tasks1) = List.map g S1).
  { apply (itemsSorted_renumbered (H:=Task_Reorderable) scope tasks1); [|exact Hnd1].
    intros z d. apply ReOrderTask_taskQuery_set. }
  rewrite Hafter.
  split.
  { apply (renumbered_own_positions (H:=Task_Reorderable) S1
             (itemsSorted_NoDup (H:=Task_Reorderable) scope tasks1 Hnd1) 0). }
  split.
  { rewrite List.map_map. apply List.map_ext. intros d.
    apply (renumbered_ID (H:=Task_Reorderable)). }
  repeat split; reflexivity.
Qed.

(** ** Shared tasks and notes *)

Lemma find_none_all {A : Type} (q : A -> bool) (l : list A) :
  (forall x, List.In x l -> q x = false) -> List.find q l = None.
Proof.
  induction l as [|x l IH]; intros Hq; [reflexivity|].
  simpl. rewrite (Hq x (or_introl eq_refl)). apply IH.
  intros y Hy. apply Hq. right. exact Hy.
Qed.

Lemma shared_query_false (id now : Z) (d_id d_until : Z) (d_deleted : option bool) :
  (d_id = id -> d_until < now \/ d_deleted = Some true) ->
  (d_id =? id) && (now <=? d_until) && ne_true d_deleted = false.
Proof.
  intros H. destruct (d_id =? id) eqn:E; [|reflexivity].
  apply Z.eqb_eq in E. destruct (H E) as [Hlt|Hdel].
  - apply Z.leb_gt in Hlt. rewrite Hlt. reflexivity.
  - rewrite Hdel. simpl. apply andb_false_r.
Qed.

Lemma shared_query_true (id now : Z) (d_id d_until : Z) (d_deleted : option bool) :
  (d_id =? id) && (now <=? d_until) && ne_true d_deleted = true ->
  d_id = id /\ now <= d_until /\ d_deleted <> Some true.
Proof.
  intros H. apply andb_prop in H. destruct H as [H Hd].
  apply andb_prop in H. destruct H as [Hi Hu].
  apply Z.eqb_eq in Hi. apply Z.leb_le in Hu. apply ne_true_spec in Hd. auto.
Qed.

(** Whatever the three functions return is the document their query
    selected. *)
Lemma GetSharedTask_returns db now id userID t :
  GetSharedTask db now id userID = Ok t ->
  FindOne (fun d => (Task.ID d =? id) && (now <=? Task.SharedUntil d)
                    && ne_true (Task.IsDeleted d)) (GetTaskCollection db) = Some t.
Proof.
  unfold GetSharedTask. intros H.
  destruct (FindOne _ _) as [task|]; [|discriminate H].
  simpl in H.
  repeat (destruct_innermost H; try discriminate H);
    injection H as <-; reflexivity.
Qed.

Lemma GetSharedNote_returns db now id n :
  GetSharedNote db now id = Ok n ->
  FindOne (fun d => (Note.ID d =? id) && (now <=? Note.SharedUntil d)
                    && ne_true (Note.IsDeleted d)) (GetNoteCollection db) = Some n.
Proof.
  unfold GetSharedNote. intros H.
  destruct (FindOne _ _) as [note|]; [|discriminate H].
  simpl in H.
  repeat (destruct_innermost H; try discriminate H);
    injection H as <-; reflexivity.
Qed.

Lemma GetSharedNoteWithAuth_returns db now id userID n :
  GetSharedNoteWithAuth db now id userID = Ok n ->
  FindOne (fun d => (Note.ID d =? id) && (now <=? Note.SharedUntil d)
                    && ne_true (Note.IsDeleted d)) (GetNoteCollection db) = Some n.
Proof.
  unfold GetSharedNoteWithAuth. intros H.
  destruct (FindOne (fun d => (Note.ID d =? id) && _ && _) _) as [note|];
    [|discriminate H].
  simpl in H.
  repeat (destruct_innermost H; try discriminate H);
    injection H as <-; reflexivity.
Qed.

(** C9. A task or note whose [shared_until] lies before the current time,
    or which is marked deleted, is not returned by [GetSharedTask],
    [GetSharedNote] or [GetSharedNoteWithAuth]: each of them yields an
    error, whoever asks, the owner included; and what they do return is a
    stored item with the ID asked for, inside its window and not marked
    deleted. *)
Theorem shared_fetch_expired_or_deleted (db : Database) (now : DateTime) (id : ObjectID) :
  ((forall t, List.In t (tasks db) -> Task.ID t = id ->
              Task.SharedUntil t < now \/ Task.IsDeleted t = Some true) ->
   forall userID, is_Err (GetSharedTask db now id userID)) /\
  ((forall n, List.In n (notes db) -> Note.ID n = id ->
              Note.SharedUntil n < now \/ Note.IsDeleted n = Some true) ->
   is_Err (GetSharedNote db now id) /\
   forall userID, is_Err (GetSharedNoteWithAuth db now id userID)) /\
  (forall userID t, GetSharedTask db now id userID = Ok t ->
     List.In t (tasks db) /\ Task.ID t = id /\
     now <= Task.SharedUntil t /\ Task.IsDeleted t <> Some true) /\
  (forall n, GetSharedNote db now id = Ok n ->
     List.In n (notes db) /\ Note.ID n = id /\
     now <= Note.SharedUntil n /\ Note.IsDeleted n <> Some true) /\
  (forall userID n, GetSharedNoteWithAuth db now id userID = Ok n ->
     List.In n (notes db) /\ Note.ID n = id /\
     now <= Note.SharedUntil n /\ Note.IsDeleted n <> Some true).
Proof.
  split.
  { intros H userID. unfold GetSharedTask, FindOne, GetTaskCollection.
    rewrite find_none_all; [exact I|].
    intros t Ht. apply shared_query_false. apply H. exact Ht. }
  split.
  { intros H.
    assert (Hf : List.find (fun d => (Note.ID d =? id) && (now <=? Note.SharedUntil d)
                                     && ne_true (Note.IsDeleted d)) (notes db) = None).
    { apply find_none_all. intros n Hn. apply shared_query_false. apply H. exact Hn. }
    split; [|intros userID];
      unfold GetSharedNote, GetSharedNoteWithAuth, FindOne, GetNoteCollection;
      rewrite Hf; exact I. }
  split; [|split].
  - intros userID t Hr. apply GetSharedTask_returns in Hr.
    apply List.find_some in Hr. destruct Hr as [Hin Hq].
    split; [exact Hin|]. apply (shared_query_true _ _ _ _ _ Hq).
  - intros n Hr. apply GetSharedNote_returns in Hr.
    apply List.find_some in Hr. destruct Hr as [Hin Hq].
    split; [exact Hin|]. apply (shared_query_true _ _ _ _ _ Hq).
  - intros userID n Hr. apply GetSharedNoteWithAuth_returns in Hr.
    apply List.find_some in Hr. destruct Hr as [Hin Hq].
    split; [exact Hin|]. apply (shared_query_true _ _ _ _ _ Hq).
Qed.

Lemma SharedAccess_eqb_eq (a b : SharedAccess) :
  SharedAccess_eqb a b = true <-> a = b.
Proof.
  destruct a, b; simpl; split; try congruence; try discriminate.
  - intros E. apply Z.eqb_eq in E. congruence.
  - intros E. injection E as ->. apply Z.eqb_refl.
Qed.




(** ** TaskModify: sharing *)

Lemma ValidateFields_status_sharing f task f' :
  ValidateFields_status f task = inr f' -> same_sharing f f'.
Proof. unfold ValidateFields_status. intros Hv. stage_sharing Hv. Qed.

Lemma ValidateFields_stamps_sharing now f :
  same_sharing f (ValidateFields_stamps now f).
Proof.
  unfold ValidateFields_stamps.
  destruct (TaskItemChangeableFields.IsCompleted f) as [[|]|];
    cbv zeta;
    match goal with
    | |- context [match ?x with _ => _ end] => destruct x as [[|]|]
    end; split; reflexivity.
Qed.

Lemma ValidateFields_timeAllocation_sharing f f' :
  ValidateFields_timeAllocation f = inr f' -> same_sharing f f'.
Proof. unfold ValidateFields_timeAllocation. intros Hv. stage_sharing Hv. Qed.

Lemma ValidateFields_priority_sharing f task f' :
  ValidateFields_priority f task = inr f' -> same_sharing f f'.
Proof. unfold ValidateFields_priority. intros Hv. stage_sharing Hv. Qed.

(** [ValidateFields] never touches the sharing fields of the request. *)
Lemma ValidateFields_sharing (now : DateTime) (f f' : TaskItemChangeableFields.t)
    (tsr : TaskSourceResult) (task : Task.t) :
  ValidateFields now f tsr task = inr f' -> same_sharing f f'.
Proof.
  unfold ValidateFields. intros Hv. cbv zeta in Hv.
  destruct (match TaskItemChangeableFields.IsCompleted f with
            | Some true => _ | _ => false end); [discriminate Hv|].
  destruct (ValidateFields_status f task) as [r|f2] eqn:E2; [discriminate Hv|].
  apply ValidateFields_status_sharing in E2.
  pose proof (ValidateFields_stamps_sharing now f2) as E4.
  destruct (match TaskItemChangeableFields.Title (ValidateFields_stamps now f2) with
            | Some title => _ | None => false end); [discriminate Hv|].
  destruct (ValidateFields_timeAllocation (ValidateFields_stamps now f2))
    as [r|f5] eqn:E5; [discriminate Hv|].
  apply ValidateFields_timeAllocation_sharing in E5.
  apply ValidateFields_priority_sharing in Hv.
  unfold same_sharing in *. intuition congruence.
Qed.

Lemma ValidateFields_status_response f task r :
  ValidateFields_status f task = inl r -> exists msg, r = detail 400 msg.
Proof.
  unfold ValidateFields_status. intros Hv. cbv zeta in Hv.
  repeat (destruct_innermost Hv; try discriminate Hv);
    injection Hv as <-; eexists; reflexivity.
Qed.

Lemma ValidateFields_timeAllocation_response f r :
  ValidateFields_timeAllocation f = inl r -> exists msg, r = detail 400 msg.
Proof.
  unfold ValidateFields_timeAllocation. intros Hv.
  repeat (destruct_innermost Hv; try discriminate Hv);
    injection Hv as <-; eexists; reflexivity.
Qed.

Lemma ValidateFields_priority_response f task r :
  ValidateFields_priority f task = inl r -> exists msg, r = detail 400 msg.
Proof.
  unfold ValidateFields_priority. intros Hv.
  repeat (destruct_innermost Hv; try discriminate Hv);
    injection Hv as <-; eexists; reflexivity.
Qed.

(** Every rejection of [ValidateFields] is a 400 with a detail. *)
Lemma ValidateFields_response now f tsr task r :
  ValidateFields now f tsr task = inl r -> exists msg, r = detail 400 msg.
Proof.
  unfold ValidateFields. intros Hv. cbv zeta in Hv.
  destruct (match TaskItemChangeableFields.IsCompleted f with
            | Some true => _ | _ => false end).
  { injection Hv as <-. eexists; reflexivity. }
  destruct (ValidateFields_status f task) as [r2|f2] eqn:E2.
  { injection Hv as <-. eapply ValidateFields_status_response; eauto. }
  destruct (match TaskItemChangeableFields.Title (ValidateFields_stamps now f2) with
            | Some title => _ | None => false end).
  { injection Hv as <-. eexists; reflexivity. }
  destruct (ValidateFields_timeAllocation (ValidateFields_stamps now f2))
    as [r5|f5] eqn:E5.
  { injection Hv as <-. eapply ValidateFields_timeAllocation_response; eauto. }
  eapply ValidateFields_priority_response; eauto.
Qed.

Lemma sharing_set_not_zero (f : TaskItemChangeableFields.t) :
  TaskItemChangeableFields.SharedAccess f <> None \/
  TaskItemChangeableFields.SharedUntil f <> 0 ->
  TaskItemChangeableFields.isZero f = false.
Proof.
  intros H. unfold TaskItemChangeableFields.isZero.
  destruct (TaskItemChangeableFields.SharedAccess f) as [sa|] eqn:Ea.
  - simpl. rewrite andb_false_r. reflexivity.
  - destruct H as [H|H]; [congruence|].
    apply Z.eqb_neq in H. rewrite H. apply andb_false_r.
Qed.

Lemma sharing_set_guard (f : TaskItemChangeableFields.t) :
  TaskItemChangeableFields.SharedAccess f <> None \/
  TaskItemChangeableFields.SharedUntil f <> 0 ->
  negb (TaskItemChangeableFields.SharedUntil f =? 0)
  || negb (isnil (TaskItemChangeableFields.SharedAccess f)) = true.
Proof.
  intros [H|H].
  - destruct (TaskItemChangeableFields.SharedAccess f); [|congruence].
    simpl. apply orb_true_r.
  - apply Z.eqb_neq in H. rewrite H. reflexivity.
Qed.

(** A request that sets a sharing field on a task of another source
    leaves the update block at the sharing guard or before it. *)
Lemma TaskModify_update_non_GT api now db userID task tsr fields dueDate :
  Task.SourceID task <> TASK_SOURCE_ID_GT_TASK ->
  (TaskItemChangeableFields.SharedAccess fields <> None \/
   TaskItemChangeableFields.SharedUntil fields <> 0) ->
  TaskModify_update api now db userID task tsr fields dueDate =
  inl (respond
         [match TaskChangeable.RecurringTaskTemplateID
                  (TaskItemChangeableFields.Task_ fields) with
          | Some hex =>
              match ObjectIDFromHex hex with
              | Ok _ => detail 400 "only General Task tasks can be shared"
              | _ => Handle500
              end
          | None => detail 400 "only General Task tasks can be shared"
          end] db).
Proof.
  intros Hsrc Hset. unfold TaskModify_update.
  apply String.eqb_neq in Hsrc.
  destruct (TaskChangeable.RecurringTaskTemplateID (TaskItemChangeableFields.Task_ fields))
    as [hex|].
  - destruct (ObjectIDFromHex hex); try reflexivity.
    rewrite Hsrc, (sharing_set_guard fields Hset). reflexivity.
  - rewrite Hsrc, (sharing_set_guard fields Hset). reflexivity.
Qed.

(** C8 (as amended). A task-modify request that sets [shared_access] or a
    non-zero [shared_until] on a task whose source is not General Task is
    always refused: the handler writes one response, which is not the 200,
    makes no external call and leaves the database as it was. When the
    request gets past the checks that come first (section ID, source
    lookup, [ValidateFields], due date, recurring-template ID), the
    response is the 400 "only General Task tasks can be shared". *)
Theorem TaskModify_sharing_only_general_task
    (api : API) (now : DateTime) (db : Database) (c : Request)
    (modifyParams : TaskModifyParams.t) (taskID : ObjectID) (task : Task.t) :
  ObjectIDFromHex (Param_task_id c) = Ok taskID ->
  BindJSON c = Ok modifyParams ->
  GetTask db taskID (UserIDFromContext c) = Ok task ->
  Task.SourceID task <> TASK_SOURCE_ID_GT_TASK ->
  (TaskItemChangeableFields.SharedAccess (TaskModifyParams.Fields modifyParams) <> None \/
   TaskItemChangeableFields.SharedUntil (TaskModifyParams.Fields modifyParams) <> 0) ->
  let out := TaskModify api now db c in
  db_after out = db /\
  external_calls out = [] /\
  (exists r, responses out = [r] /\ r <> JSON 200 []) /\
  (forall tsr fields,
      (forall hex, TaskModifyParams.IDTaskSection modifyParams = Some hex ->
                   exists id, ObjectIDFromHex hex = Ok id) ->
      ExternalConfig_GetSourceResult api (Task.SourceID task) = Ok tsr ->
      ValidateFields now (TaskModifyParams.Fields modifyParams) tsr task = inr fields ->
      (forall s, TaskItemChangeableFields.DueDate fields = Some s ->
                 (exists t, time_Parse_YEAR_MONTH_DAY api s = Ok t) \/
                 (exists t, time_Parse_RFC3339 api s = Ok t)) ->
      (forall hex, TaskChangeable.RecurringTaskTemplateID
                     (TaskItemChangeableFields.Task_ fields) = Some hex ->
                   exists id, ObjectIDFromHex hex = Ok id) ->
      responses out = [detail 400 "only General Task tasks can be shared"]).
Proof.
  intros Hid Hbind Htask Hsrc Hset out.
  assert (Hz : TaskModifyParams.isZero modifyParams = false).
  { unfold TaskModifyParams.isZero. rewrite (sharing_set_not_zero _ Hset).
    apply andb_false_r. }
  assert (Hshape :
    exists r, out = respond [r] db /\ r <> JSON 200 [] /\
      (forall tsr fields,
          (forall hex, TaskModifyParams.IDTaskSection modifyParams = Some hex ->
                       exists id, ObjectIDFromHex hex = Ok id) ->
          ExternalConfig_GetSourceResult api (Task.SourceID task) = Ok tsr ->
          ValidateFields now (TaskModifyParams.Fields modifyParams) tsr task = inr fields ->
          (forall s, TaskItemChangeableFields.DueDate fields = Some s ->
                     (exists t, time_Parse_YEAR_MONTH_DAY api s = Ok t) \/
                     (exists t, time_Parse_RFC3339 api s = Ok t)) ->
          (forall hex, TaskChangeable.RecurringTaskTemplateID
                         (TaskItemChangeableFields.Task_ fields) = Some hex ->
                       exists id, ObjectIDFromHex hex = Ok id) ->
          r = detail 400 "only General Task tasks can be shared")).
  { unfold out, TaskModify. rewrite Hid, Hbind.
    destruct (match TaskModifyParams.IDTaskSection modifyParams with
              | Some hex => match ObjectIDFromHex hex with Ok _ => false | _ => true end
              | None => false
              end) eqn:Esec.
    { eexists; split; [reflexivity|]; split; [discriminate|].
      intros tsr fields Hs.
      destruct (TaskModifyParams.IDTaskSection modifyParams) as [hex|];
        [|discriminate Esec].
      destruct (Hs hex eq_refl) as [id Hc]. rewrite Hc in Esec. discriminate Esec. }
    rewrite Htask, Hz.
    destruct (ExternalConfig_GetSourceResult api (Task.SourceID task)) as [tsr|e|] eqn:Etsr.
    2,3: (eexists; split; [reflexivity|]; split; [discriminate|];
          intros tsr' fields _ Hc; discriminate Hc).
    destruct (ValidateFields now (TaskModifyParams.Fields modifyParams) tsr task)
      as [r|fields] eqn:EV.
    { destruct (ValidateFields_response _ _ _ _ _ EV) as [msg ->].
      eexists; split; [reflexivity|]; split; [discriminate|].
      intros tsr' fields _ Hc Hv. injection Hc as <-. congruence. }
    destruct (ValidateFields_sharing _ _ _ _ _ EV) as [Ha Hu].
    assert (Hset' : TaskItemChangeableFields.SharedAccess fields <> None \/
                    TaskItemChangeableFields.SharedUntil fields <> 0)
      by (rewrite Ha, Hu; exact Hset).
    assert (Hguard : forall dueDate,
      exists r,
        TaskModify_update api now db (UserIDFromContext c) task tsr fields dueDate =
          inl (respond [r] db) /\ r <> JSON 200 [] /\
        ((forall hex, TaskChangeable.RecurringTaskTemplateID
                        (TaskItemChangeableFields.Task_ fields) = Some hex ->
                      exists id, ObjectIDFromHex hex = Ok id) ->
         r = detail 400 "only General Task tasks can be shared")).
    { intros dueDate. rewrite (TaskModify_update_non_GT _ _ _ _ _ _ _ _ Hsrc Hset').
      eexists. split; [reflexivity|]. split.
      - destruct (TaskChangeable.RecurringTaskTemplateID _) as [h|];
          [destruct (ObjectIDFromHex h)|]; discriminate.
      - intros Hrec.
        destruct (TaskChangeable.RecurringTaskTemplateID _) as [h|]; [|reflexivity].
        destruct (Hrec h eq_refl) as [id Hh]. rewrite Hh. reflexivity. }
    rewrite (sharing_set_not_zero _ Hset'). cbn [negb].
    destruct (TaskItemChangeableFields.DueDate fields) as [s|] eqn:Edue.
    - destruct (time_Parse_YEAR_MONTH_DAY api s) as [t1|e1|] eqn:Ey;
        destruct (time_Parse_RFC3339 api s) as [t2|e2|] eqn:Er;
        try (eexists; split; [reflexivity|]; split; [discriminate|];
             intros tsr' fields' _ Hc Hv Hd; injection Hc as <-;
             rewrite EV in Hv; injection Hv as <-;
             destruct (Hd s Edue) as [[t Ht]|[t Ht]]; congruence);
        match goal with
        | |- context [TaskModify_update _ _ _ _ _ _ _ ?d] =>
            destruct (Hguard d) as [r [-> [Hr Hlast]]]
        end;
        (exists r; split; [reflexivity|]; split; [exact Hr|];
         intros tsr' fields' _ Hc Hv _ Hrec; injection Hc as <-;
         rewrite EV in Hv; injection Hv as <-; apply Hlast; exact Hrec).
    - destruct (Hguard None) as [r [-> [Hr Hlast]]].
      exists r. split; [reflexivity|]. split; [exact Hr|].
      intros tsr' fields' _ Hc Hv _ Hrec. injection Hc as <-.
      rewrite EV in Hv. injection Hv as <-. apply Hlast. exact Hrec. }
  destruct Hshape as [r [Hout [Hr Hlast]]].
  rewrite Hout. simpl.
  split; [reflexivity|]. split; [reflexivity|].
  split; [exists r; auto|].
  intros tsr fields H1 H2 H3 H4 H5. f_equal. eapply Hlast; eauto.
Qed.

(** ** Reconciliation: the upsert helpers *)

Lemma tripleOf_Some (d : Doc) (u : ObjectID) (s e : string) :
  tripleOf d = Some (u, s, e) <->
  d !! "user_id"%string = Some (VOid u) /\
  d !! "source_id"%string = Some (VStr s) /\
  d !! "id_external"%string = Some (VStr e).
Proof.
  unfold tripleOf.
  destruct (d !! "user_id"%string) as [[| | | | |]|];
    destruct (d !! "source_id"%string) as [[| | | | |]|];
    destruct (d !! "id_external"%string) as [[| | | | |]|];
    split; intros H; try discriminate H;
    try (injection H as -> -> ->; auto);
    try (destruct H as (H1 & H2 & H3); congruence).
Qed.

Lemma fold_left_snoc {A : Type} (l q : list A) :
  List.fold_left (fun q x => q ++ [x]) l q = q ++ l.
Proof.
  revert q. induction l as [|x l IH]; intros q; simpl.
  - rewrite List.app_nil_r. reflexivity.
  - rewrite IH, <- List.app_assoc. reflexivity.
Qed.

Lemma getDBQuery_app (u : ObjectID) (e s : string) (filters : option (list Filter)) :
  getDBQuery u e s filters =
  [FEq "id_external" (VStr e); FEq "source_id" (VStr s); FEq "user_id" (VOid u)]
  ++ filtersOf filters.
Proof.
  unfold getDBQuery, filtersOf. destruct filters as [fs|]; [|reflexivity].
  destruct fs as [|f fs]; [reflexivity|].
  change (0 <? Z.of_nat (length (f :: fs))) with true. cbv iota.
  apply fold_left_snoc.
Qed.

Lemma getDBQuery_matches (u : ObjectID) (e s : string)
    (filters : option (list Filter)) (d : Doc) :
  matchesAll (getDBQuery u e s filters) d = true <->
  tripleOf d = Some (u, s, e) /\ matchesAll (filtersOf filters) d = true.
Proof.
  rewrite getDBQuery_app. unfold matchesAll. rewrite List.forallb_app. simpl.
  rewrite tripleOf_Some, !andb_true_iff, !bool_decide_eq_true. tauto.
Qed.

Section UpdateOneFacts.
Context {A B : Type} (q : A -> bool) (f : A -> A).

Lemma UpdateOne_map_inv (g : A -> B) (c : list A) :
  (forall d, List.In d c -> q d = true -> g (f d) = g d) ->
  List.map g (fst (UpdateOne q f c)) = List.map g c.
Proof.
  induction c as [|d c IH]; intros Hg; [reflexivity|].
  simpl. destruct (q d) eqn:E.
  - simpl. f_equal. apply Hg; [left; reflexivity|exact E].
  - destruct (UpdateOne q f c) as [c' n] eqn:EU. simpl in *. f_equal.
    apply IH. intros x Hx. apply Hg. right. exact Hx.
Qed.

Lemma UpdateOne_first (c : list A) (d : A) :
  List.find q c = Some d -> List.In (f d) (fst (UpdateOne q f c)).
Proof.
  induction c as [|x c IH]; intros Hf; [discriminate Hf|].
  simpl in *. destruct (q x) eqn:E.
  - injection Hf as <-. left. reflexivity.
  - destruct (UpdateOne q f c) as [c' n] eqn:EU. simpl in *.
    right. apply IH. exact Hf.
Qed.

Lemma UpdateOne_others (c : list A) (x : A) :
  List.In x c -> q x = false -> List.In x (fst (UpdateOne q f c)).
Proof.
  induction c as [|y c IH]; intros Hin Hq; [destruct Hin|].
  simpl. destruct (q y) eqn:E.
  - destruct Hin as [->|Hin]; [congruence|]. right. exact Hin.
  - destruct (UpdateOne q f c) as [c' n] eqn:EU. simpl in *.
    destruct Hin as [->|Hin]; [left; reflexivity|]. right. apply IH; auto.
Qed.
End UpdateOneFacts.

Lemma lookup_set (fields d : Doc) (k : string) :
  (fields ∪ d) !! k = match fields !! k with Some v => Some v | None => d !! k end.
Proof.
  rewrite lookup_union. destruct (fields !! k), (d !! k); reflexivity.
Qed.

Lemma keysAgree_set (fields d : Doc) (u : ObjectID) (s e : string) :
  keysAgree fields u s e -> tripleOf d = Some (u, s, e) ->
  tripleOf (fields ∪ d) = Some (u, s, e).
Proof.
  intros [Hu [Hs He]] Ht. apply tripleOf_Some in Ht. destruct Ht as [Du [Ds De]].
  apply tripleOf_Some. rewrite !lookup_set.
  destruct Hu as [-> | ->], Hs as [-> | ->], He as [-> | ->]; auto.
Qed.

Lemma queryEqualities_keys (u : ObjectID) (e s : string)
    (filters : option (list Filter)) :
  let qe := queryEqualities (getDBQuery u e s filters) in
  qe !! "id_external"%string = Some (VStr e) /\
  qe !! "source_id"%string = Some (VStr s) /\
  qe !! "user_id"%string = Some (VOid u).
Proof.
  rewrite getDBQuery_app. unfold queryEqualities. simpl.
  repeat split; simplify_map_eq; reflexivity.
Qed.

Lemma upsertDoc_triple (fields : Doc) (c : list Doc) (u : ObjectID) (s e : string)
    (filters : option (list Filter)) :
  keysAgree fields u s e ->
  tripleOf (upsertDoc (getDBQuery u e s filters) fields c) = Some (u, s, e).
Proof.
  intros [Hu [Hs He]]. apply tripleOf_Some. unfold upsertDoc.
  destruct (queryEqualities_keys u e s filters) as [Qe [Qs Qu]].
  rewrite !lookup_set, Qe, Qs, Qu.
  destruct Hu as [-> | ->], Hs as [-> | ->], He as [-> | ->]; auto.
Qed.

Lemma upsertDoc_fields (filters : list Filter) (fields : Doc) (c : list Doc)
    (k : string) (v : Value) :
  fields !! k = Some v -> upsertDoc filters fields c !! k = Some v.
Proof.
  intros Hk. unfold upsertDoc. rewrite !lookup_set, Hk. reflexivity.
Qed.

(** What [$set] with upsert does, whatever the query. *)
Lemma FindOneAndUpdate_set_spec (filters : list Filter) (fields : Doc) (c : list Doc) :
  let q := matchesAll filters in
  let c' := fst (FindOneAndUpdate_set filters fields c) in
  let r := snd (FindOneAndUpdate_set filters fields c) in
  List.In r c' /\
  (forall k v, fields !! k = Some v -> r !! k = Some v) /\
  (forall d, List.In d c -> q d = false -> List.In d c') /\
  (forall d0, List.find q c = Some d0 ->
     length c' = length c /\ r = fields ∪ d0 /\
     forall (B : Type) (g : Doc -> B), g (fields ∪ d0) = g d0 ->
                                       List.map g c' = List.map g c) /\
  (List.find q c = None -> c' = c ++ [r] /\ r = upsertDoc filters fields c).
Proof.
  intros q c' r. unfold c', r, FindOneAndUpdate_set, FindOne. fold q.
  destruct (List.find q c) as [d0|] eqn:Ef; simpl.
  - split; [apply UpdateOne_first; exact Ef|].
    split; [intros k v Hk; rewrite lookup_set, Hk; reflexivity|].
    split; [intros d Hd Hq; apply UpdateOne_others; auto|].
    split; [|discriminate].
    intros d1 Hd1. injection Hd1 as <-.
    split; [apply UpdateOne_length|]. split; [reflexivity|].
    intros B g Hg.
    assert (Hfirst : forall l, List.find q l = Some d0 ->
              List.map g (fst (UpdateOne q (fun d => fields ∪ d) l)) = List.map g l).
    { induction l as [|x l IH]; intros Hl; [discriminate Hl|].
      simpl in *. destruct (q x) eqn:E.
      - injection Hl as ->. simpl. f_equal. exact Hg.
      - destruct (UpdateOne q _ l) as [l' n] eqn:EU. simpl in *. f_equal.
        apply IH. exact Hl. }
    apply Hfirst. exact Ef.
  - split; [apply List.in_or_app; right; left; reflexivity|].
    split; [intros k v Hk; apply upsertDoc_fields; exact Hk|].
    split; [intros d Hd _; apply List.in_or_app; left; exact Hd|].
    split; [discriminate|]. intros _. split; reflexivity.
Qed.

Lemma find_app_none {A : Type} (q : A -> bool) (l l' : list A) :
  (forall x, List.In x l -> q x = false) -> List.find q (l ++ l') = List.find q l'.
Proof.
  induction l as [|x l IH]; intros Hq; [reflexivity|].
  simpl. rewrite (Hq x (or_introl eq_refl)). apply IH.
  intros y Hy. apply Hq. right. exact Hy.
Qed.

Lemma find_some_iff_exists {A : Type} (q : A -> bool) (l : list A) :
  (exists d, List.In d l /\ q d = true) -> exists d0, List.find q l = Some d0.
Proof.
  intros [d [Hd Hq]]. destruct (List.find q l) as [d0|] eqn:E; [eauto|].
  rewrite (List.find_none _ _ E d Hd) in Hq. discriminate Hq.
Qed.

Lemma UpdateOne_setOnInsert_matched (filters : list Filter) (toInsert : Doc)
    (c : list Doc) :
  (exists d, List.In d c /\ matchesAll filters d = true) ->
  UpdateOne_setOnInsert filters toInsert c = c.
Proof.
  intros Hex. unfold UpdateOne_setOnInsert.
  apply List.existsb_exists in Hex. rewrite Hex. reflexivity.
Qed.

Lemma keysOrFields_set (fields d : Doc) (u : ObjectID) (s e : string) :
  tripleOf d = Some (u, s, e) -> keysOrFields (fields ∪ d) fields u s e.
Proof.
  intros Ht. apply tripleOf_Some in Ht. destruct Ht as [Du [Ds De]].
  unfold keysOrFields. rewrite !lookup_set.
  repeat split; intros ->; assumption.
Qed.

Lemma keysOrFields_upsertDoc (fields : Doc) (c : list Doc) (u : ObjectID) (s e : string)
    (filters : option (list Filter)) :
  keysOrFields (upsertDoc (getDBQuery u e s filters) fields c) fields u s e.
Proof.
  unfold keysOrFields, upsertDoc.
  destruct (queryEqualities_keys u e s filters) as [Qe [Qs Qu]].
  rewrite !lookup_set, Qe, Qs, Qu.
  repeat split; intros ->; reflexivity.
Qed.

Lemma keysOrFields_triple (r fields : Doc) (u : ObjectID) (s e : string) :
  keysOrFields r fields u s e ->
  (forall k v, fields !! k = Some v -> r !! k = Some v) ->
  keysAgree fields u s e -> tripleOf r = Some (u, s, e).
Proof.
  intros [Ke [Ks Ku]] Hf [Hu [Hs He]]. apply tripleOf_Some.
  repeat split.
  - destruct Hu as [Hu|Hu]; [apply Ku; exact Hu|apply Hf; exact Hu].
  - destruct Hs as [Hs|Hs]; [apply Ks; exact Hs|apply Hf; exact Hs].
  - destruct He as [He|He]; [apply Ke; exact He|apply Hf; exact He].
Qed.

(** What the [$set] upsert returns on a query of [getDBQuery], whatever
    the collection. *)
Lemma FindOneAndUpdate_set_returned (c : list Doc) (u : ObjectID) (e s : string)
    (filters : option (list Filter)) (fields : Doc) :
  let out := FindOneAndUpdate_set (getDBQuery u e s filters) fields c in
  List.In (snd out) (fst out) /\
  (forall k v, fields !! k = Some v -> snd out !! k = Some v) /\
  keysOrFields (snd out) fields u s e /\
  (forall d, List.In d c -> matchesAll (getDBQuery u e s filters) d = false ->
             List.In d (fst out)).
Proof.
  intros out.
  pose proof (FindOneAndUpdate_set_spec (getDBQuery u e s filters) fields c)
    as [Hin [Hf [Hoth [Hm Hn]]]].
  fold out in Hin, Hf, Hoth, Hm, Hn.
  split; [exact Hin|]. split; [exact Hf|]. split; [|exact Hoth].
  destruct (List.find (matchesAll (getDBQuery u e s filters)) c) as [d0|] eqn:Ef.
  - destruct (Hm d0 eq_refl) as [_ [-> _]].
    apply List.find_some in Ef. destruct Ef as [_ Hq].
    apply getDBQuery_matches in Hq. destruct Hq as [Ht _].
    apply keysOrFields_set. exact Ht.
  - destruct (Hn eq_refl) as [_ ->]. apply keysOrFields_upsertDoc.
Qed.

Lemma UpdateOne_setOnInsert_shape (filters : list Filter) (toInsert : Doc)
    (c : list Doc) :
  (List.find (matchesAll filters) c <> None /\
   UpdateOne_setOnInsert filters toInsert c = c) \/
  (List.find (matchesAll filters) c = None /\
   UpdateOne_setOnInsert filters toInsert c = c ++ [upsertDoc filters toInsert c]).
Proof.
  unfold UpdateOne_setOnInsert.
  destruct (List.existsb (matchesAll filters) c) eqn:Ex.
  - left. split; [|reflexivity].
    apply List.existsb_exists in Ex.
    destruct (find_some_iff_exists _ _ Ex) as [d0 ->]. discriminate.
  - right. split; [|reflexivity].
    destruct (List.find (matchesAll filters) c) as [d0|] eqn:Ef; [|reflexivity].
    apply List.find_some in Ef.
    assert (List.existsb (matchesAll filters) c = true)
      by (apply List.existsb_exists; eauto).
    congruence.
Qed.

(** C3 (as amended). Reconciliation selects the cached record by the
    conjunction of the three keys [id_external], [source_id] and
    [user_id], together with any additional filters its caller passes
    (none: exactly the three keys). When a record is selected, the first
    one has the fields of the item written over it, is returned, and
    nothing else changes. When none is, one record is inserted and
    returned (after another one, when fields to insert if missing are
    passed that take the record inserted for them out of the selection).
    The record returned carries the fields of the item and, for each of
    the three keys the fields do not set, the key's value: it is filed
    under the three keys whenever the fields agree with them. Two items
    that differ in one of the three keys never select the same record,
    and when their fields agree with their keys, reconciling the second
    leaves the first one's record as it is and returns another. *)
Theorem reconciliation_selects_by_keys
    (collection : list Doc) (userID : ObjectID) (IDExternal sourceID : string) :
  (forall additionalFilters d,
      matchesAll (getDBQuery userID IDExternal sourceID additionalFilters) d = true <->
      d !! "id_external"%string = Some (VStr IDExternal) /\
      d !! "source_id"%string = Some (VStr sourceID) /\
      d !! "user_id"%string = Some (VOid userID) /\
      matchesAll (filtersOf additionalFilters) d = true) /\
  (forall d,
      matchesAll (getDBQuery userID IDExternal sourceID None) d = true <->
      tripleOf d = Some (userID, sourceID, IDExternal)) /\
  (forall toInsert fields additionalFilters,
      let dbQuery := getDBQuery userID IDExternal sourceID additionalFilters in
      let selected := matchesAll dbQuery in
      let out := FindOneAndUpdateWithCollection collection userID IDExternal sourceID
                   toInsert fields additionalFilters in
      List.In (snd out) (fst out) /\
      (forall k v, fields !! k = Some v -> snd out !! k = Some v) /\
      keysOrFields (snd out) fields userID sourceID IDExternal /\
      (keysAgree fields userID sourceID IDExternal ->
       tripleOf (snd out) = Some (userID, sourceID, IDExternal)) /\
      (forall d, List.In d collection -> selected d = false -> List.In d (fst out)) /\
      ((exists d, List.In d collection /\ selected d = true) ->
       exists d0,
         FindOne selected collection = Some d0 /\
         snd out = fields ∪ d0 /\
         fst out = fst (UpdateOne selected (fun d => fields ∪ d) collection) /\
         length (fst out) = length collection /\
         (forall k, fields !! k = None -> snd out !! k = d0 !! k)) /\
      ((forall d, List.In d collection -> selected d = false) ->
       match toInsert with
       | None =>
           fst out = collection ++ [snd out] /\
           snd out = upsertDoc dbQuery fields collection
       | Some missing =>
           let inserted := upsertDoc dbQuery missing collection in
           if selected inserted
           then fst out = collection ++ [snd out] /\ snd out = fields ∪ inserted
           else fst out = collection ++ [inserted; snd out]
       end)) /\
  (forall userID' IDExternal' sourceID' additionalFilters additionalFilters' d,
      (userID, sourceID, IDExternal) <> (userID', sourceID', IDExternal') ->
      ~ (matchesAll (getDBQuery userID IDExternal sourceID additionalFilters) d = true /\
         matchesAll (getDBQuery userID' IDExternal' sourceID' additionalFilters') d = true)) /\
  (forall toInsert fields additionalFilters
          userID' IDExternal' sourceID' toInsert' fields' additionalFilters',
      (userID, sourceID, IDExternal) <> (userID', sourceID', IDExternal') ->
      keysAgree fields userID sourceID IDExternal ->
      keysAgree fields' userID' sourceID' IDExternal' ->
      let out := FindOneAndUpdateWithCollection collection userID IDExternal sourceID
                   toInsert fields additionalFilters in
      let out' := FindOneAndUpdateWithCollection (fst out) userID' IDExternal' sourceID'
                    toInsert' fields' additionalFilters' in
      List.In (snd out) (fst out') /\
      List.In (snd out') (fst out') /\
      tripleOf (snd out) = Some (userID, sourceID, IDExternal) /\
      tripleOf (snd out') = Some (userID', sourceID', IDExternal') /\
      snd out' <> snd out).
Proof.
  assert (Hall : forall (c : list Doc) (u : ObjectID) (e s : string)
                   toInsert fields filters,
            let dbQuery := getDBQuery u e s filters in
            let selected := matchesAll dbQuery in
            let out := FindOneAndUpdateWithCollection c u e s toInsert fields filters in
            List.In (snd out) (fst out) /\
            (forall k v, fields !! k = Some v -> snd out !! k = Some v) /\
            keysOrFields (snd out) fields u s e /\
            (keysAgree fields u s e -> tripleOf (snd out) = Some (u, s, e)) /\
            (forall d, List.In d c -> selected d = false -> List.In d (fst out))).
  { intros c u e s toInsert fields filters dbQuery selected out.
    unfold out, FindOneAndUpdateWithCollection. fold dbQuery.
    set (c1 := match toInsert with
               | Some missing => UpdateOne_setOnInsert dbQuery missing c
               | None => c
               end).
    pose proof (FindOneAndUpdate_set_returned c1 u e s filters fields)
      as [Hin [Hf [Hk Hoth]]].
    fold dbQuery in Hin, Hf, Hk, Hoth.
    split; [exact Hin|]. split; [exact Hf|]. split; [exact Hk|].
    split; [intros Ha; eapply keysOrFields_triple; eauto|].
    intros d Hd Hq. apply Hoth; [|exact Hq].
    unfold c1. destruct toInsert as [missing|]; [|exact Hd].
    destruct (UpdateOne_setOnInsert_shape dbQuery missing c) as [[_ ->]|[_ ->]];
      [exact Hd|apply List.in_or_app; left; exact Hd]. }
  split.
  { intros filters d. rewrite getDBQuery_matches, tripleOf_Some. tauto. }
  split.
  { intros d. rewrite getDBQuery_matches. simpl. tauto. }
  split.
  { intros toInsert fields filters dbQuery selected out.
    destruct (Hall collection userID IDExternal sourceID toInsert fields filters)
      as [A1 [A2 [A3 [A4 A5]]]].
    fold dbQuery selected out in A1, A2, A3, A4, A5.
    split; [exact A1|]. split; [exact A2|]. split; [exact A3|].
    split; [exact A4|]. split; [exact A5|]. split.
    - intros Hex.
      assert (Hout : out = FindOneAndUpdate_set dbQuery fields collection).
      { unfold out, FindOneAndUpdateWithCollection. fold dbQuery.
        destruct toInsert as [ins|]; [|reflexivity].
        rewrite UpdateOne_setOnInsert_matched; [reflexivity|exact Hex]. }
      destruct (find_some_iff_exists _ _ Hex) as [d0 Hd0].
      exists d0. split; [exact Hd0|].
      rewrite Hout. unfold FindOneAndUpdate_set, FindOne. fold selected.
      rewrite Hd0. cbn [fst snd].
      split; [reflexivity|]. split; [reflexivity|].
      split; [apply UpdateOne_length|].
      intros k Hk. rewrite lookup_set, Hk. reflexivity.
    - intros Hnone.
      assert (Hf : List.find selected collection = None)
        by (apply find_none_all; exact Hnone).
      unfold out, FindOneAndUpdateWithCollection. fold dbQuery.
      destruct toInsert as [missing|].
      + destruct (UpdateOne_setOnInsert_shape dbQuery missing collection)
          as [[Hc _]|[_ ->]]; [contradiction|].
        cbv zeta. unfold FindOneAndUpdate_set, FindOne. fold selected.
        rewrite (find_app_none _ _ _ Hnone). cbn [List.find].
        destruct (selected (upsertDoc dbQuery missing collection)) eqn:Esel;
          cbn [fst snd].
        * split; [|reflexivity].
          assert (HU : forall l x, (forall d, List.In d l -> selected d = false) ->
                         selected x = true ->
                         fst (UpdateOne selected (fun d => fields ∪ d) (l ++ [x])) =
                         l ++ [fields ∪ x]).
          { clear. induction l as [|y l IH]; intros x Hl Hx; simpl.
            - rewrite Hx. reflexivity.
            - rewrite (Hl y (or_introl eq_refl)).
              specialize (IH x (fun d Hd => Hl d (or_intror Hd)) Hx).
              destruct (UpdateOne selected _ (l ++ [x])) as [l' n]. simpl in *.
              rewrite IH. reflexivity. }
          apply HU; assumption.
        * rewrite <- List.app_assoc. reflexivity.
      + unfold FindOneAndUpdate_set, FindOne. fold selected. rewrite Hf.
        split; reflexivity. }
  split.
  { intros u' e' s' f f' d Hne [H1 H2].
    apply getDBQuery_matches in H1, H2. destruct H1 as [H1 _], H2 as [H2 _].
    congruence. }
  intros toInsert fields filters u' e' s' toInsert' fields' filters' Hne Hk Hk' out out'.
  destruct (Hall collection userID IDExternal sourceID toInsert fields filters)
    as [A1 [_ [_ [A4 _]]]].
  fold out in A1, A4. specialize (A4 Hk).
  destruct (Hall (fst out) u' e' s' toInsert' fields' filters')
    as [B1 [_ [_ [B4 B5]]]].
  fold out' in B1, B4, B5. specialize (B4 Hk').
  split.
  { apply B5; [exact A1|].
    destruct (matchesAll (getDBQuery u' e' s' filters') (snd out)) eqn:E; [|reflexivity].
    apply getDBQuery_matches in E. destruct E as [E _]. congruence. }
  split; [exact B1|]. split; [exact A4|]. split; [exact B4|].
  intros Heq. rewrite Heq in B4. congruence.
Qed.

(** ** The cache invariant *)







Lemma UpdateOrCreatePullRequest_eq (c : list Doc) (u : ObjectID) (e s : string)
    (fields : Doc) :
  UpdateOrCreatePullRequest c u e s fields None =
  (fst (FindOneAndUpdate_set (getDBQuery u e s None) fields c),
   Ok (snd (FindOneAndUpdate_set (getDBQuery u e s None) fields c))).
Proof.
  unfold UpdateOrCreatePullRequest, FindOneAndUpdateWithCollection.
  destruct (FindOneAndUpdate_set _ _ _). reflexivity.
Qed.












(** ** The conditional fetch of a pull request *)

Lemma pullRequestHasBeenModified_cached (gh : GithubAPI) (c : list Doc)
    (u : ObjectID) (rd : GithubPRRequestData) (url : option string) (dbPR : Doc) :
  FindOneExternalWithCollection c u (pretty (GPR_ID (RD_PullRequest rd))) = Some dbPR ->
  DateTime_Time_IsZero (getTime "last_fetched" dbPR) = false ->
  pullRequestHasBeenModified gh c u rd url =
  (match client_Do gh (conditionalRequest rd url dbPR) with
   | Ok statusCode => negb (statusCode =? StatusNotModified)
   | _ => true
   end,
   Some dbPR,
   [CallConditional (conditionalRequest rd url dbPR)]).
Proof.
  intros Hf Hz.
  unfold pullRequestHasBeenModified, GetPullRequestByExternalID, Decode.
  rewrite Hf. cbv zeta. rewrite Hz. cbn [negb].
  fold (conditionalRequest rd url dbPR).
  destruct (client_Do gh (conditionalRequest rd url dbPR)); reflexivity.
Qed.

(** C4 (as amended). For a pull request that has a cached record with a
    non-zero [LastFetched], the fetch begins with the conditional request,
    which carries [If-Modified-Since] with that time. On a 304 the cached
    record is what the fetch delivers, with no detailed fetch; the
    receiving loop then passes it on unchanged and writes nothing, unless
    the record is marked completed, in which case it is stored again as
    not completed with the time of the request. On any other answer the
    details are fetched anew. *)
Theorem getPullRequestInfo_conditional_fetch
    (gh : GithubAPI) (c : list Doc) (u : ObjectID) (accountID : string)
    (rd : GithubPRRequestData) (url : option string) (dbPR : Doc) :
  FindOneExternalWithCollection c u (pretty (GPR_ID (RD_PullRequest rd))) = Some dbPR ->
  DateTime_Time_IsZero (getTime "last_fetched" dbPR) = false ->
  let request := conditionalRequest rd url dbPR in
  let info := getPullRequestInfo gh c u accountID rd url in
  Header_IfModifiedSince request = Some (getTime "last_fetched" dbPR) /\
  (exists rest, snd info = CallConditional request :: rest) /\
  (client_Do gh request = Ok StatusNotModified ->
   info = (Some dbPR, [CallConditional request]) /\
   forall t prs,
     (getOid "_id" dbPR <> NilObjectID ->
      getBoolPtr "is_completed" dbPR <> Some true ->
      GetPullRequests_join u [(fst info, t)] c prs = (c, Ok (prs ++ [dbPR]))) /\
     (getBoolPtr "is_completed" dbPR = Some true ->
      exists c' pr,
        GetPullRequests_join u [(fst info, t)] c prs = (c', Ok (prs ++ [pr])) /\
        getBoolPtr "is_completed" pr = Some false /\
        getTime "last_fetched" pr = t /\
        exists d, List.In d c' /\
                  d !! "is_completed"%string = Some (VBool false) /\
                  d !! "last_fetched"%string = Some (VTime t))) /\
  (client_Do gh request <> Ok StatusNotModified ->
   snd info = [CallConditional request; CallDetails rd] /\
   fst info = match fetchDetails gh rd with
              | Ok details => Some (newPullRequest u accountID rd details)
              | _ => None
              end).
Proof.
  intros Hf Hz request info.
  pose proof (pullRequestHasBeenModified_cached gh c u rd url dbPR Hf Hz) as Hmod.
  fold request in Hmod.
  split; [reflexivity|].
  split.
  { unfold info, getPullRequestInfo. rewrite Hmod.
    destruct (client_Do gh request) as [status|e|];
      try destruct (negb (status =? StatusNotModified)); cbn [negb];
      try destruct (fetchDetails gh rd); eexists; reflexivity. }
  split.
  - intros H304.
    assert (Hinfo : info = (Some dbPR, [CallConditional request])).
    { unfold info, getPullRequestInfo. rewrite Hmod, H304. reflexivity. }
    split; [exact Hinfo|]. intros t prs. rewrite Hinfo. cbn [fst].
    split.
    + intros Hid Hnc. cbn [GetPullRequests_join].
      apply Z.eqb_neq in Hid. rewrite Hid. cbn [negb andb].
      destruct (getBoolPtr "is_completed" dbPR) as [[|]|]; [congruence| |]; reflexivity.
    + intros Hcompleted. cbn [GetPullRequests_join].
      rewrite Hcompleted. cbn [negb]. rewrite andb_false_r.
      rewrite UpdateOrCreatePullRequest_eq.
      set (pr1 := <["last_fetched"%string := VTime t]>
                    (<["is_completed"%string := VBool false]> dbPR)).
      set (q := getDBQuery u (getStr "id_external" pr1) (getStr "source_id" pr1) None).
      pose proof (FindOneAndUpdate_set_spec q pr1 c) as [Hin [Hfields _]].
      eexists _, _. split; [reflexivity|].
      split; [unfold getBoolPtr, pr1; simplify_map_eq; reflexivity|].
      split; [unfold getTime, pr1; simplify_map_eq; reflexivity|].
      exists (snd (FindOneAndUpdate_set q pr1 c)).
      split; [exact Hin|].
      split; apply Hfields; unfold pr1; simplify_map_eq; reflexivity.
  - intros Hnot. unfold info, getPullRequestInfo. rewrite Hmod.
    destruct (client_Do gh request) as [status|e|].
    + destruct (status =? StatusNotModified) eqn:Es.
      { apply Z.eqb_eq in Es. congruence. }
      cbn [negb]. destruct (fetchDetails gh rd); split; reflexivity.
    + cbn [negb]. destruct (fetchDetails gh rd); split; reflexivity.
    + cbn [negb]. destruct (fetchDetails gh rd); split; reflexivity.
Qed.

(** ** Worked examples *)

Lemma reorderDB_NoDup : List.NoDup (List.map Task.ID (tasks reorderDB)).
Proof. nodup_literals. Defined.

Lemma reorderDB_owner :
  exists d, List.In d (tasks reorderDB) /\ Task.ID d = 1 /\ Task.UserID d = 7.
Proof.
  exists (exampleTask 1 7 3 1 0 TASK_SOURCE_ID_GT_TASK).
  split; [left; reflexivity|]. split; reflexivity.
Defined.

(** C1, the claim as written, fails: task 1 is moved to position 5 in a
    list of two and ends at 1, not at 5; task 2, whose ordering ID 7 is at
    least 5, ends at 2, not at 8; the task of the other user keeps its
    ordering ID. *)
Lemma ReOrderTask_renumbers_after_shift :
  List.map (fun d => (Task.ID d, Task.IDOrdering d))
    (tasks (fst (fst (ReOrderTask reorderDB 1 7 (Some 5) None
                        (exampleTask 1 7 3 1 0 TASK_SOURCE_ID_GT_TASK))))) =
  [(1, 1); (2, 2); (3, 5)].
Proof. vm_compute. reflexivity. Qed.

Lemma ReOrderTask_shift_then_renumber_witness :
  let task := exampleTask 1 7 3 1 0 TASK_SOURCE_ID_GT_TASK in
  List.NoDup (List.map Task.ID (tasks reorderDB)) /\
  (exists d, List.In d (tasks reorderDB) /\ Task.ID d = 1 /\ Task.UserID d = 7) /\
  exists db1 db2,
    ReOrderTask_shift reorderDB 1 7 (Some 5) None task = Some db1 /\
    ReOrderTask reorderDB 1 7 (Some 5) None task = (db2, [], None) /\
    List.map Task.IDOrdering
      (itemsSorted (ReOrderTask_taskQuery 7 1 task) (tasks db2)) =
    consecutive_from 1
      (length (itemsSorted (ReOrderTask_taskQuery 7 1 task) (tasks db1))).
Proof.
  intros task.
  split; [exact reorderDB_NoDup|]. split; [exact reorderDB_owner|].
  pose proof (ReOrderTask_shift_then_renumber reorderDB 1 7 5 None task
                reorderDB_NoDup reorderDB_owner) as H.
  cbv zeta in H.
  destruct H as [_ [db1 [db2 [H1 [H2 [_ [_ [H5 _]]]]]]]].
  exists db1, db2. split; [exact H1|]. split; [exact H2|exact H5].
Defined.

Lemma exampleViews_NoDup : List.NoDup (List.map doc_ID exampleViews).
Proof. nodup_literals. Defined.

Lemma normalizeOrderingIDs_consecutive_witness :
  List.NoDup (List.map doc_ID exampleViews) /\
  List.map doc_IDOrdering (userItemsSorted 7 (normalizeOrderingIDs exampleViews 7)) =
  [1; 2; 3].
Proof.
  split; [exact exampleViews_NoDup|].
  exact (proj1 (normalizeOrderingIDs_consecutive exampleViews 7 exampleViews_NoDup)).
Defined.

(** C3, the claim as written, fails when the caller passes an additional
    filter: a record is cached under the three keys of the item, but it is
    completed and the filter asks for [is_completed: false], so it is not
    selected and a second record is inserted beside it. *)
Lemma reconciliation_with_additional_filter :
  let c := [cachedPR true] in
  let out := FindOneAndUpdateWithCollection c 7 "42" TASK_SOURCE_ID_GITHUB_PR None
               {["title"%string := VStr "Fix the lexer"]}
               (Some [FEq "is_completed" (VBool false)]) in
  List.map tripleOf c = [Some (7, TASK_SOURCE_ID_GITHUB_PR, "42"%string)] /\
  List.map tripleOf (fst out) =
    [Some (7, TASK_SOURCE_ID_GITHUB_PR, "42"%string);
     Some (7, TASK_SOURCE_ID_GITHUB_PR, "42"%string)] /\
  List.map (getStr "title") (fst out) = ["Fix the parser"%string; "Fix the lexer"%string].
Proof. vm_compute. repeat split; reflexivity. Qed.

Lemma reconciliation_selects_by_keys_witness :
  let c := [cachedPR false] in
  let fields : Doc := {["title"%string := VStr "Fix the lexer"]} in
  let out := FindOneAndUpdateWithCollection c 7 "42" TASK_SOURCE_ID_GITHUB_PR None
               fields None in
  (exists d, List.In d c /\
             matchesAll (getDBQuery 7 "42" TASK_SOURCE_ID_GITHUB_PR None) d = true) /\
  length (fst out) = 1%nat /\
  snd out !! "title"%string = Some (VStr "Fix the lexer").
Proof.
  intros c fields out.
  assert (Hex : exists d, List.In d c /\
              matchesAll (getDBQuery 7 "42" TASK_SOURCE_ID_GITHUB_PR None) d = true).
  { exists (cachedPR false). split; [left; reflexivity|]. vm_compute. reflexivity. }
  split; [exact Hex|].
  pose proof (proj1 (proj2 (proj2
                (reconciliation_selects_by_keys c 7 "42" TASK_SOURCE_ID_GITHUB_PR)))
                None fields None) as H.
  cbv zeta in H. destruct H as [_ [Hf [_ [_ [_ [Hupd _]]]]]].
  destruct (Hupd Hex) as [d0 [_ [_ [_ [Hlen _]]]]].
  split; [exact Hlen|]. apply Hf. reflexivity.
Defined.

Lemma cachedPR_found (isCompleted : bool) :
  FindOneExternalWithCollection [cachedPR isCompleted] 7
    (pretty (GPR_ID (RD_PullRequest exampleRequestData))) =
  Some (cachedPR isCompleted).
Proof.
  unfold FindOneExternalWithCollection, FindOne. cbn [List.find].
  assert (Hq : matchesAll
                 [FEq "id_external"
                      (VStr (pretty (GPR_ID (RD_PullRequest exampleRequestData))));
                  FEq "user_id" (VOid 7)] (cachedPR isCompleted) = true)
    by (destruct isCompleted; vm_compute; reflexivity).
  rewrite Hq. reflexivity.
Defined.

(** C4, the claim as written, fails for a cached record that is marked
    completed: Github answers 304 and the fetch delivers the cached
    record after the conditional request alone, yet the receiving loop
    stores it again, not completed and with the time of the request, and
    returns it so changed. *)
Lemma completed_cached_pull_request_is_stored_again :
  let c := [cachedPR true] in
  let gh := githubAnswering 304 in
  let info := getPullRequestInfo gh c 7 "account" exampleRequestData None in
  let out := GetPullRequests_fetch gh c 7 "account" None [(exampleRequestData, 2000)] in
  let view := fun d => (getOid "_id" d, getBoolPtr "is_completed" d,
                        getTime "last_fetched" d) in
  option_map view (fst info) = Some (5, Some true, 1000) /\
  length (snd info) = 1%nat /\
  List.map view c = [(5, Some true, 1000)] /\
  List.map view (fst out) = [(5, Some false, 2000)] /\
  match snd out with Ok prs => List.map view prs | _ => [] end =
    [(5, Some false, 2000)].
Proof.
  intros c gh info out view.
  split; [vm_compute; reflexivity|]. split; [vm_compute; reflexivity|].
  split; [vm_compute; reflexivity|]. split; vm_compute; reflexivity.
Qed.

Lemma getPullRequestInfo_conditional_fetch_witness :
  let c := [cachedPR false] in
  let gh := githubAnswering 304 in
  FindOneExternalWithCollection c 7 (pretty (GPR_ID (RD_PullRequest exampleRequestData))) =
    Some (cachedPR false) /\
  DateTime_Time_IsZero (getTime "last_fetched" (cachedPR false)) = false /\
  getPullRequestInfo gh c 7 "account" exampleRequestData None =
    (Some (cachedPR false),
     [CallConditional (conditionalRequest exampleRequestData None (cachedPR false))]).
Proof.
  intros c gh.
  assert (H2 : DateTime_Time_IsZero (getTime "last_fetched" (cachedPR false)) = false)
    by reflexivity.
  split; [exact (cachedPR_found false)|]. split; [exact H2|].
  pose proof (getPullRequestInfo_conditional_fetch gh c 7 "account"
                exampleRequestData None (cachedPR false) (cachedPR_found false) H2) as H.
  cbv zeta in H. destruct H as [_ [_ [H304 _]]].
  exact (proj1 (H304 eq_refl)).
Defined.





(** C8, the claim as written, fails when an earlier check refuses the
    request: the request sets [shared_access] on a task of another source,
    and its empty title is answered first. *)
Lemma TaskModify_earlier_check_answers_first :
  let out := TaskModify exampleAPI 100 linearDB (shareRequest (Some ""%string)) in
  GetTask linearDB 1 7 = Ok (exampleTask 1 7 1 1 0 "linear_task") /\
  TaskItemChangeableFields.SharedAccess (shareFields (Some ""%string)) =
    Some "public"%string /\
  responses out = [detail 400 "title cannot be empty"] /\
  responses out <> [detail 400 "only General Task tasks can be shared"].
Proof.
  vm_compute. split; [reflexivity|]. split; [reflexivity|].
  split; [reflexivity|discriminate].
Qed.

Lemma TaskModify_sharing_only_general_task_witness :
  let c := shareRequest None in
  let task := exampleTask 1 7 1 1 0 "linear_task" in
  ObjectIDFromHex (Param_task_id c) = Ok 1 /\
  GetTask linearDB 1 (UserIDFromContext c) = Ok task /\
  Task.SourceID task <> TASK_SOURCE_ID_GT_TASK /\
  db_after (TaskModify exampleAPI 100 linearDB c) = linearDB /\
  responses (TaskModify exampleAPI 100 linearDB c) =
    [detail 400 "only General Task tasks can be shared"].
Proof.
  intros c task.
  assert (H1 : ObjectIDFromHex (Param_task_id c) = Ok 1) by (vm_compute; reflexivity).
  assert (H3 : GetTask linearDB 1 (UserIDFromContext c) = Ok task) by reflexivity.
  assert (H4 : Task.SourceID task <> TASK_SOURCE_ID_GT_TASK) by discriminate.
  split; [exact H1|]. split; [exact H3|]. split; [exact H4|].
  pose proof (TaskModify_sharing_only_general_task exampleAPI 100 linearDB c
                (TaskModifyParams.mk None None (shareFields None)) 1 task
                H1 eq_refl H3 H4 (or_introl (fun E => eq_ind (Some "public"%string)
                   (fun o => match o with Some _ => True | None => False end) I None E)))
    as H.
  cbv zeta in H. destruct H as [Hdb [_ [_ Hlast]]].
  split; [exact Hdb|].
  apply (Hlast exampleSource (shareFields None)).
  - intros hex Hc. discriminate Hc.
  - reflexivity.
  - vm_compute. reflexivity.
  - intros s Hc. discriminate Hc.
  - intros hex Hc. discriminate Hc.
Defined.

Lemma shared_fetch_expired_or_deleted_witness :
  (forall t, List.In t (tasks sharingDB) -> Task.ID t = 3 ->
             Task.SharedUntil t < 100 \/ Task.IsDeleted t = Some true) /\
  is_Err (GetSharedTask sharingDB 100 3 (Some 7)).
Proof.
  assert (H : forall t, List.In t (tasks sharingDB) -> Task.ID t = 3 ->
                        Task.SharedUntil t < 100 \/ Task.IsDeleted t = Some true).
  { intros t [<-|[<-|[<-|[]]]] Hid; simpl in *; try discriminate Hid.
    left. lia. }
  split; [exact H|].
  exact (proj1 (shared_fetch_expired_or_deleted sharingDB 100 3) H (Some 7)).
Defined.

(* ===================================================================== *)
(** * Part III. Further properties                                         *)
(* ===================================================================== *)

(** ** AdjustOrderingIDsForCollection: the place of the item *)


(** X1. [AdjustOrderingIDsForCollection] puts the item in its place: the
    user's other items keep their relative order, those whose ordering ID
    was below [orderingID] (and below the item's) end before the item,
    those at [orderingID] or above (and not below the item's) end after
    it, the user's items end numbered 1..n, and no document changes its
    [_id] or owner, nor does any document of another user change at
    all. *)
Theorem AdjustOrderingIDsForCollection_places_item
    {A : Type} `{Reorderable A} (c : list A) (userID itemID : ObjectID) (k : Z) :
  List.NoDup (List.map doc_ID c) ->
  exists new : A -> A,
    AdjustOrderingIDsForCollection c userID itemID k = List.map new c /\
    (forall d, doc_ID (new d) = doc_ID d /\ doc_UserID (new d) = doc_UserID d) /\
    (forall d, List.In d c -> doc_UserID d <> userID -> new d = d) /\
    List.map doc_IDOrdering
      (userItemsSorted userID (AdjustOrderingIDsForCollection c userID itemID k)) =
      consecutive_from 1 (length (userItemsSorted userID c)) /\
    (forall x y, List.In x c -> List.In y c ->
       doc_UserID x = userID -> doc_UserID y = userID ->
       doc_ID x <> itemID -> doc_ID y <> itemID ->
       doc_IDOrdering x < doc_IDOrdering y ->
       doc_IDOrdering (new x) < doc_IDOrdering (new y)) /\
    (forall m x, List.In m c -> List.In x c ->
       doc_UserID m = userID -> doc_UserID x = userID ->
       doc_ID m = itemID -> doc_ID x <> itemID ->
       (doc_IDOrdering x < k -> doc_IDOrdering x < doc_IDOrdering m ->
        doc_IDOrdering (new x) < doc_IDOrdering (new m)) /\
       (k <= doc_IDOrdering x -> doc_IDOrdering m <= doc_IDOrdering x ->
        doc_IDOrdering (new m) < doc_IDOrdering (new x))).
Proof.
  intros Hnd.
  set (q := fun d : A => negb (doc_ID d =? itemID) && (doc_UserID d =? userID)
                         && (k <=? doc_IDOrdering d)).
  set (sh := fun d : A => if q d then inc_IDOrdering d else d).
  set (c1 := List.map sh c).
  assert (Hsh_id : forall d, doc_ID (sh d) = doc_ID d).
  { intros d. unfold sh. destruct (q d); [apply doc_set_ID|reflexivity]. }
  assert (Hsh_u : forall d, doc_UserID (sh d) = doc_UserID d).
  { intros d. unfold sh. destruct (q d); [apply doc_set_UserID|reflexivity]. }
  assert (Hsh_o : forall d, doc_IDOrdering (sh d) =
                            if q d then doc_IDOrdering d + 1 else doc_IDOrdering d).
  { intros d. unfold sh. destruct (q d); [apply doc_set_get|reflexivity]. }
  assert (Hnd1 : List.NoDup (List.map doc_ID c1)).
  { unfold c1. rewrite List.map_map. erewrite List.map_ext; [exact Hnd|]. exact Hsh_id. }
  set (ids := List.map doc_ID (userItemsSorted userID c1)).
  assert (Hfun : AdjustOrderingIDsForCollection c userID itemID k =
                 List.map (renumbered 0 ids) c1).
  { unfold AdjustOrderingIDsForCollection, UpdateMany.
    apply (normalizeOrderingIDs_char c1 userID Hnd1). }
  assert (Hmono : forall x y, List.In x c -> List.In y c ->
            doc_UserID x = userID -> doc_UserID y = userID ->
            doc_IDOrdering (sh x) < doc_IDOrdering (sh y) ->
            doc_IDOrdering (renumbered 0 ids (sh x)) <
            doc_IDOrdering (renumbered 0 ids (sh y))).
  { intros x y Hx Hy Hux Huy Hlt.
    apply (normalizeOrderingIDs_monotone c1 userID (sh x) (sh y)); auto.
    - apply List.in_map. exact Hx.
    - apply List.in_map. exact Hy.
    - rewrite Hsh_u. exact Hux.
    - rewrite Hsh_u. exact Huy. }
  assert (Hq : forall d, q d = negb (doc_ID d =? itemID) && (doc_UserID d =? userID)
                               && (k <=? doc_IDOrdering d)) by reflexivity.
  exists (fun d => renumbered 0 ids (sh d)).
  split; [rewrite Hfun; unfold c1; apply List.map_map|].
  split.
  { intros d. rewrite renumbered_ID, renumbered_UserID, Hsh_id, Hsh_u. auto. }
  split.
  { intros d Hd Hu.
    assert (Hqd : q d = false).
    { rewrite Hq. apply Z.eqb_neq in Hu. rewrite Hu, andb_false_r. reflexivity. }
    cbv beta. unfold sh. rewrite Hqd. apply renumbered_notin.
    intro Hin. unfold ids in Hin. apply List.in_map_iff in Hin.
    destruct Hin as [s [Hs Hin]]. apply itemsSorted_In in Hin.
    destruct Hin as [Hin Hus]. apply Z.eqb_eq in Hus.
    unfold c1 in Hin. apply List.in_map_iff in Hin. destruct Hin as [s0 [<- Hs0]].
    rewrite Hsh_id in Hs. rewrite Hsh_u in Hus.
    assert (s0 = d) by exact (NoDup_map_inj_in doc_ID c s0 d Hnd Hs0 Hd Hs).
    subst s0. congruence. }
  split.
  { rewrite Hfun. unfold ids.
    rewrite (userItemsSorted_renumbered c1 userID Hnd1).
    rewrite (renumbered_own_positions (userItemsSorted userID c1)
               (itemsSorted_NoDup _ c1 Hnd1) 0).
    f_equal. unfold userItemsSorted, itemsSorted, Find.
    rewrite !(Permutation_length (sort_by_perm _ _)).
    unfold c1. rewrite filter_map_commute, List.length_map; [reflexivity|].
    intros d. rewrite Hsh_u. reflexivity. }
  assert (Hqo : forall x, doc_UserID x = userID -> doc_ID x <> itemID ->
                          q x = (k <=? doc_IDOrdering x)).
  { intros x Hux Hix. rewrite Hq. apply Z.eqb_neq in Hix. apply Z.eqb_eq in Hux.
    rewrite Hix, Hux. reflexivity. }
  split.
  { intros x y Hx Hy Hux Huy Hix Hiy Hlt. apply Hmono; auto.
    rewrite !Hsh_o, (Hqo x Hux Hix), (Hqo y Huy Hiy).
    destruct (k <=? doc_IDOrdering x) eqn:Ex, (k <=? doc_IDOrdering y) eqn:Ey;
      try apply Z.leb_le in Ex; try apply Z.leb_gt in Ex;
      try apply Z.leb_le in Ey; try apply Z.leb_gt in Ey; lia. }
  intros m x Hm Hx Hum Hux Him Hix.
  assert (Hqm : q m = false).
  { rewrite Hq. apply Z.eqb_eq in Him. rewrite Him. reflexivity. }
  pose proof (Hqo x Hux Hix) as Hqx.
  split.
  - intros Hk Hlt. apply Hmono; auto. rewrite !Hsh_o, Hqm, Hqx.
    apply Z.leb_gt in Hk. rewrite Hk. exact Hlt.
  - intros Hk Hle. apply Hmono; auto. rewrite !Hsh_o, Hqm, Hqx.
    apply Z.leb_le in Hk. rewrite Hk. lia.
Qed.

Lemma AdjustOrderingIDsForCollection_places_item_witness :
  List.NoDup (List.map doc_ID exampleViews) /\
  List.map doc_IDOrdering
    (userItemsSorted 7 (AdjustOrderingIDsForCollection exampleViews 7 14 2)) = [1; 2; 3].
Proof.
  split; [exact exampleViews_NoDup|].
  destruct (AdjustOrderingIDsForCollection_places_item exampleViews 7 14 2
              exampleViews_NoDup) as [new [_ [_ [_ [Hnum _]]]]].
  exact Hnum.
Defined.

(** ** Lookups by owner *)

(** X2. [GetTask] answers for the owner only: what it returns is a stored
    task with the ID asked for that belongs to the user asking; with
    unique [_id] values the task with that ID is returned to its owner and
    refused, with the driver's no-documents error, to everyone else, as is
    an ID no task has. *)
Theorem GetTask_owner_only (db : Database) (itemID userID : ObjectID) :
  (forall t, GetTask db itemID userID = Ok t ->
     List.In t (tasks db) /\ Task.ID t = itemID /\ Task.UserID t = userID) /\
  (List.NoDup (List.map Task.ID (tasks db)) ->
   forall t, List.In t (tasks db) -> Task.ID t = itemID ->
     (Task.UserID t = userID -> GetTask db itemID userID = Ok t) /\
     (Task.UserID t <> userID -> GetTask db itemID userID = Err ErrNoDocuments)) /\
  ((forall t, List.In t (tasks db) -> Task.ID t <> itemID) ->
   GetTask db itemID userID = Err ErrNoDocuments).
Proof.
  unfold GetTask, FindOneWithCollection_Task, FindOne, GetTaskCollection, Decode.
  split; [|split].
  - intros t Hr.
    destruct (List.find _ (tasks db)) as [d|] eqn:Ef; [|discriminate Hr].
    injection Hr as <-. apply List.find_some in Ef. destruct Ef as [Hin Hq].
    apply andb_prop in Hq. destruct Hq as [Hi Hu].
    apply Z.eqb_eq in Hi, Hu. auto.
  - intros Hnd t Hin Hid. split.
    + intros Hu.
      rewrite (find_unique_key Task.ID _ (tasks db) t Hnd Hin).
      * reflexivity.
      * rewrite Hid, Hu, !Z.eqb_refl. reflexivity.
      * intros y _ Hq. apply andb_prop in Hq. destruct Hq as [Hq _].
        apply Z.eqb_eq in Hq. congruence.
    + intros Hu. rewrite find_none_all; [reflexivity|].
      intros x Hx. destruct (Task.ID x =? itemID) eqn:E; [|reflexivity].
      apply Z.eqb_eq in E.
      assert (x = t) by (apply (NoDup_map_inj_in Task.ID (tasks db)); congruence).
      subst x. apply Z.eqb_neq in Hu. rewrite Hu. reflexivity.
  - intros Hno. rewrite find_none_all; [reflexivity|].
    intros x Hx. specialize (Hno x Hx). apply Z.eqb_neq in Hno.
    rewrite Hno. reflexivity.
Qed.

Lemma GetTask_owner_only_witness :
  GetTask reorderDB 1 7 = Ok (exampleTask 1 7 3 1 0 TASK_SOURCE_ID_GT_TASK) /\
  GetTask reorderDB 1 8 = Err ErrNoDocuments.
Proof.
  pose proof (proj1 (proj2 (GetTask_owner_only reorderDB 1 7)) reorderDB_NoDup
                (exampleTask 1 7 3 1 0 TASK_SOURCE_ID_GT_TASK)
                (or_introl eq_refl) eq_refl) as H7.
  pose proof (proj1 (proj2 (GetTask_owner_only reorderDB 1 8)) reorderDB_NoDup
                (exampleTask 1 7 3 1 0 TASK_SOURCE_ID_GT_TASK)
                (or_introl eq_refl) eq_refl) as H8.
  split; [apply H7; reflexivity|apply H8; discriminate].
Defined.

(** ** Shared notes *)

Lemma GetSharedNote_found (db : Database) (now : DateTime) (note : Note.t) :
  List.NoDup (List.map Note.ID (notes db)) ->
  List.In note (notes db) ->
  now <= Note.SharedUntil note ->
  Note.IsDeleted note <> Some true ->
  FindOne (fun d => (Note.ID d =? Note.ID note) && (now <=? Note.SharedUntil d)
                    && ne_true (Note.IsDeleted d))
          (GetNoteCollection db) = Some note.
Proof.
  intros Hnd Hin Hnow Hdel. unfold FindOne, GetNoteCollection.
  apply (find_unique_key Note.ID); auto.
  - rewrite Z.eqb_refl. simpl. apply Z.leb_le in Hnow. rewrite Hnow. simpl.
    apply ne_true_spec. exact Hdel.
  - intros y _ Hq. apply andb_prop in Hq. destruct Hq as [Hq _].
    apply andb_prop in Hq. destruct Hq as [Hq _]. apply Z.eqb_eq. exact Hq.
Qed.

(** X3. Without a signed-in user, [GetSharedNote] serves a note inside its
    window exactly when its mode is [public] or it has no mode at all;
    a note in any other mode is refused. *)
Theorem GetSharedNote_public_or_unset (db : Database) (now : DateTime) (note : Note.t) :
  List.NoDup (List.map Note.ID (notes db)) ->
  List.In note (notes db) ->
  now <= Note.SharedUntil note ->
  Note.IsDeleted note <> Some true ->
  (Note.SharedAccess note = None \/ Note.SharedAccess note = Some SharedAccessPublic ->
   GetSharedNote db now (Note.ID note) = Ok note) /\
  (forall sa, Note.SharedAccess note = Some sa -> sa <> SharedAccessPublic ->
   GetSharedNote db now (Note.ID note) =
   Err (errors_New "unable to fetch note without auth")).
Proof.
  intros Hnd Hin Hnow Hdel.
  pose proof (GetSharedNote_found db now note Hnd Hin Hnow Hdel) as Hf.
  unfold GetSharedNote. rewrite Hf. simpl. split.
  - intros [-> | ->]; reflexivity.
  - intros sa -> Hne.
    destruct (SharedAccess_eqb sa SharedAccessPublic) eqn:E; [|reflexivity].
    apply SharedAccess_eqb_eq in E. congruence.
Qed.

Lemma notesDB_NoDup : List.NoDup (List.map Note.ID (notes notesDB)).
Proof. nodup_literals. Defined.

Lemma GetSharedNote_public_or_unset_witness :
  GetSharedNote notesDB 500 21 =
    Ok (Note.mk 21 7 (Some "plan"%string) None NilObjectID None
                (Some SharedAccessPublic) 1000) /\
  GetSharedNote notesDB 500 23 =
    Err (errors_New "unable to fetch note without auth").
Proof.
  split.
  - apply (proj1 (GetSharedNote_public_or_unset notesDB 500
                    (Note.mk 21 7 (Some "plan"%string) None NilObjectID None
                             (Some SharedAccessPublic) 1000)
                    notesDB_NoDup (or_introl eq_refl) ltac:(simpl; lia)
                    ltac:(discriminate))).
    right. reflexivity.
  - apply (proj2 (GetSharedNote_public_or_unset notesDB 500
                    (Note.mk 23 7 (Some "roadmap"%string) None NilObjectID None
                             (Some SharedAccessDomain) 1000)
                    notesDB_NoDup
                    (or_intror (or_intror (or_introl eq_refl)))
                    ltac:(simpl; lia) ltac:(discriminate))
                 SharedAccessDomain eq_refl).
    discriminate.
Defined.



(** ** Get-or-create, and looking up what an upsert stored *)

Lemma existsb_find_none {A : Type} (q : A -> bool) (l : list A) :
  List.existsb q l = false <-> List.find q l = None.
Proof.
  induction l as [|x l IH]; simpl; [tauto|].
  destruct (q x); simpl; [split; discriminate|exact IH].
Qed.

Lemma find_none_forall {A : Type} (q : A -> bool) (l : list A) :
  List.find q l = None -> forall x, List.In x l -> q x = false.
Proof. intros Hf x Hx. exact (List.find_none q l Hf x Hx). Qed.

(** X5. [GetOrCreateWithCollection] gets before it creates: a record
    already filed under the three keys is returned as stored, whatever the
    fields passed, and nothing is written; otherwise a record with the
    fields is appended and returned. A second call returns the same record
    and writes nothing. When the fields name another user than the key,
    the record that is inserted is not found again and the call returns
    nothing, which the typed wrappers report as an error. *)
Theorem GetOrCreateWithCollection_get_or_create
    (c : list Doc) (u : ObjectID) (e s : string) (fields : Doc) :
  let q := matchesAll (getDBQuery u e s None) in
  let out := GetOrCreateWithCollection c u e s fields in
  (forall d0, FindOne q c = Some d0 -> out = (c, Some d0)) /\
  (FindOne q c = None -> keysAgree fields u s e ->
   exists d, out = (c ++ [d], Some d) /\
             (forall k v, fields !! k = Some v -> d !! k = Some v) /\
             tripleOf d = Some (u, s, e)) /\
  (keysAgree fields u s e ->
   forall fields', GetOrCreateWithCollection (fst out) u e s fields' = out) /\
  (FindOne q c = None ->
   forall v, fields !! "user_id"%string = Some v -> v <> VOid u ->
   snd out = None /\ length (fst out) = S (length c)).
Proof.
  intros q out.
  assert (Hget : forall c' fields' d0, FindOne q c' = Some d0 ->
            GetOrCreateWithCollection c' u e s fields' = (c', Some d0)).
  { intros c' fields' d0 Hf. unfold GetOrCreateWithCollection, UpdateOne_setOnInsert.
    fold q. destruct (List.existsb q c') eqn:Ex.
    - rewrite Hf. reflexivity.
    - apply existsb_find_none in Ex. unfold FindOne in Hf. congruence. }
  assert (Hcreate : FindOne q c = None ->
            out = (c ++ [upsertDoc (getDBQuery u e s None) fields c],
                   FindOne q (c ++ [upsertDoc (getDBQuery u e s None) fields c]))).
  { intros Hf. unfold out, GetOrCreateWithCollection, UpdateOne_setOnInsert. fold q.
    apply existsb_find_none in Hf. rewrite Hf. reflexivity. }
  assert (Hnew : FindOne q c = None -> keysAgree fields u s e ->
            out = (c ++ [upsertDoc (getDBQuery u e s None) fields c],
                   Some (upsertDoc (getDBQuery u e s None) fields c))).
  { intros Hf Hk. rewrite (Hcreate Hf). f_equal. unfold FindOne.
    rewrite (find_app_none _ _ _ (find_none_forall _ _ Hf)). cbn [List.find].
    assert (Hq : q (upsertDoc (getDBQuery u e s None) fields c) = true).
    { apply getDBQuery_matches. split; [apply upsertDoc_triple; exact Hk|reflexivity]. }
    rewrite Hq. reflexivity. }
  split; [intros d0 Hf; apply Hget; exact Hf|].
  split.
  { intros Hf Hk. eexists. split; [apply Hnew; assumption|].
    split; [intros k v Hkv; apply upsertDoc_fields; exact Hkv|].
    apply upsertDoc_triple. exact Hk. }
  split.
  { intros Hk fields'. destruct (FindOne q c) as [d0|] eqn:Ef.
    - unfold out. rewrite (Hget c fields d0 Ef). cbn [fst]. apply Hget. exact Ef.
    - rewrite (Hnew eq_refl Hk). cbn [fst]. apply Hget. unfold FindOne.
      rewrite (find_app_none _ _ _ (find_none_forall _ _ Ef)). cbn [List.find].
      assert (Hq : q (upsertDoc (getDBQuery u e s None) fields c) = true).
      { apply getDBQuery_matches. split; [apply upsertDoc_triple; exact Hk|reflexivity]. }
      rewrite Hq. reflexivity. }
  intros Hf v Hv Hne. rewrite (Hcreate Hf). cbn [fst snd]. split.
  - unfold FindOne. rewrite (find_app_none _ _ _ (find_none_forall _ _ Hf)).
    cbn [List.find].
    assert (Hq : q (upsertDoc (getDBQuery u e s None) fields c) = false).
    { destruct (q _) eqn:E; [|reflexivity].
      apply getDBQuery_matches in E. destruct E as [Ht _].
      apply tripleOf_Some in Ht. destruct Ht as [Hu _].
      rewrite (upsertDoc_fields _ _ _ _ _ Hv) in Hu. congruence. }
    rewrite Hq. reflexivity.
  - rewrite List.length_app. simpl. lia.
Qed.

Lemma GetOrCreateWithCollection_get_or_create_witness :
  GetOrCreateWithCollection [cachedPR true] 7 "42" TASK_SOURCE_ID_GITHUB_PR
    {["title"%string := VStr "Fix the lexer"]} =
  ([cachedPR true], Some (cachedPR true)).
Proof.
  apply (proj1 (GetOrCreateWithCollection_get_or_create [cachedPR true] 7 "42"
                  TASK_SOURCE_ID_GITHUB_PR {["title"%string := VStr "Fix the lexer"]})).
  unfold FindOne. cbn [List.find].
  assert (Hq : matchesAll (getDBQuery 7 "42" TASK_SOURCE_ID_GITHUB_PR None)
                 (cachedPR true) = true).
  { apply getDBQuery_matches. split; reflexivity. }
  rewrite Hq. reflexivity.
Defined.

Lemma find_UpdateOne_first {A : Type} (q q' : A -> bool) (f : A -> A) (c : list A) (d0 : A) :
  (forall x, List.In x c -> q x = false -> q' x = false) ->
  q' (f d0) = true ->
  List.find q c = Some d0 ->
  List.find q' (fst (UpdateOne q f c)) = Some (f d0).
Proof.
  induction c as [|x c IH]; intros Hqq Hf Hfind; [discriminate Hfind|].
  simpl in *. destruct (q x) eqn:E.
  - injection Hfind as ->. simpl. rewrite Hf. reflexivity.
  - destruct (UpdateOne q f c) as [c' n] eqn:EU. simpl in *.
    rewrite (Hqq x (or_introl eq_refl) E). apply IH; auto.
Qed.

Lemma matches_external (u : ObjectID) (e : string) (d : Doc) :
  matchesAll [FEq "id_external" (VStr e); FEq "user_id" (VOid u)] d = true <->
  d !! "id_external"%string = Some (VStr e) /\ d !! "user_id"%string = Some (VOid u).
Proof.
  simpl. rewrite !andb_true_iff, !bool_decide_eq_true. tauto.
Qed.

(** X6. What [UpdateOrCreatePullRequest] stores under (user, source,
    external ID), [GetPullRequestByExternalID] finds again by user and
    external ID: the lookup succeeds with a record of that user and
    external ID, and it is the very record the upsert returned unless the
    user has a record with this external ID under another source (the
    lookup does not look at the source). *)
Theorem UpdateOrCreatePullRequest_then_lookup
    (c : list Doc) (u : ObjectID) (e s : string) (fields : Doc) :
  keysAgree fields u s e ->
  let out := UpdateOrCreatePullRequest c u e s fields None in
  exists d, snd out = Ok d /\
    (exists d', GetPullRequestByExternalID (fst out) e u = Ok d' /\
                d' !! "id_external"%string = Some (VStr e) /\
                d' !! "user_id"%string = Some (VOid u)) /\
    ((forall x, List.In x c ->
        x !! "user_id"%string = Some (VOid u) ->
        x !! "id_external"%string = Some (VStr e) ->
        x !! "source_id"%string = Some (VStr s)) ->
     GetPullRequestByExternalID (fst out) e u = Ok d).
Proof.
  intros Hk out. unfold out. rewrite UpdateOrCreatePullRequest_eq. cbn [fst snd].
  set (q := matchesAll (getDBQuery u e s None)).
  set (q' := matchesAll [FEq "id_external" (VStr e); FEq "user_id" (VOid u)]).
  pose proof (FindOneAndUpdate_set_spec (getDBQuery u e s None) fields c)
    as [Hin [_ [_ [Hm Hn]]]].
  set (upd := FindOneAndUpdate_set (getDBQuery u e s None) fields c) in *.
  assert (Ht : tripleOf (snd upd) = Some (u, s, e)).
  { destruct (List.find (matchesAll (getDBQuery u e s None)) c) as [d0|] eqn:Ef.
    - destruct (Hm d0 eq_refl) as [_ [-> _]].
      apply List.find_some in Ef. destruct Ef as [_ Hq0].
      apply getDBQuery_matches in Hq0. destruct Hq0 as [Ht0 _].
      apply keysAgree_set; assumption.
    - destruct (Hn eq_refl) as [_ ->]. apply upsertDoc_triple. exact Hk. }
  assert (Hq' : q' (snd upd) = true).
  { apply matches_external. apply tripleOf_Some in Ht. tauto. }
  exists (snd upd). split; [reflexivity|]. split.
  - unfold GetPullRequestByExternalID, FindOneExternalWithCollection, FindOne. fold q'.
    destruct (find_some_iff_exists q' (fst upd)) as [d' Hd'].
    { exists (snd upd). split; [exact Hin|exact Hq']. }
    rewrite Hd'. exists d'. split; [reflexivity|].
    apply List.find_some in Hd'. destruct Hd' as [_ Hd'].
    apply matches_external in Hd'. exact Hd'.
  - intros Hsrc.
    assert (Hqq : forall x, List.In x c -> q x = false -> q' x = false).
    { intros x Hx Hqx. destruct (q' x) eqn:E; [|reflexivity].
      apply matches_external in E. destruct E as [He Hu].
      assert (Hq : q x = true).
      { apply getDBQuery_matches. split; [|reflexivity].
        apply tripleOf_Some. auto. }
      congruence. }
    unfold GetPullRequestByExternalID, FindOneExternalWithCollection, FindOne. fold q'.
    destruct (List.find q c) as [d0|] eqn:Ef.
    + destruct (Hm d0 Ef) as [_ [Hr _]].
      assert (Hfst : fst upd = fst (UpdateOne q (fun d => fields ∪ d) c)).
      { unfold upd, FindOneAndUpdate_set, FindOne. fold q. rewrite Ef. reflexivity. }
      rewrite Hfst, (find_UpdateOne_first q q' _ c d0 Hqq); [rewrite Hr; reflexivity| |exact Ef].
      rewrite <- Hr. exact Hq'.
    + destruct (Hn Ef) as [Hc _]. rewrite Hc.
      rewrite find_app_none.
      * cbn [List.find]. rewrite Hq'. reflexivity.
      * intros x Hx. apply Hqq; [exact Hx|]. exact (List.find_none q c Ef x Hx).
Qed.

Lemma UpdateOrCreatePullRequest_then_lookup_witness :
  let fields : Doc := {["title"%string := VStr "Fix the lexer"]} in
  keysAgree fields 7 TASK_SOURCE_ID_GITHUB_PR "42" /\
  exists d,
    snd (UpdateOrCreatePullRequest [cachedPR false] 7 "42" TASK_SOURCE_ID_GITHUB_PR
           fields None) = Ok d /\
    exists d',
      GetPullRequestByExternalID
        (fst (UpdateOrCreatePullRequest [cachedPR false] 7 "42" TASK_SOURCE_ID_GITHUB_PR
                fields None)) "42" 7 = Ok d'.
Proof.
  intros fields.
  assert (Hk : keysAgree fields 7 TASK_SOURCE_ID_GITHUB_PR "42").
  { repeat split; left; reflexivity. }
  split; [exact Hk|].
  destruct (UpdateOrCreatePullRequest_then_lookup [cachedPR false] 7 "42"
              TASK_SOURCE_ID_GITHUB_PR fields Hk) as [d [Hd [[d' [Hd' _]] _]]].
  exists d. split; [exact Hd|]. exists d'. exact Hd'.
Defined.

(** ** The receiving loop of GetPullRequests *)

Lemma getStr_insert_ne (k k' : string) (v : Value) (d : Doc) :
  k <> k' -> getStr k (<[k' := v]> d) = getStr k d.
Proof. intros Hne. unfold getStr. rewrite lookup_insert_ne by congruence. reflexivity. Qed.

(** X7. A pull request whose fetch failed (a [nil] on its channel) is left
    out without failing the others: the loop ends without an error, and
    the pull requests it returns are those that were delivered, in the
    order of the channels; when nothing is delivered, nothing is stored. *)
Theorem GetPullRequests_join_skips_failed
    (userID : ObjectID) (items : list (option Doc * DateTime)) :
  forall (c prs : list Doc),
  exists c' prs',
    GetPullRequests_join userID items c prs = (c', Ok (prs ++ prs')) /\
    List.map (getStr "id_external") prs' =
      List.map deliveredExternalID (List.filter delivered items) /\
    ((forall item, List.In item items -> fst item = None) -> c' = c /\ prs' = []).
Proof.
  induction items as [|[[pr|] t] rest IH]; intros c prs.
  - exists c, []. rewrite List.app_nil_r. repeat split; reflexivity.
  - simpl.
    destruct (negb (getOid "_id" pr =? NilObjectID)
              && match getBoolPtr "is_completed" pr with
                 | Some isCompleted => negb isCompleted
                 | None => true
                 end).
    + destruct (IH c (prs ++ [pr])) as [c' [prs' [Hj [Hids _]]]].
      exists c', (pr :: prs'). rewrite Hj, <- List.app_assoc. simpl.
      split; [reflexivity|]. split.
      * unfold deliveredExternalID at 1. simpl. f_equal. exact Hids.
      * intros Hnone. specialize (Hnone _ (or_introl eq_refl)). discriminate Hnone.
    + rewrite UpdateOrCreatePullRequest_eq.
      match goal with
      | |- context [GetPullRequests_join userID rest ?c1 (prs ++ [?pr2])] =>
          destruct (IH c1 (prs ++ [pr2])) as [c' [prs' [Hj [Hids _]]]];
          exists c', (pr2 :: prs')
      end.
      rewrite Hj, <- List.app_assoc. simpl.
      split; [reflexivity|]. split.
      * unfold deliveredExternalID at 1. simpl.
        rewrite !getStr_insert_ne by discriminate. f_equal. exact Hids.
      * intros Hnone. specialize (Hnone _ (or_introl eq_refl)). discriminate Hnone.
  - simpl. destruct (IH c prs) as [c' [prs' [Hj [Hids Hnone]]]].
    exists c', prs'. split; [exact Hj|]. split; [exact Hids|].
    intros Hall. apply Hnone. intros item Hin. apply Hall. right. exact Hin.
Qed.

(** ** ReOrderTask and TaskModify: requests that change nothing, or only the order *)

Lemma UpdateOne_owned_task (db : Database) (taskID userID : ObjectID)
    (u : Task.t -> Task.t) :
  List.NoDup (List.map Task.ID (tasks db)) ->
  (exists d, List.In d (tasks db) /\ Task.ID d = taskID /\ Task.UserID d = userID) ->
  UpdateOne (fun d => (Task.ID d =? taskID) && (Task.UserID d =? userID)) u (tasks db) =
  (List.map (fun d => if Task.ID d =? taskID then u d else d) (tasks db), 1).
Proof.
  intros Hnd [d0 [Hd0 [Hid0 Hu0]]].
  set (q := fun d : Task.t => (Task.ID d =? taskID) && (Task.UserID d =? userID)).
  assert (Hq : forall d, List.In d (tasks db) -> q d = (Task.ID d =? taskID)).
  { intros d Hd. unfold q. destruct (Task.ID d =? taskID) eqn:E; [|reflexivity].
    apply Z.eqb_eq in E.
    assert (d = d0) by (apply (NoDup_map_inj_in Task.ID (tasks db)); congruence).
    subst d. simpl. apply Z.eqb_eq. exact Hu0. }
  rewrite (surjective_pairing (UpdateOne q u (tasks db))). f_equal.
  - rewrite (UpdateOne_as_map Task.ID taskID); [|exact Hnd|].
    + apply List.map_ext_in. intros d Hd. rewrite (Hq d Hd). reflexivity.
    + intros d _ Hqd. apply andb_prop in Hqd. destruct Hqd as [Hqd _].
      apply Z.eqb_eq in Hqd. exact Hqd.
  - rewrite UpdateOne_matched.
    assert (Hex : List.existsb q (tasks db) = true).
    { apply List.existsb_exists. exists d0. split; [exact Hd0|].
      unfold q. rewrite Hid0, Hu0, !Z.eqb_refl. reflexivity. }
    rewrite Hex. reflexivity.
Qed.

(** X8. [ReOrderTask] on a task the user does not have answers 404 with
    the error "task not found" and leaves every task as it was. Called
    without a position, it marks the user's task as reordered and moves it
    to the section the request names, if any: no other task changes and no
    ordering ID is rewritten. *)
Theorem ReOrderTask_not_found_or_no_position
    (db : Database) (taskID userID : ObjectID)
    (IDTaskSectionHex : option string) (task : Task.t) :
  (forall IDOrdering,
     (forall d, List.In d (tasks db) ->
                ~ (Task.ID d = taskID /\ Task.UserID d = userID)) ->
     ReOrderTask db taskID userID IDOrdering IDTaskSectionHex task =
     (db, [Handle404], Some (errors_New "task not found"))) /\
  (List.NoDup (List.map Task.ID (tasks db)) ->
   (exists d, List.In d (tasks db) /\ Task.ID d = taskID /\ Task.UserID d = userID) ->
   exists db1,
     ReOrderTask db taskID userID None IDTaskSectionHex task = (db1, [], None) /\
     List.Forall2
       (fun d d1 =>
          (Task.ID d <> taskID -> d1 = d) /\
          (Task.ID d = taskID ->
           d1 = ReOrderTask_set None (reorderSectionUpdate IDTaskSectionHex) d /\
           Task.HasBeenReordered d1 = true /\
           Task.IDTaskSection d1 = reorderSection IDTaskSectionHex d) /\
          Task.IDOrdering d1 = Task.IDOrdering d)
       (tasks db) (tasks db1)).
Proof.
  split.
  - intros IDOrdering Hno.
    unfold ReOrderTask, ReOrderTask_shift, GetTaskCollection.
    rewrite UpdateOne_none; [reflexivity|].
    intros d Hd. destruct ((Task.ID d =? taskID) && (Task.UserID d =? userID)) eqn:E;
      [|reflexivity].
    apply andb_prop in E. destruct E as [E1 E2]. apply Z.eqb_eq in E1, E2.
    exfalso. apply (Hno d Hd). auto.
  - intros Hnd Hex.
    unfold ReOrderTask, ReOrderTask_shift, GetTaskCollection.
    fold (reorderSectionUpdate IDTaskSectionHex).
    rewrite (UpdateOne_owned_task db taskID userID _ Hnd Hex). cbn.
    eexists. split; [reflexivity|]. cbn.
    apply Forall2_map_r_in. intros d Hd.
    destruct (Task.ID d =? taskID) eqn:E.
    + apply Z.eqb_eq in E. split; [congruence|]. split; [|reflexivity].
      intros _. split; [reflexivity|]. split; [reflexivity|].
      unfold reorderSection, reorderSectionUpdate.
      destruct IDTaskSectionHex; reflexivity.
    + apply Z.eqb_neq in E. split; [reflexivity|]. split; [congruence|reflexivity].
Qed.

Lemma ReOrderTask_not_found_or_no_position_witness :
  ReOrderTask reorderDB 1 8 (Some 5) None
    (exampleTask 1 7 3 1 0 TASK_SOURCE_ID_GT_TASK) =
  (reorderDB, [Handle404], Some (errors_New "task not found")).
Proof.
  apply (proj1 (ReOrderTask_not_found_or_no_position reorderDB 1 8 None
                  (exampleTask 1 7 3 1 0 TASK_SOURCE_ID_GT_TASK))).
  intros d [<-|[<-|[<-|[]]]] [H1 H2]; discriminate.
Defined.

Lemma isnil_true {A : Type} (p : option A) : isnil p = true -> p = None.
Proof. destruct p; [discriminate|reflexivity]. Qed.

Lemma TaskItemChangeableFields_isZero_fields (f : TaskItemChangeableFields.t) :
  TaskItemChangeableFields.isZero f = true ->
  TaskChangeable.Status (TaskItemChangeableFields.Task_ f) = None /\
  TaskChangeable.ExternalPriority (TaskItemChangeableFields.Task_ f) = None /\
  TaskItemChangeableFields.Title f = None /\
  TaskItemChangeableFields.TimeAllocation f = None /\
  TaskItemChangeableFields.IsCompleted f = None /\
  TaskItemChangeableFields.IsDeleted f = None.
Proof.
  unfold TaskItemChangeableFields.isZero, TaskChangeable.isZero. intros H.
  repeat (apply andb_prop in H; destruct H as [H ?]).
  repeat match goal with
         | Hn : isnil _ = true |- _ => apply isnil_true in Hn
         end.
  auto 10.
Qed.

(** [ValidateFields] passes a request body without changes as it is. *)
Lemma ValidateFields_zero (now : DateTime) (f : TaskItemChangeableFields.t)
    (tsr : TaskSourceResult) (task : Task.t) :
  TaskItemChangeableFields.isZero f = true ->
  ValidateFields now f tsr task = inr f.
Proof.
  intros Hz. destruct (TaskItemChangeableFields_isZero_fields f Hz)
    as [Hs [Hp [Ht [Ha [Hc Hd]]]]].
  unfold ValidateFields, ValidateFields_status. rewrite Hc, Hs.
  unfold ValidateFields_stamps. rewrite Hc, Hd, Ht.
  unfold ValidateFields_timeAllocation. rewrite Ha.
  unfold ValidateFields_priority. rewrite Hp. reflexivity.
Qed.

Lemma GetTask_found (db : Database) (taskID userID : ObjectID) (task : Task.t) :
  GetTask db taskID userID = Ok task ->
  List.In task (tasks db) /\ Task.ID task = taskID /\ Task.UserID task = userID.
Proof.
  unfold GetTask, FindOneWithCollection_Task, FindOne, GetTaskCollection, Decode.
  destruct (List.find _ (tasks db)) as [d|] eqn:Ef; [|discriminate].
  intros Hr. injection Hr as <-. apply List.find_some in Ef. destruct Ef as [Hin Hq].
  apply andb_prop in Hq. destruct Hq as [Hi Hu]. apply Z.eqb_eq in Hi, Hu. auto.
Qed.

Lemma GetTask_none (db : Database) (taskID userID : ObjectID) :
  (forall d, List.In d (tasks db) -> ~ (Task.ID d = taskID /\ Task.UserID d = userID)) ->
  GetTask db taskID userID = Err ErrNoDocuments.
Proof.
  intros Hno. unfold GetTask, FindOneWithCollection_Task, FindOne, GetTaskCollection.
  rewrite find_none_all; [reflexivity|].
  intros d Hd. destruct ((Task.ID d =? taskID) && (Task.UserID d =? userID)) eqn:E;
    [|reflexivity].
  apply andb_prop in E. destruct E as [E1 E2]. apply Z.eqb_eq in E1, E2.
  exfalso. apply (Hno d Hd). auto.
Qed.

(** X9. A task-modify request that carries a position and no field
    changes only reorders: on a task of the caller it makes no call to the
    task's source, leaves the database as [ReOrderTask] leaves it, and
    answers with the single response 200. *)
Theorem TaskModify_reorder_only
    (api : API) (now : DateTime) (db : Database) (c : Request)
    (modifyParams : TaskModifyParams.t) (taskID : ObjectID) (task : Task.t)
    (tsr : TaskSourceResult) (k : Z) :
  List.NoDup (List.map Task.ID (tasks db)) ->
  ObjectIDFromHex (Param_task_id c) = Ok taskID ->
  BindJSON c = Ok modifyParams ->
  TaskItemChangeableFields.isZero (TaskModifyParams.Fields modifyParams) = true ->
  TaskModifyParams.IDOrdering modifyParams = Some k ->
  (forall hex, TaskModifyParams.IDTaskSection modifyParams = Some hex ->
               exists id, ObjectIDFromHex hex = Ok id) ->
  GetTask db taskID (UserIDFromContext c) = Ok task ->
  ExternalConfig_GetSourceResult api (Task.SourceID task) = Ok tsr ->
  let out := TaskModify api now db c in
  responses out = [JSON 200 []] /\
  external_calls out = [] /\
  db_after out =
    fst (fst (ReOrderTask db taskID (UserIDFromContext c) (Some k)
                (TaskModifyParams.IDTaskSection modifyParams) task)).
Proof.
  intros Hnd Hid Hbind Hz Hk Hsec Htask Hsrc out.
  destruct (GetTask_found _ _ _ _ Htask) as [Hin [Hti Htu]].
  assert (Hex : exists d, List.In d (tasks db) /\ Task.ID d = taskID /\
                          Task.UserID d = UserIDFromContext c) by eauto.
  pose proof (ReOrderTask_shift_char db taskID (UserIDFromContext c) k
                (TaskModifyParams.IDTaskSection modifyParams) task Hnd Hex) as Hshift.
  assert (Hre : exists db3,
            ReOrderTask db taskID (UserIDFromContext c) (Some k)
              (TaskModifyParams.IDTaskSection modifyParams) task = (db3, [], None)).
  { unfold ReOrderTask. rewrite Hshift. eexists. reflexivity. }
  destruct Hre as [db3 Hre].
  unfold out, TaskModify. rewrite Hid, Hbind.
  assert (Hs : match TaskModifyParams.IDTaskSection modifyParams with
               | Some hex => match ObjectIDFromHex hex with Ok _ => false | _ => true end
               | None => false
               end = false).
  { destruct (TaskModifyParams.IDTaskSection modifyParams) as [hex|]; [|reflexivity].
    destruct (Hsec hex eq_refl) as [id ->]. reflexivity. }
  rewrite Hs, Htask.
  assert (Hnz : TaskModifyParams.isZero modifyParams = false).
  { unfold TaskModifyParams.isZero. rewrite Hk. reflexivity. }
  rewrite Hnz, Hsrc, (ValidateFields_zero now _ tsr task Hz).
  assert (Hdue : TaskItemChangeableFields.DueDate (TaskModifyParams.Fields modifyParams) = None).
  { pose proof Hz as Hz'. unfold TaskItemChangeableFields.isZero in Hz'.
    repeat (apply andb_prop in Hz'; destruct Hz' as [Hz' ?]).
    apply isnil_true. assumption. }
  cbv zeta. rewrite Hdue.
  rewrite Hz. cbn [negb]. rewrite Hk. cbn [isnil negb orb].
  rewrite Hre. cbn. auto.
Qed.

Lemma TaskModify_reorder_only_witness :
  let c := {| Param_task_id := objectID1Hex;
              BindJSON := Ok (TaskModifyParams.mk (Some 5) None
                                TaskItemChangeableFields.zero);
              UserIDFromContext := 7 |} in
  responses (TaskModify exampleAPI 100 reorderDB c) = [JSON 200 []] /\
  external_calls (TaskModify exampleAPI 100 reorderDB c) = [].
Proof.
  intros c.
  destruct (TaskModify_reorder_only exampleAPI 100 reorderDB c
              (TaskModifyParams.mk (Some 5) None TaskItemChangeableFields.zero)
              1 (exampleTask 1 7 3 1 0 TASK_SOURCE_ID_GT_TASK) exampleSource 5
              reorderDB_NoDup eq_refl eq_refl eq_refl eq_refl
              ltac:(intros hex Hc; discriminate Hc) eq_refl eq_refl)
    as [H1 [H2 _]].
  split; [exact H1|exact H2].
Defined.

(** X10. [TaskModify] touches nothing it should not: a request for a task
    ID the caller has no task under (another user's task included) is
    answered 404 "task not found.", and a request whose body names no
    change at all is answered 400 "task changes missing"; in both cases
    the database is left as it was and no source is called. *)
Theorem TaskModify_unknown_or_empty
    (api : API) (now : DateTime) (db : Database) (c : Request)
    (modifyParams : TaskModifyParams.t) (taskID : ObjectID) :
  ObjectIDFromHex (Param_task_id c) = Ok taskID ->
  BindJSON c = Ok modifyParams ->
  (forall hex, TaskModifyParams.IDTaskSection modifyParams = Some hex ->
               exists id, ObjectIDFromHex hex = Ok id) ->
  ((forall d, List.In d (tasks db) ->
              ~ (Task.ID d = taskID /\ Task.UserID d = UserIDFromContext c)) ->
   TaskModify api now db c =
   respond [JSON 404 [("detail"%string, VStr "task not found.");
                      ("taskId"%string, VOid taskID)]] db) /\
  (forall task, GetTask db taskID (UserIDFromContext c) = Ok task ->
   TaskModifyParams.isZero modifyParams = true ->
   TaskModify api now db c = respond [detail 400 "task changes missing"] db).
Proof.
  intros Hid Hbind Hsec.
  assert (Hs : match TaskModifyParams.IDTaskSection modifyParams with
               | Some hex => match ObjectIDFromHex hex with Ok _ => false | _ => true end
               | None => false
               end = false).
  { destruct (TaskModifyParams.IDTaskSection modifyParams) as [hex|]; [|reflexivity].
    destruct (Hsec hex eq_refl) as [id ->]. reflexivity. }
  split.
  - intros Hno. unfold TaskModify. rewrite Hid, Hbind, Hs, (GetTask_none _ _ _ Hno).
    reflexivity.
  - intros task Htask Hz. unfold TaskModify. rewrite Hid, Hbind, Hs, Htask, Hz.
    reflexivity.
Qed.

Lemma TaskModify_unknown_or_empty_witness :
  let c := {| Param_task_id := objectID1Hex;
              BindJSON := Ok (TaskModifyParams.mk (Some 5) None
                                TaskItemChangeableFields.zero);
              UserIDFromContext := 8 |} in
  TaskModify exampleAPI 100 reorderDB c =
  respond [JSON 404 [("detail"%string, VStr "task not found.");
                     ("taskId"%string, VOid 1)]] reorderDB.
Proof.
  intros c.
  apply (proj1 (TaskModify_unknown_or_empty exampleAPI 100 reorderDB c
                  (TaskModifyParams.mk (Some 5) None TaskItemChangeableFields.zero)
                  1 eq_refl eq_refl ltac:(intros hex Hc; discriminate Hc))).
  intros d [<-|[<-|[<-|[]]]] [H1 H2]; discriminate.
Defined.

(** ** ValidateFields: durations and statuses *)

Lemma ValidateFields_status_keeps f task f' :
  ValidateFields_status f task = inr f' ->
  TaskItemChangeableFields.TimeAllocation f' = TaskItemChangeableFields.TimeAllocation f /\
  TaskItemChangeableFields.Title f' = TaskItemChangeableFields.Title f.
Proof. unfold ValidateFields_status. intros Hv. stage_fields Hv. Qed.

Lemma ValidateFields_stamps_keeps now f :
  TaskItemChangeableFields.TimeAllocation (ValidateFields_stamps now f) =
    TaskItemChangeableFields.TimeAllocation f /\
  TaskItemChangeableFields.Task_ (ValidateFields_stamps now f) =
    TaskItemChangeableFields.Task_ f /\
  TaskItemChangeableFields.IsCompleted (ValidateFields_stamps now f) =
    TaskItemChangeableFields.IsCompleted f /\
  (TaskItemChangeableFields.IsCompleted f = Some true ->
   TaskItemChangeableFields.CompletedAt (ValidateFields_stamps now f) = now).
Proof.
  unfold ValidateFields_stamps.
  destruct (TaskItemChangeableFields.IsCompleted f) as [[|]|] eqn:Ec;
    cbn [TaskItemChangeableFields.IsDeleted TaskItemChangeableFields.set_CompletedAt];
    destruct (TaskItemChangeableFields.IsDeleted f) as [[|]|];
    cbn; rewrite ?Ec; repeat split; try reflexivity; intros Hc; discriminate Hc.
Qed.

Lemma ValidateFields_timeAllocation_keeps f f' :
  ValidateFields_timeAllocation f = inr f' ->
  TaskItemChangeableFields.Task_ f' = TaskItemChangeableFields.Task_ f /\
  TaskItemChangeableFields.IsCompleted f' = TaskItemChangeableFields.IsCompleted f /\
  TaskItemChangeableFields.CompletedAt f' = TaskItemChangeableFields.CompletedAt f /\
  match TaskItemChangeableFields.TimeAllocation f with
  | Some s => 0 <= s /\
      TaskItemChangeableFields.TimeAllocation f' =
      Some (wrap64 (s * NANOSECONDS_IN_SECOND))
  | None => TaskItemChangeableFields.TimeAllocation f' = None
  end.
Proof.
  unfold ValidateFields_timeAllocation.
  destruct (TaskItemChangeableFields.TimeAllocation f) as [s|] eqn:Es.
  - destruct (s <? 0) eqn:E; [discriminate|]. intros Hv. injection Hv as <-.
    apply Z.ltb_ge in E. repeat split; auto.
  - intros Hv. injection Hv as <-. rewrite Es. repeat split; reflexivity.
Qed.

Lemma ValidateFields_priority_keeps f task f' :
  ValidateFields_priority f task = inr f' ->
  TaskItemChangeableFields.TimeAllocation f' = TaskItemChangeableFields.TimeAllocation f /\
  TaskItemChangeableFields.IsCompleted f' = TaskItemChangeableFields.IsCompleted f /\
  TaskItemChangeableFields.CompletedAt f' = TaskItemChangeableFields.CompletedAt f /\
  TaskChangeable.CompletedStatus (TaskItemChangeableFields.Task_ f') =
    TaskChangeable.CompletedStatus (TaskItemChangeableFields.Task_ f).
Proof. unfold ValidateFields_priority. intros Hv. stage_fields Hv. Qed.

(** The stages of [ValidateFields] a successful run goes through. *)
Lemma ValidateFields_stages now f tsr task f' :
  ValidateFields now f tsr task = inr f' ->
  exists f2 f5,
    ValidateFields_status f task = inr f2 /\
    ValidateFields_timeAllocation (ValidateFields_stamps now f2) = inr f5 /\
    ValidateFields_priority f5 task = inr f'.
Proof.
  unfold ValidateFields. cbv zeta.
  destruct (match TaskItemChangeableFields.IsCompleted f with
            | Some true => _
            | _ => false
            end); [discriminate|].
  destruct (ValidateFields_status f task) as [r|f2] eqn:E2; [discriminate|].
  destruct (match TaskItemChangeableFields.Title (ValidateFields_stamps now f2) with
            | Some title => _
            | None => false
            end); [discriminate|].
  destruct (ValidateFields_timeAllocation (ValidateFields_stamps now f2)) as [r|f5] eqn:E5;
    [discriminate|].
  intros Hv. exists f2, f5. split; [reflexivity|]. split; [exact E5|exact Hv].
Qed.

(** X11. [ValidateFields] takes a duration in seconds and hands it on in
    nanoseconds: a request accepted with [time_duration] [s] has
    [0 <= s] and leaves with [s * 1000000000] in 64-bit arithmetic. That
    is the product itself up to 9223372036 seconds and never the product
    beyond: the value wraps around, to a negative number at 9223372037
    seconds and back to a positive one, 290448384, at 18446744074
    seconds. A request without a duration leaves without one, and a
    negative duration is always refused with a 400. *)
Theorem ValidateFields_time_allocation
    (now : DateTime) (f : TaskItemChangeableFields.t)
    (tsr : TaskSourceResult) (task : Task.t) :
  (forall f', ValidateFields now f tsr task = inr f' ->
     match TaskItemChangeableFields.TimeAllocation f with
     | Some s => 0 <= s /\
         TaskItemChangeableFields.TimeAllocation f' =
         Some (wrap64 (s * NANOSECONDS_IN_SECOND))
     | None => TaskItemChangeableFields.TimeAllocation f' = None
     end) /\
  (forall s, TaskItemChangeableFields.TimeAllocation f = Some s -> s < 0 ->
     exists msg, ValidateFields now f tsr task = inl (detail 400 msg)) /\
  (forall s, 0 <= s <= 9223372036 ->
     wrap64 (s * NANOSECONDS_IN_SECOND) = s * 1000000000) /\
  (forall s, 9223372036 < s ->
     wrap64 (s * NANOSECONDS_IN_SECOND) <> s * 1000000000) /\
  wrap64 (9223372037 * NANOSECONDS_IN_SECOND) < 0 /\
  wrap64 (18446744074 * NANOSECONDS_IN_SECOND) = 290448384.
Proof.
  assert (Hok : forall f', ValidateFields now f tsr task = inr f' ->
     match TaskItemChangeableFields.TimeAllocation f with
     | Some s => 0 <= s /\
         TaskItemChangeableFields.TimeAllocation f' =
         Some (wrap64 (s * NANOSECONDS_IN_SECOND))
     | None => TaskItemChangeableFields.TimeAllocation f' = None
     end).
  { intros f' Hv. destruct (ValidateFields_stages _ _ _ _ _ Hv) as [f2 [f5 [H2 [H5 H']]]].
    destruct (ValidateFields_status_keeps _ _ _ H2) as [K2 _].
    destruct (ValidateFields_stamps_keeps now f2) as [K4 _].
    destruct (ValidateFields_timeAllocation_keeps _ _ H5) as [_ [_ [_ K5]]].
    destruct (ValidateFields_priority_keeps _ _ _ H') as [K' _].
    rewrite K4, K2 in K5. rewrite K'. exact K5. }
  split; [exact Hok|]. split.
  - intros s Hs Hneg.
    destruct (ValidateFields now f tsr task) as [r|f'] eqn:Ev.
    + destruct (ValidateFields_response _ _ _ _ _ Ev) as [msg ->]. eauto.
    + specialize (Hok f' eq_refl). rewrite Hs in Hok. lia.
  - split.
    + intros s Hs. unfold wrap64, NANOSECONDS_IN_SECOND.
      rewrite Z.mod_small by lia. lia.
    + split.
      * intros s Hs. unfold wrap64, NANOSECONDS_IN_SECOND.
        pose proof (Z.mod_pos_bound (s * 1000000000 + 2 ^ 63) (2 ^ 64) eq_refl) as Hb.
        lia.
      * split; vm_compute; reflexivity.
Qed.

Lemma ValidateFields_time_allocation_witness :
  let f := TaskItemChangeableFields.set_TimeAllocation (Some 90)
             TaskItemChangeableFields.zero in
  exists f', ValidateFields 100 f exampleSource
               (exampleTask 1 7 3 1 0 TASK_SOURCE_ID_GT_TASK) = inr f' /\
             TaskItemChangeableFields.TimeAllocation f' = Some 90000000000.
Proof.
  intros f. eexists. split; [reflexivity|].
  destruct (proj1 (ValidateFields_time_allocation 100 f exampleSource
                     (exampleTask 1 7 3 1 0 TASK_SOURCE_ID_GT_TASK)) _ eq_refl)
    as [_ H].
  rewrite H. reflexivity.
Defined.

Lemma findStatus_fold (externalID : string) (l : list ExternalTaskStatus) :
  forall acc : option ExternalTaskStatus,
  let r := List.fold_left
             (fun statusToUpdateTo status =>
                if String.eqb (ETS_ExternalID status) externalID then Some status
                else statusToUpdateTo) l acc in
  (forall t, r = Some t ->
     (List.In t l /\ ETS_ExternalID t = externalID) \/ acc = Some t) /\
  (r = None -> acc = None /\ forall t, List.In t l -> ETS_ExternalID t <> externalID).
Proof.
  induction l as [|x l IH]; intros acc; simpl.
  - split; [intros t Ht; right; exact Ht|]. intros ->. split; [reflexivity|intros t []].
  - destruct (IH (if String.eqb (ETS_ExternalID x) externalID then Some x else acc))
      as [I1 I2].
    split.
    + intros t Ht. destruct (I1 t Ht) as [[Hin Hid]|Hacc]; [left; auto|].
      destruct (String.eqb (ETS_ExternalID x) externalID) eqn:E; [|right; exact Hacc].
      injection Hacc as <-. apply String.eqb_eq in E. left. auto.
    + intros Hr. destruct (I2 Hr) as [Hacc Hno].
      destruct (String.eqb (ETS_ExternalID x) externalID) eqn:E; [discriminate Hacc|].
      split; [exact Hacc|]. intros t [<-|Ht]; [apply String.eqb_neq; exact E|].
      apply Hno. exact Ht.
Qed.

(** X12. Choosing a status moves the completion with it. When a request
    names a status, [ValidateFields] looks it up among the task's
    statuses by external ID: an unknown status is refused with a 400; a
    known one that is a completed status becomes the request's
    [CompletedStatus], and when the task's completion differs from the
    status's, the request leaves with [is_completed] set to the status's
    and, if that completes the task, with [completed_at] at the current
    time. *)
Theorem ValidateFields_status_moves_completion
    (now : DateTime) (f : TaskItemChangeableFields.t)
    (tsr : TaskSourceResult) (task : Task.t) (requested : ExternalTaskStatus) :
  TaskChangeable.Status (TaskItemChangeableFields.Task_ f) = Some requested ->
  (findStatus (ETS_ExternalID requested) (Task.AllStatuses task) = None <->
   forall t, List.In t (Task.AllStatuses task) ->
             ETS_ExternalID t <> ETS_ExternalID requested) /\
  (findStatus (ETS_ExternalID requested) (Task.AllStatuses task) = None ->
   exists msg, ValidateFields now f tsr task = inl (detail 400 msg)) /\
  (forall target f',
     findStatus (ETS_ExternalID requested) (Task.AllStatuses task) = Some target ->
     ValidateFields now f tsr task = inr f' ->
     List.In target (Task.AllStatuses task) /\
     ETS_ExternalID target = ETS_ExternalID requested /\
     (ETS_IsCompletedStatus target = true ->
      TaskChangeable.CompletedStatus (TaskItemChangeableFields.Task_ f') = Some target) /\
     (forall b, Task.IsCompleted task = Some b -> b <> ETS_IsCompletedStatus target ->
        TaskItemChangeableFields.IsCompleted f' = Some (ETS_IsCompletedStatus target) /\
        (ETS_IsCompletedStatus target = true ->
         TaskItemChangeableFields.CompletedAt f' = now))).
Proof.
  intros Hs.
  pose proof (findStatus_fold (ETS_ExternalID requested) (Task.AllStatuses task) None)
    as [F1 F2].
  fold (findStatus (ETS_ExternalID requested) (Task.AllStatuses task)) in F1, F2.
  split; [|split].
  - split; [intros Hn; apply (F2 Hn)|].
    intros Hno. destruct (findStatus _ _) as [t|] eqn:Ef; [|reflexivity].
    destruct (F1 t eq_refl) as [[Hin Hid]|Hc]; [|discriminate Hc].
    exfalso. exact (Hno t Hin Hid).
  - intros Hn. destruct (ValidateFields now f tsr task) as [r|f'] eqn:Ev.
    + destruct (ValidateFields_response _ _ _ _ _ Ev) as [msg ->]. eauto.
    + destruct (ValidateFields_stages _ _ _ _ _ Ev) as [f2 [f5 [H2 _]]].
      unfold ValidateFields_status in H2. rewrite Hs, Hn in H2. discriminate H2.
  - intros target f' Hf Hv.
    destruct (F1 target Hf) as [[Hin Hid]|Hc]; [|discriminate Hc].
    split; [exact Hin|]. split; [exact Hid|].
    destruct (ValidateFields_stages _ _ _ _ _ Hv) as [f2 [f5 [H2 [H5 H']]]].
    destruct (ValidateFields_stamps_keeps now f2) as [_ [K4t [K4c K4a]]].
    destruct (ValidateFields_timeAllocation_keeps _ _ H5) as [K5t [K5c [K5a _]]].
    destruct (ValidateFields_priority_keeps _ _ _ H') as [_ [K'c [K'a K's]]].
    unfold ValidateFields_status in H2. rewrite Hs, Hf in H2. cbv zeta in H2.
    split.
    + intros Hdone. rewrite K's, K5t, K4t. rewrite Hdone in H2.
      destruct (Task.IsCompleted task) as [b|];
        [destruct (_ || _)|]; injection H2 as <-; reflexivity.
    + intros b Hb Hne. rewrite Hb in H2.
      assert (Hor : (b && negb (ETS_IsCompletedStatus target))
                    || (negb b && ETS_IsCompletedStatus target) = true).
      { destruct b, (ETS_IsCompletedStatus target); try reflexivity; congruence. }
      rewrite Hor in H2.
      assert (H2c : TaskItemChangeableFields.IsCompleted f2 =
                    Some (ETS_IsCompletedStatus target)).
      { injection H2 as <-. reflexivity. }
      split.
      * rewrite K'c, K5c, K4c. exact H2c.
      * intros Hdone. rewrite K'a, K5a. apply K4a. rewrite H2c, Hdone. reflexivity.
Qed.

Lemma ValidateFields_status_moves_completion_witness :
  let f := TaskItemChangeableFields.set_Task
             (TaskChangeable.mk None None None None (Some statusDone) None None None)
             TaskItemChangeableFields.zero in
  exists f', ValidateFields 100 f exampleSource linearTask = inr f' /\
             TaskItemChangeableFields.IsCompleted f' = Some true /\
             TaskItemChangeableFields.CompletedAt f' = 100.
Proof.
  intros f. eexists. split; [reflexivity|].
  destruct (proj2 (proj2 (ValidateFields_status_moves_completion 100 f exampleSource
                            linearTask statusDone eq_refl))
              statusDone _ eq_refl eq_refl) as [_ [_ [_ H]]].
  destruct (H false eq_refl ltac:(discriminate)) as [H1 H2].
  split; [exact H1|apply H2; reflexivity].
Defined.

(** ** The action a pull request asks for *)

(** X13. [getPullRequestRequiredAction] always names an action of
    [ActionOrdering], never "Not Actionable". For a pull request of
    someone else it is "Review PR" when a review is asked of the user and
    "Waiting on Author" otherwise. For the user's own it goes by rank:
    "Add Reviewers" exactly when there are no reviewers; then "Fix Failed
    CI" when a check failed; "Merge PR" exactly when there are reviewers,
    no check failed, no changes are requested, it is mergeable, the
    checks are finished and it is approved. *)
Theorem getPullRequestRequiredAction_table (data : GithubPRData) :
  let action := getPullRequestRequiredAction data in
  (exists rank, ActionOrdering !! action = Some rank) /\
  action <> ActionNoneNeeded /\
  (IsOwnedByUser data = false ->
   action = if UserIsReviewer data then ActionReviewPR else ActionWaitingOnAuthor) /\
  (IsOwnedByUser data = true ->
   (action = ActionAddReviewers <-> RequestedReviewers data = 0) /\
   (RequestedReviewers data <> 0 -> ChecksDidFail data = true ->
    action = ActionFixFailedCI) /\
   (action = ActionMergePR <->
    RequestedReviewers data <> 0 /\ ChecksDidFail data = false /\
    HaveRequestedChanges data = false /\ IsMergeable data = true /\
    ChecksDidFinish data = true /\ IsApproved data = true) /\
   action <> ActionReviewPR /\ action <> ActionWaitingOnAuthor).
Proof.
  intros action. unfold action, getPullRequestRequiredAction.
  destruct data as [n rv mergeable approved changes failed finished owned login reviewer].
  cbn [IsOwnedByUser RequestedReviewers ChecksDidFail HaveRequestedChanges
       IsMergeable ChecksDidFinish IsApproved UserIsReviewer].
  destruct owned.
  - destruct (n =? 0) eqn:En;
      [apply Z.eqb_eq in En|apply Z.eqb_neq in En];
      destruct failed, changes, mergeable, finished, approved; cbn;
      (split; [eexists; reflexivity|]);
      (split; [discriminate|]);
      (split; [discriminate|]);
      intros _;
      repeat split; try discriminate; try reflexivity; try tauto;
      try (intros Hc; discriminate Hc);
      try (intros [H1 [H2 [H3 [H4 [H5 H6]]]]]; congruence);
      try (intros; congruence).
  - destruct reviewer; cbn;
      (split; [eexists; reflexivity|]);
      (split; [discriminate|]);
      (split; [reflexivity|]);
      intros Hc; discriminate Hc.
Qed.

Lemma getPullRequestRequiredAction_table_witness :
  getPullRequestRequiredAction
    {| RequestedReviewers := 0; Reviewers := None; IsMergeable := true;
       IsApproved := true; HaveRequestedChanges := false; ChecksDidFail := false;
       ChecksDidFinish := true; IsOwnedByUser := true; UserLogin := "ann";
       UserIsReviewer := false |} = ActionAddReviewers.
Proof.
  apply (proj1 (proj2 (proj2 (proj2
           (getPullRequestRequiredAction_table
              {| RequestedReviewers := 0; Reviewers := None; IsMergeable := true;
                 IsApproved := true; HaveRequestedChanges := false;
                 ChecksDidFail := false; ChecksDidFinish := true;
                 IsOwnedByUser := true; UserLogin := "ann";
                 UserIsReviewer := false |}))) eq_refl)).
  reflexivity.
Defined.

(** ** Reviews that request changes *)

Lemma app_cons_snoc_inv {A : Type} (l1 l2 l : list A) (r x : A) :
  l1 ++ r :: l2 = l ++ [x] ->
  (l2 = [] /\ l1 = l /\ r = x) \/
  (exists l2', l2 = l2' ++ [x] /\ l = l1 ++ r :: l2').
Proof.
  intros Heq. destruct l2 as [|a l2].
  - left. apply List.app_inj_tail in Heq. tauto.
  - right. destruct (@List.exists_last _ (a :: l2)) as [l2' [y Hy]]; [discriminate|].
    rewrite Hy in Heq.
    change (r :: l2' ++ [y]) with ((r :: l2') ++ [y]) in Heq.
    rewrite List.app_assoc in Heq. apply List.app_inj_tail in Heq.
    destruct Heq as [Hl Hx]. subst y. exists l2'. split; [exact Hy|].
    symmetry. exact Hl.
Qed.

(** The state a login is mapped to is the state of that login's last
    review other than a comment. *)
Lemma userToMostRecentReview_lookup (reviews : list GithubReview)
    (login state : string) :
  userToMostRecentReview reviews !! login = Some state <->
  exists l1 r l2,
    reviews = l1 ++ r :: l2 /\
    User_GetLogin (Review_User r) = login /\
    GetString (Review_State r) = state /\
    state <> StateCommented /\
    forall r', List.In r' l2 -> User_GetLogin (Review_User r') = login ->
               GetString (Review_State r') = StateCommented.
Proof.
  unfold userToMostRecentReview.
  induction reviews as [|x reviews IH] using List.rev_ind.
  - simpl. rewrite lookup_empty. split; [discriminate|].
    intros [l1 [r [l2 [Hc _]]]]. destruct l1; discriminate Hc.
  - rewrite List.fold_left_app. cbn [List.fold_left].
    set (m := List.fold_left _ reviews ∅) in *.
    destruct (String.eqb (GetString (Review_State x)) StateCommented) eqn:Ec.
    + apply String.eqb_eq in Ec. rewrite IH. split.
      * intros [l1 [r [l2 [-> [Hl [Hs [Hne Hlast]]]]]]].
        exists l1, r, (l2 ++ [x]). rewrite <- List.app_assoc. simpl.
        repeat split; auto.
        intros r' Hin Hl'. apply List.in_app_or in Hin.
        destruct Hin as [Hin|[<-|[]]]; [apply Hlast; assumption|exact Ec].
      * intros [l1 [r [l2 [Heq [Hl [Hs [Hne Hlast]]]]]]].
        symmetry in Heq. apply app_cons_snoc_inv in Heq.
        destruct Heq as [[-> [-> ->]]|[l2' [-> ->]]].
        -- congruence.
        -- exists l1, r, l2'. repeat split; auto.
           intros r' Hin Hl'. apply Hlast; [|exact Hl'].
           apply List.in_or_app. left. exact Hin.
    + apply String.eqb_neq in Ec.
      destruct (decide (User_GetLogin (Review_User x) = login)) as [Hx|Hx].
      * rewrite Hx, lookup_insert_eq. split.
        -- intros Hst. injection Hst as <-.
           exists reviews, x, []. repeat split; auto. intros r' [].
        -- intros [l1 [r [l2 [Heq [Hl [Hs [Hne Hlast]]]]]]].
           symmetry in Heq. apply app_cons_snoc_inv in Heq.
           destruct Heq as [[-> [-> ->]]|[l2' [-> ->]]]; [congruence|].
           exfalso. apply Ec. apply Hlast; [|exact Hx].
           apply List.in_or_app. right. left. reflexivity.
      * rewrite lookup_insert_ne by exact Hx. rewrite IH. split.
        -- intros [l1 [r [l2 [-> [Hl [Hs [Hne Hlast]]]]]]].
           exists l1, r, (l2 ++ [x]). rewrite <- List.app_assoc. simpl.
           repeat split; auto.
           intros r' Hin Hl'. apply List.in_app_or in Hin.
           destruct Hin as [Hin|[<-|[]]]; [apply Hlast; assumption|congruence].
        -- intros [l1 [r [l2 [Heq [Hl [Hs [Hne Hlast]]]]]]].
           symmetry in Heq. apply app_cons_snoc_inv in Heq.
           destruct Heq as [[-> [-> ->]]|[l2' [-> ->]]]; [congruence|].
           exists l1, r, l2'. repeat split; auto.
           intros r' Hin Hl'. apply Hlast; [|exact Hl'].
           apply List.in_or_app. left. exact Hin.
Qed.

(** X14. [reviewersHaveRequestedChanges] goes by each reviewer's last
    word: it holds exactly when some review requests changes and every
    later review by the same login is a mere comment. A later approval by
    that reviewer withdraws the request; a later comment does not. *)
Theorem reviewersHaveRequestedChanges_last_word (reviews : list GithubReview) :
  reviewersHaveRequestedChanges reviews = true <->
  exists l1 r l2,
    reviews = l1 ++ r :: l2 /\
    GetString (Review_State r) = StateChangesRequested /\
    forall r', List.In r' l2 ->
               User_GetLogin (Review_User r') = User_GetLogin (Review_User r) ->
               GetString (Review_State r') = StateCommented.
Proof.
  unfold reviewersHaveRequestedChanges. rewrite List.existsb_exists. split.
  - intros [[login state] [Hin Hst]]. simpl in Hst. apply String.eqb_eq in Hst.
    subst state. apply list_elem_of_In, elem_of_map_to_list in Hin.
    apply userToMostRecentReview_lookup in Hin.
    destruct Hin as [l1 [r [l2 [Heq [Hl [Hs [_ Hlast]]]]]]].
    exists l1, r, l2. split; [exact Heq|]. split; [exact Hs|].
    intros r' Hr' Hl'. apply Hlast; [exact Hr'|congruence].
  - intros [l1 [r [l2 [Heq [Hs Hlast]]]]].
    exists (User_GetLogin (Review_User r), StateChangesRequested).
    split; [|reflexivity].
    apply list_elem_of_In, elem_of_map_to_list.
    apply userToMostRecentReview_lookup.
    exists l1, r, l2. repeat split; auto; discriminate.
Qed.

Lemma reviewersHaveRequestedChanges_last_word_witness :
  let ann := Some {| GU_ID := Some 1; GU_Login := Some "ann"%string |} in
  let review state := {| Review_State := Some state; Review_User := ann;
                         Review_Body := None; Review_SubmittedAt := 0 |} in
  reviewersHaveRequestedChanges
    [review StateChangesRequested; review StateCommented] = true.
Proof.
  intros ann review.
  apply (proj2 (reviewersHaveRequestedChanges_last_word
                  [review StateChangesRequested; review StateCommented])).
  exists [], (review StateChangesRequested), [review StateCommented].
  split; [reflexivity|]. split; [reflexivity|].
  intros r' [<-|[]] _. reflexivity.
Defined.

(** ** The required action of a fetched pull request *)

Lemma count_fold_left {A : Type} (p : A -> bool) (l : list A) (acc : Z) :
  List.fold_left (fun n x => if p x then n + 1 else n) l acc =
  acc + Z.of_nat (length (List.filter p l)).
Proof.
  revert acc. induction l as [|x l IH]; intros acc; simpl; [lia|].
  rewrite IH. destruct (p x); simpl; lia.
Qed.

Lemma filter_nil_iff {A : Type} (p : A -> bool) (l : list A) :
  List.filter p l = [] <-> forall x, List.In x l -> p x = false.
Proof.
  induction l as [|x l IH]; simpl; [tauto|].
  destruct (p x) eqn:E.
  - split; [discriminate|]. intros H. specialize (H x (or_introl eq_refl)). congruence.
  - rewrite IH. split.
    + intros H y [<-|Hy]; auto.
    + intros H y Hy. apply H. right. exact Hy.
Qed.

(** A review counts as submitted when it has a user and approves or
    requests changes. *)
Lemma getReviewerCount_counted_zero (reviews : list GithubReview)
    (reviewers : GithubReviewers) :
  0 <= getReviewerCount_counted reviews reviewers /\
  (getReviewerCount_counted reviews reviewers = 0 <->
   Reviewers_Users reviewers = [] /\ Reviewers_Teams reviewers = [] /\
   forall review, List.In review reviews ->
     Review_User review = None \/
     (GetString (Review_State review) <> StateApproved /\
      GetString (Review_State review) <> StateChangesRequested)).
Proof.
  unfold getReviewerCount_counted. cbv zeta.
  rewrite (count_fold_left
             (fun review =>
                negb (isnil (Review_User review))
                && (String.eqb (GetString (Review_State review)) StateApproved
                    || String.eqb (GetString (Review_State review)) StateChangesRequested))).
  set (p := fun review : GithubReview => _ && _).
  split; [lia|].
  assert (Hp : List.filter p reviews = [] <->
               forall review, List.In review reviews ->
                 Review_User review = None \/
                 (GetString (Review_State review) <> StateApproved /\
                  GetString (Review_State review) <> StateChangesRequested)).
  { rewrite filter_nil_iff. split; intros H review Hin; specialize (H review Hin).
    - unfold p in H. destruct (Review_User review); [right|left; reflexivity].
      simpl in H. apply orb_false_elim in H. destruct H as [H1 H2].
      apply String.eqb_neq in H1, H2. auto.
    - unfold p. destruct H as [-> | [H1 H2]]; [reflexivity|].
      apply String.eqb_neq in H1, H2. rewrite H1, H2. apply andb_false_r. }
  rewrite <- Hp. split.
  - intros H0.
    destruct (List.filter p reviews), (Reviewers_Users reviewers),
      (Reviewers_Teams reviewers); simpl in H0; try lia. auto.
  - intros [-> [-> ->]]. reflexivity.
Qed.

Lemma getPullRequestRequiredAction_ranked (data : GithubPRData) :
  (exists rank, ActionOrdering !! getPullRequestRequiredAction data = Some rank) /\
  getPullRequestRequiredAction data <> ActionNoneNeeded.
Proof.
  unfold getPullRequestRequiredAction.
  destruct (IsOwnedByUser data), (RequestedReviewers data =? 0), (ChecksDidFail data),
    (HaveRequestedChanges data), (IsMergeable data), (ChecksDidFinish data),
    (IsApproved data), (UserIsReviewer data); cbn;
    (split; [eexists; reflexivity|discriminate]).
Qed.

Lemma getPullRequestRequiredAction_not_owner (data : GithubPRData) :
  IsOwnedByUser data = false ->
  getPullRequestRequiredAction data =
  if UserIsReviewer data then ActionReviewPR else ActionWaitingOnAuthor.
Proof.
  unfold getPullRequestRequiredAction. intros ->.
  destruct (UserIsReviewer data); reflexivity.
Qed.

Lemma getPullRequestRequiredAction_add_reviewers (data : GithubPRData) :
  IsOwnedByUser data = true ->
  (getPullRequestRequiredAction data = ActionAddReviewers <->
   RequestedReviewers data = 0).
Proof.
  unfold getPullRequestRequiredAction. intros ->.
  destruct (RequestedReviewers data =? 0) eqn:En;
    [apply Z.eqb_eq in En|apply Z.eqb_neq in En].
  - tauto.
  - destruct (ChecksDidFail data), (HaveRequestedChanges data), (IsMergeable data),
      (ChecksDidFinish data), (IsApproved data); cbn;
      (split; [discriminate|intros Hc; contradiction]).
Qed.

(** X15. What [getPullRequestInfo] makes of the reviews. A pull request is
    "Not Actionable" exactly when the user is neither its owner nor a
    reviewer of it (requested, in a requested team, or having reviewed).
    The owner is told "Add Reviewers" exactly when nobody is asked for a
    review and no review by a known user approves or requests changes;
    someone else's pull request that the user has reviewed is "Review PR"
    while a review is still asked of the user and "Waiting on Author"
    otherwise. *)
Theorem getPullRequestInfo_requiredAction_cases
    (githubUser : GithubUser) (pullRequest : GithubPullRequestPeople)
    (reviews : list GithubReview) (userTeams : list GithubTeam)
    (reviewers reviewersCounted : GithubReviewers)
    (mergeable : bool) (checkRuns : list GithubCheckRun) (isOwner : bool) :
  userIsOwner (Some githubUser) pullRequest = Ok isOwner ->
  let isReviewer := userIsReviewer (Some githubUser) (Some pullRequest) reviews userTeams in
  let action := getPullRequestInfo_requiredAction githubUser pullRequest reviews
                  userTeams reviewers reviewersCounted mergeable checkRuns in
  (exists a, action = Ok a /\ exists rank, ActionOrdering !! a = Some rank) /\
  (action = Ok ActionNoneNeeded <-> isOwner = false /\ isReviewer = false) /\
  (isOwner = true ->
   (action = Ok ActionAddReviewers <->
    Reviewers_Users reviewersCounted = [] /\ Reviewers_Teams reviewersCounted = [] /\
    forall review, List.In review reviews ->
      Review_User review = None \/
      (GetString (Review_State review) <> StateApproved /\
       GetString (Review_State review) <> StateChangesRequested))) /\
  (isOwner = false -> isReviewer = true ->
   action = Ok (if userNeedsToSubmitReview (Some githubUser) (Some reviewers) userTeams
                then ActionReviewPR else ActionWaitingOnAuthor)).
Proof.
  intros Hown isReviewer action.
  unfold action, getPullRequestInfo_requiredAction. rewrite Hown. fold isReviewer.
  set (data := {| RequestedReviewers := _ |}).
  destruct (getPullRequestRequiredAction_ranked data) as [Hrank Hnone].
  pose proof (getPullRequestRequiredAction_not_owner data) as Hother.
  pose proof (getPullRequestRequiredAction_add_reviewers data) as Hadd.
  destruct (getReviewerCount_counted_zero reviews reviewersCounted) as [_ Hzero].
  destruct isOwner; cbn [orb].
  - specialize (Hadd eq_refl).
    split; [eauto|]. split.
    { split; [intros Hc; injection Hc as Hc; contradiction|].
      intros [Hc _]. discriminate Hc. }
    split; [|intros Hc; discriminate Hc].
    intros _. rewrite <- Hzero. change (RequestedReviewers data) with
      (getReviewerCount_counted reviews reviewersCounted) in Hadd.
    rewrite <- Hadd. split; [intros Hc; injection Hc as Hc; exact Hc|].
    intros ->. reflexivity.
  - destruct isReviewer eqn:Er.
    + split; [eauto|]. split.
      { split; [intros Hc; injection Hc as Hc; contradiction|].
        intros [_ Hc]. discriminate Hc. }
      split; [intros Hc; discriminate Hc|].
      intros _ _. f_equal. apply Hother. reflexivity.
    + split; [exists ActionNoneNeeded; split; [reflexivity|eexists; reflexivity]|].
      split; [tauto|].
      split; [intros Hc; discriminate Hc|intros _ Hc; discriminate Hc].
Qed.

Lemma getPullRequestInfo_requiredAction_cases_witness :
  let ann := {| GU_ID := Some 1; GU_Login := Some "ann"%string |} in
  let bob := {| GU_ID := Some 2; GU_Login := Some "bob"%string |} in
  let pr := {| PR_User := Some bob; PR_RequestedReviewers := [];
               PR_RequestedTeams := [] |} in
  getPullRequestInfo_requiredAction ann pr [] []
    {| Reviewers_Users := []; Reviewers_Teams := [] |}
    {| Reviewers_Users := []; Reviewers_Teams := [] |} true [] = Ok ActionNoneNeeded.
Proof.
  intros ann bob pr.
  apply (proj2 (proj1 (proj2
           (getPullRequestInfo_requiredAction_cases ann pr [] []
              {| Reviewers_Users := []; Reviewers_Teams := [] |}
              {| Reviewers_Users := []; Reviewers_Teams := [] |} true [] false
              eq_refl)))).
  split; reflexivity.
Defined.

(** ** State tokens *)

Lemma hexDigit_hexChar (v : Z) : 0 <= v < 16 -> hexDigit (hexChar v) = Some v.
Proof.
  intros Hv.
  assert (Hc : v = 0 \/ v = 1 \/ v = 2 \/ v = 3 \/ v = 4 \/ v = 5 \/ v = 6 \/ v = 7 \/
               v = 8 \/ v = 9 \/ v = 10 \/ v = 11 \/ v = 12 \/ v = 13 \/ v = 14 \/
               v = 15) by lia.
  repeat (destruct Hc as [-> | Hc]; [reflexivity|]). subst v. reflexivity.
Qed.

Lemma hexValue_hexDigits (n : nat) : forall (z : Z) (acc : string) (a : Z),
  hexValue (hexDigits n z acc) a =
  hexValue acc (16 ^ Z.of_nat n * a + z mod 16 ^ Z.of_nat n).
Proof.
  induction n as [|n IH]; intros z acc a.
  - simpl hexDigits. rewrite Z.pow_0_r, Z.mod_1_r. f_equal. lia.
  - cbn [hexDigits]. rewrite IH. cbn [hexValue].
    rewrite hexDigit_hexChar by (apply Z.mod_pos_bound; lia).
    f_equal. rewrite Nat2Z.inj_succ, Z.pow_succ_r by lia.
    rewrite (Z.rem_mul_r z 16 (16 ^ Z.of_nat n)) by lia. lia.
Qed.

Lemma length_hexDigits (n : nat) : forall (z : Z) (acc : string),
  String.length (hexDigits n z acc) = (n + String.length acc)%nat.
Proof.
  induction n as [|n IH]; intros z acc; [reflexivity|].
  cbn [hexDigits]. rewrite IH. simpl. lia.
Qed.

(** The hexadecimal form of an ID parses back to the ID. *)
Lemma ObjectIDFromHex_Hex (id : ObjectID) :
  0 <= id < 16 ^ 24 -> ObjectIDFromHex (ObjectID_Hex id) = Ok id.
Proof.
  intros Hid. unfold ObjectIDFromHex, ObjectID_Hex.
  rewrite length_hexDigits. cbn [String.length Nat.add Nat.eqb negb].
  rewrite hexValue_hexDigits. cbn [hexValue].
  change (Z.of_nat 24) with 24. rewrite Z.mod_small by exact Hid.
  f_equal; lia.
Qed.

Lemma DeleteOne_none {A : Type} (q : A -> bool) (c : list A) :
  (forall d, List.In d c -> q d = false) -> DeleteOne q c = (c, 0).
Proof.
  induction c as [|x c IH]; intros H; [reflexivity|].
  simpl. rewrite (H x (or_introl eq_refl)).
  rewrite IH; [reflexivity|]. intros d Hd. apply H. right. exact Hd.
Qed.

Lemma DeleteOne_app_last {A : Type} (q : A -> bool) (c : list A) (x : A) :
  (forall d, List.In d c -> q d = false) -> q x = true ->
  DeleteOne q (c ++ [x]) = (c, 1).
Proof.
  induction c as [|y c IH]; intros H Hx.
  - simpl. rewrite Hx. reflexivity.
  - simpl. rewrite (H y (or_introl eq_refl)).
    rewrite IH; [reflexivity| |exact Hx]. intros d Hd. apply H. right. exact Hd.
Qed.

Lemma DeleteOne_count {A : Type} (q : A -> bool) (c : list A) :
  snd (DeleteOne q c) = if List.existsb q c then 1 else 0.
Proof.
  induction c as [|x c IH]; [reflexivity|].
  simpl. destruct (q x); [reflexivity|].
  destruct (DeleteOne q c) as [c' n]. simpl in *. exact IH.
Qed.

(** With unique keys, deleting by a query that fixes the key removes the
    documents with that key, if the query selects one. *)
Lemma DeleteOne_unique_key {A : Type} (key : A -> Z) (q : A -> bool) (k : Z)
    (c : list A) :
  List.NoDup (List.map key c) ->
  (forall d, q d = true -> key d = k) ->
  List.existsb q c = true ->
  fst (DeleteOne q c) = List.filter (fun d => negb (key d =? k)) c.
Proof.
  intros Hnd Hq. induction c as [|x c IH]; intros Hex; [discriminate Hex|].
  simpl in *. apply List.NoDup_cons_iff in Hnd. destruct Hnd as [Hx Hnd].
  destruct (q x) eqn:E.
  - rewrite (Hq x E), Z.eqb_refl. simpl.
    symmetry. rewrite List.forallb_filter_id; [reflexivity|].
    apply List.forallb_forall. intros d Hd.
    apply negb_true_iff, Z.eqb_neq. intros Hk. apply Hx.
    rewrite (Hq x E), <- Hk. apply List.in_map. exact Hd.
  - simpl in Hex. specialize (IH Hnd Hex).
    destruct (DeleteOne q c) as [c' n]. simpl in *.
    assert (Hkx : key x <> k).
    { intros Hk. apply Hx. apply List.existsb_exists in Hex.
      destruct Hex as [d [Hd Hqd]]. rewrite Hk, <- (Hq d Hqd).
      apply List.in_map. exact Hd. }
    apply Z.eqb_neq in Hkx. rewrite Hkx. simpl. f_equal. exact IH.
Qed.

Lemma stateTokenQuery_true (id : ObjectID) (r : option ObjectID) (d : StateToken.t) :
  stateTokenQuery id r d = true <->
  StateToken.ID d = id /\ mayUse r (StateToken.UserID d) = true.
Proof.
  unfold stateTokenQuery, mayUse. destruct r as [u|].
  - rewrite andb_true_iff, !Z.eqb_eq. tauto.
  - rewrite Z.eqb_eq. tauto.
Qed.

Lemma stateTokenQuery_other (id : ObjectID) (r : option ObjectID) (c : list StateToken.t) :
  (forall t, List.In t c -> StateToken.ID t <> id) ->
  forall d, List.In d c -> stateTokenQuery id r d = false.
Proof.
  intros H d Hd. destruct (stateTokenQuery id r d) eqn:E; [|reflexivity].
  apply stateTokenQuery_true in E. destruct E as [E _].
  exfalso. exact (H d Hd E).
Qed.

(** X16. The life of a state token. [CreateStateToken] returns the
    24-digit hexadecimal form of the inserted ID, which parses back to it.
    The token can then be fetched and deleted by a caller that passes no
    user ID or the user ID the token was created with (the nil ID for a
    token created without a user), and by nobody else: a wrong user ID gets
    an error and leaves the token stored. Deleting the token restores the
    collection as it was before, so that a second fetch or delete, by
    anybody, fails with "invalid state token". *)
Theorem state_token_lifecycle (collection : list StateToken.t)
    (userID : option ObjectID) (useDeeplink : bool) (insertedID : ObjectID) :
  0 <= insertedID < 16 ^ 24 ->
  (forall t, List.In t collection -> StateToken.ID t <> insertedID) ->
  let created := CreateStateToken collection userID useDeeplink insertedID in
  let owner := match userID with Some u => u | None => NilObjectID end in
  let token := StateToken.mk insertedID owner useDeeplink in
  (exists hex, snd created = Ok hex /\ String.length hex = 24%nat /\
               ObjectIDFromHex hex = Ok insertedID) /\
  forall requester : option ObjectID,
    (mayUse requester owner = true ->
     GetStateToken (fst created) insertedID requester = Ok token /\
     DeleteStateToken (fst created) insertedID requester = (collection, None) /\
     forall again : option ObjectID,
       is_Err (GetStateToken collection insertedID again) /\
       DeleteStateToken collection insertedID again =
       (collection, Some (errors_New "invalid state token"))) /\
    (mayUse requester owner = false ->
     is_Err (GetStateToken (fst created) insertedID requester) /\
     DeleteStateToken (fst created) insertedID requester =
     (fst created, Some (errors_New "invalid state token"))).
Proof.
  intros Hid Hfresh created owner token.
  assert (Hc : fst created = collection ++ [token]).
  { unfold created, CreateStateToken, token, owner. destruct userID; reflexivity. }
  split.
  { exists (ObjectID_Hex insertedID). split; [reflexivity|].
    split; [apply length_hexDigits|apply ObjectIDFromHex_Hex; exact Hid]. }
  intros requester. rewrite Hc.
  pose proof (stateTokenQuery_other insertedID requester collection Hfresh) as Hno.
  split.
  - intros Hmay.
    assert (Hq : stateTokenQuery insertedID requester token = true)
      by (apply stateTokenQuery_true; split; [reflexivity|exact Hmay]).
    split.
    { unfold GetStateToken, FindOne.
      rewrite find_app_none by exact Hno. simpl. rewrite Hq. reflexivity. }
    split.
    { unfold DeleteStateToken. rewrite DeleteOne_app_last by assumption. reflexivity. }
    intros again.
    pose proof (stateTokenQuery_other insertedID again collection Hfresh) as Hno'.
    split.
    + unfold GetStateToken, FindOne.
      rewrite (find_none_all _ _ Hno'). exact I.
    + unfold DeleteStateToken. rewrite DeleteOne_none by exact Hno'. reflexivity.
  - intros Hmay.
    assert (Hq : stateTokenQuery insertedID requester token = false).
    { destruct (stateTokenQuery insertedID requester token) eqn:E; [|reflexivity].
      apply stateTokenQuery_true in E. destruct E as [_ E]. simpl in E. congruence. }
    assert (Hall : forall d, List.In d (collection ++ [token]) ->
                             stateTokenQuery insertedID requester d = false).
    { intros d Hd. apply List.in_app_or in Hd. destruct Hd as [Hd|[<-|[]]]; auto. }
    split.
    + unfold GetStateToken, FindOne. rewrite (find_none_all _ _ Hall). exact I.
    + unfold DeleteStateToken. rewrite DeleteOne_none by exact Hall. reflexivity.
Qed.

Lemma state_token_lifecycle_witness :
  GetStateToken (fst (CreateStateToken [] (Some 7) true 255)) 255 None =
  Ok (StateToken.mk 255 7 true).
Proof.
  assert (Hid : 0 <= 255 < 16 ^ 24) by (split; [lia|reflexivity]).
  assert (Hfresh : forall t : StateToken.t, List.In t [] -> StateToken.ID t <> 255)
    by (intros t []).
  exact (proj1 (proj1 (proj2 (state_token_lifecycle [] (Some 7) true 255 Hid Hfresh)
                         None) eq_refl)).
Defined.

(** X17. State tokens are single-use and independent of each other. In a
    collection with unique IDs, a successful [DeleteStateToken] removes the
    token with that ID and no other document, the token was one the caller
    may use, and afterwards it can be neither fetched nor deleted again; a
    failed one changes nothing. Either way every other token is fetched
    exactly as before. *)
Theorem DeleteStateToken_single_use (collection : list StateToken.t)
    (stateTokenID : ObjectID) (userID : option ObjectID) :
  List.NoDup (List.map StateToken.ID collection) ->
  let out := DeleteStateToken collection stateTokenID userID in
  (snd out = None ->
   fst out = List.filter (fun d => negb (StateToken.ID d =? stateTokenID)) collection /\
   (exists token, List.In token collection /\ StateToken.ID token = stateTokenID /\
                  mayUse userID (StateToken.UserID token) = true) /\
   forall again : option ObjectID,
     is_Err (GetStateToken (fst out) stateTokenID again) /\
     DeleteStateToken (fst out) stateTokenID again =
     (fst out, Some (errors_New "invalid state token"))) /\
  (snd out <> None ->
   snd out = Some (errors_New "invalid state token") /\ fst out = collection /\
   is_Err (GetStateToken collection stateTokenID userID)) /\
  (forall (other : ObjectID) (requester : option ObjectID),
     other <> stateTokenID ->
     GetStateToken (fst out) other requester = GetStateToken collection other requester).
Proof.
  intros Hnd out.
  set (q := stateTokenQuery stateTokenID userID).
  assert (Hqk : forall d, q d = true -> StateToken.ID d = stateTokenID)
    by (intros d Hd; apply stateTokenQuery_true in Hd; tauto).
  assert (Hout : out = if List.existsb q collection
                       then (List.filter (fun d => negb (StateToken.ID d =? stateTokenID))
                                         collection, None)
                       else (collection, Some (errors_New "invalid state token"))).
  { unfold out, DeleteStateToken. fold q.
    pose proof (DeleteOne_count q collection) as Hn.
    destruct (List.existsb q collection) eqn:Ex.
    - pose proof (DeleteOne_unique_key StateToken.ID q stateTokenID collection
                    Hnd Hqk Ex) as Hf.
      destruct (DeleteOne q collection) as [c' n]. simpl in Hn, Hf. subst. reflexivity.
    - rewrite DeleteOne_none; [reflexivity|].
      intros d Hd. destruct (q d) eqn:E; [|reflexivity].
      assert (List.existsb q collection = true)
        by (apply List.existsb_exists; eauto).
      congruence. }
  rewrite Hout. clear Hout out.
  destruct (List.existsb q collection) eqn:Ex; cbn [fst snd].
  - split; [|split; [intros H; congruence|]].
    + intros _. split; [reflexivity|]. split.
      { apply List.existsb_exists in Ex. destruct Ex as [d [Hd Hq]].
        apply stateTokenQuery_true in Hq. exists d. tauto. }
      intros again.
      assert (Hno : forall d,
                List.In d (List.filter (fun d => negb (StateToken.ID d =? stateTokenID))
                                       collection) ->
                stateTokenQuery stateTokenID again d = false).
      { apply stateTokenQuery_other. intros t Ht.
        apply List.filter_In in Ht. destruct Ht as [_ Ht].
        apply negb_true_iff, Z.eqb_neq in Ht. exact Ht. }
      split.
      * unfold GetStateToken, FindOne. rewrite (find_none_all _ _ Hno). exact I.
      * unfold DeleteStateToken. rewrite DeleteOne_none by exact Hno. reflexivity.
    + intros other requester Hne. unfold GetStateToken, FindOne. f_equal.
      clear Ex Hnd. induction collection as [|x c IH]; [reflexivity|].
      simpl. destruct (StateToken.ID x =? stateTokenID) eqn:E; simpl.
      * apply Z.eqb_eq in E.
        assert (Hx : stateTokenQuery other requester x = false).
        { destruct (stateTokenQuery other requester x) eqn:Eq; [|reflexivity].
          apply stateTokenQuery_true in Eq. destruct Eq as [Eq _]. congruence. }
        rewrite Hx. exact IH.
      * rewrite IH. reflexivity.
  - split; [intros H; discriminate H|]. split; [|reflexivity].
    intros _. split; [reflexivity|]. split; [reflexivity|].
    unfold GetStateToken, FindOne. fold q.
    rewrite (find_none_all q collection); [exact I|].
    intros d Hd. destruct (q d) eqn:E; [|reflexivity].
    assert (List.existsb q collection = true) by (apply List.existsb_exists; eauto).
    congruence.
Qed.

Lemma DeleteStateToken_single_use_witness :
  let c := [StateToken.mk 5 7 false; StateToken.mk 6 8 true] in
  GetStateToken (fst (DeleteStateToken c 5 (Some 7))) 6 None = GetStateToken c 6 None.
Proof.
  intros c.
  assert (Hnd : List.NoDup (List.map StateToken.ID c)) by (simpl; nodup_literals).
  apply (proj2 (proj2 (DeleteStateToken_single_use c 5 (Some 7) Hnd))).
  discriminate.
Defined.

(** ** Completing a task and the active list *)

Lemma filter_ext_in_bool {A : Type} (p q : A -> bool) (l : list A) :
  (forall x, List.In x l -> p x = q x) -> List.filter p l = List.filter q l.
Proof.
  induction l as [|x l IH]; intros H; [reflexivity|].
  simpl. rewrite (H x (or_introl eq_refl)).
  rewrite IH; [reflexivity|]. intros y Hy. apply H. right. exact Hy.
Qed.

Lemma filter_map_if {A : Type} (p q : A -> bool) (u : A -> A) (l : list A) :
  (forall d, q d = true -> p (u d) = false) ->
  List.filter p (List.map (fun d => if q d then u d else d) l) =
  List.filter (fun d => negb (q d) && p d) l.
Proof.
  intros H. induction l as [|x l IH]; [reflexivity|].
  simpl. destruct (q x) eqn:E; simpl.
  - rewrite (H x E). exact IH.
  - destruct (p x); rewrite IH; reflexivity.
Qed.

Lemma filter_filter_andb {A : Type} (p q : A -> bool) (l : list A) :
  List.filter p (List.filter q l) = List.filter (fun d => q d && p d) l.
Proof.
  induction l as [|x l IH]; [reflexivity|].
  simpl. destruct (q x); simpl; [destruct (p x)|]; rewrite IH; reflexivity.
Qed.

(** X18. Completing an item takes it off the active list. With unique
    IDs, [MarkCompleteWithCollection] succeeds exactly when an item with
    the ID is stored, whoever owns it and whether or not it is deleted or
    already completed; it then holds [is_completed = true] and the
    completion time and is otherwise as before, every other item is
    untouched, and each user's active items are the ones from before
    without that item, in the same order. With no such item it returns
    "did not find item to mark complete" and changes nothing. *)
Theorem MarkCompleteWithCollection_leaves_active_list (collection : list Task.t)
    (itemID : ObjectID) (now : DateTime) :
  List.NoDup (List.map Task.ID collection) ->
  let out := MarkCompleteWithCollection collection itemID now in
  (snd out = None <-> exists d, List.In d collection /\ Task.ID d = itemID) /\
  (snd out <> None ->
   snd out = Some (errors_New "did not find item to mark complete") /\
   fst out = collection) /\
  fst out = List.map (fun d => if Task.ID d =? itemID
                               then Task_set_completed now d else d) collection /\
  (forall userID,
     GetActiveItemsWithCollection (fst out) userID =
     List.filter (fun d => negb (Task.ID d =? itemID))
                 (GetActiveItemsWithCollection collection userID)).
Proof.
  intros Hnd out.
  set (q := fun d : Task.t => Task.ID d =? itemID).
  assert (Hmap : fst out = List.map (fun d => if q d then Task_set_completed now d else d)
                                    collection).
  { unfold out, MarkCompleteWithCollection.
    rewrite <- (UpdateOne_as_map Task.ID itemID q (Task_set_completed now) collection Hnd).
    - fold q. destruct (UpdateOne q (Task_set_completed now) collection) as [c' n].
      destruct (negb (n =? 1)); reflexivity.
    - intros d _ Hd. apply Z.eqb_eq. exact Hd. }
  assert (Hsnd : snd out = if List.existsb q collection then None
                           else Some (errors_New "did not find item to mark complete")).
  { unfold out, MarkCompleteWithCollection. fold q.
    pose proof (UpdateOne_matched q (Task_set_completed now) collection) as Hm.
    destruct (UpdateOne q (Task_set_completed now) collection) as [c' n].
    simpl in Hm. subst n. destruct (List.existsb q collection); reflexivity. }
  split.
  { rewrite Hsnd. destruct (List.existsb q collection) eqn:Ex.
    - split; [|reflexivity]. intros _.
      apply List.existsb_exists in Ex. destruct Ex as [d [Hd Hq]].
      exists d. split; [exact Hd|]. apply Z.eqb_eq. exact Hq.
    - split; [discriminate|]. intros [d [Hd Hid]].
      assert (List.existsb q collection = true).
      { apply List.existsb_exists. exists d. split; [exact Hd|].
        apply Z.eqb_eq. exact Hid. }
      congruence. }
  split.
  { rewrite Hsnd, Hmap. destruct (List.existsb q collection) eqn:Ex.
    - intros H. congruence.
    - intros _. split; [reflexivity|]. apply map_if_none.
      intros d Hd. destruct (q d) eqn:E; [|reflexivity].
      assert (List.existsb q collection = true)
        by (apply List.existsb_exists; eauto).
      congruence. }
  split; [exact Hmap|].
  intros userID. unfold GetActiveItemsWithCollection, Find.
  rewrite Hmap, filter_map_if
    by (intros d _; cbn; rewrite andb_false_r; reflexivity).
  rewrite filter_filter_andb. apply filter_ext_in_bool.
  intros x _. fold (q x). destruct (q x); simpl.
  - rewrite andb_false_r. reflexivity.
  - rewrite andb_true_r. reflexivity.
Qed.

Lemma MarkCompleteWithCollection_leaves_active_list_witness :
  GetActiveItemsWithCollection
    (fst (MarkCompleteWithCollection (GetTaskCollection reorderDB) 2 50)) 7 =
  List.filter (fun d => negb (Task.ID d =? 2))
              (GetActiveItemsWithCollection (GetTaskCollection reorderDB) 7).
Proof.
  apply (proj2 (proj2 (proj2
           (MarkCompleteWithCollection_leaves_active_list
              (GetTaskCollection reorderDB) 2 50 reorderDB_NoDup)))).
Defined.

(** ** Sorted and limited lists *)

Section SortDesc.
Context {A : Type}.
Variables key1 key2 : A -> Z.

Lemma sortsBefore_true (a b : A) :
  sortsBefore key1 key2 a b = true <-> desc_by key1 key2 a b.
Proof.
  unfold sortsBefore, desc_by.
  rewrite orb_true_iff, andb_true_iff, Z.ltb_lt, Z.eqb_eq, Z.leb_le. tauto.
Qed.

Lemma sortsBefore_false (a b : A) :
  sortsBefore key1 key2 a b = false -> desc_by key1 key2 b a.
Proof.
  unfold sortsBefore, desc_by. intros H.
  apply orb_false_elim in H. destruct H as [H1 H2].
  apply Z.ltb_ge in H1. apply andb_false_iff in H2.
  destruct H2 as [H2|H2]; [apply Z.eqb_neq in H2|apply Z.leb_gt in H2]; lia.
Qed.

Lemma desc_by_trans (a b c : A) :
  desc_by key1 key2 a b -> desc_by key1 key2 b c -> desc_by key1 key2 a c.
Proof. unfold desc_by. lia. Qed.

Lemma insert_desc_perm (x : A) (l : list A) :
  Permutation (insert_desc key1 key2 x l) (x :: l).
Proof.
  induction l as [|y l IH]; simpl; [reflexivity|].
  destruct (sortsBefore key1 key2 x y); [reflexivity|].
  rewrite IH. apply perm_swap.
Qed.

Lemma sort_desc_perm (l : list A) : Permutation (sort_desc key1 key2 l) l.
Proof.
  induction l as [|x l IH]; simpl; [reflexivity|].
  rewrite insert_desc_perm. apply perm_skip. exact IH.
Qed.

Lemma insert_desc_sorted (x : A) (l : list A) :
  StronglySorted (desc_by key1 key2) l ->
  StronglySorted (desc_by key1 key2) (insert_desc key1 key2 x l).
Proof.
  induction l as [|y l IH]; intros Hs; simpl.
  - constructor; constructor.
  - inversion Hs as [|? ? Hs' Hall]; subst.
    destruct (sortsBefore key1 key2 x y) eqn:E.
    + apply sortsBefore_true in E. constructor; [exact Hs|].
      constructor; [exact E|].
      eapply List.Forall_impl; [|exact Hall].
      intros z Hz. eapply desc_by_trans; eassumption.
    + apply sortsBefore_false in E. constructor; [apply IH; exact Hs'|].
      apply List.Forall_forall. intros z Hz.
      apply (Permutation_in _ (insert_desc_perm x l)) in Hz.
      destruct Hz as [<-|Hz]; [exact E|].
      rewrite List.Forall_forall in Hall. apply Hall. exact Hz.
Qed.

Lemma sort_desc_sorted (l : list A) :
  StronglySorted (desc_by key1 key2) (sort_desc key1 key2 l).
Proof.
  induction l as [|x l IH]; simpl; [constructor|].
  apply insert_desc_sorted. exact IH.
Qed.

Lemma StronglySorted_app_inv (R : A -> A -> Prop) (l1 l2 : list A) :
  StronglySorted R (l1 ++ l2) ->
  StronglySorted R l1 /\ forall a b, List.In a l1 -> List.In b l2 -> R a b.
Proof.
  induction l1 as [|x l1 IH]; simpl; intros Hs.
  - split; [constructor|]. intros a b [].
  - inversion Hs as [|? ? Hs' Hall]; subst.
    destruct (IH Hs') as [H1 H2]. rewrite List.Forall_forall in Hall.
    split.
    + constructor; [exact H1|]. apply List.Forall_forall.
      intros z Hz. apply Hall. apply List.in_or_app. left. exact Hz.
    + intros a b [<-|Ha] Hb; [|apply H2; assumption].
      apply Hall. apply List.in_or_app. right. exact Hb.
Qed.

(** What a sorted, limited query returns: documents the query selects,
    most recent first, no more than the limit, and nothing more recent is
    left out. *)
Lemma SetLimit_sort_desc (n : Z) (q : A -> bool) (c : list A) :
  let r := SetLimit n (sort_desc key1 key2 (Find q c)) in
  (forall d, List.In d r -> List.In d c /\ q d = true) /\
  StronglySorted (desc_by key1 key2) r /\
  Z.of_nat (length r) =
    (if n =? 0 then Z.of_nat (length (Find q c))
     else Z.min (Z.abs n) (Z.of_nat (length (Find q c)))) /\
  (forall d d', List.In d c -> q d = true -> ~ List.In d r -> List.In d' r ->
                desc_by key1 key2 d' d) /\
  (List.NoDup c -> List.NoDup r).
Proof.
  intros r. set (s := sort_desc key1 key2 (Find q c)).
  assert (Hp : Permutation s (Find q c)) by apply sort_desc_perm.
  assert (Hs : StronglySorted (desc_by key1 key2) s) by apply sort_desc_sorted.
  assert (Hr : exists rest, s = r ++ rest /\
                 Z.of_nat (length r) =
                   (if n =? 0 then Z.of_nat (length s)
                    else Z.min (Z.abs n) (Z.of_nat (length s)))).
  { unfold r, SetLimit. fold s. destruct (n =? 0) eqn:En.
    - exists []. rewrite List.app_nil_r. split; reflexivity.
    - exists (List.skipn (Z.to_nat (Z.abs n)) s).
      split; [symmetry; apply List.firstn_skipn|].
      rewrite List.length_firstn. lia. }
  destruct Hr as [rest [Hsr Hlen]].
  rewrite Hsr in Hs. apply StronglySorted_app_inv in Hs. destruct Hs as [Hs1 Hs2].
  split.
  { intros d Hd. apply List.filter_In. apply (Permutation_in _ Hp).
    rewrite Hsr. apply List.in_or_app. left. exact Hd. }
  split; [exact Hs1|]. split.
  { rewrite Hlen, (Permutation_length Hp). reflexivity. }
  split.
  { intros d d' Hd Hq Hnot Hd'. apply Hs2; [exact Hd'|].
    assert (Hin : List.In d s).
    { apply (Permutation_in _ (Permutation_sym Hp)). apply List.filter_In. auto. }
    rewrite Hsr in Hin. apply List.in_app_or in Hin. tauto. }
  intros Hnd.
  assert (Hnds : List.NoDup s).
  { apply (Permutation_NoDup (Permutation_sym Hp)). apply List.NoDup_filter. exact Hnd. }
  rewrite Hsr in Hnds. apply List.NoDup_app_remove_r in Hnds. exact Hnds.
Qed.
End SortDesc.

Lemma NoDup_app_disjoint {A : Type} (l1 l2 : list A) :
  List.NoDup l1 -> List.NoDup l2 ->
  (forall d, List.In d l1 -> List.In d l2 -> False) -> List.NoDup (l1 ++ l2).
Proof.
  induction l1 as [|x l1 IH]; intros H1 H2 Hd; [exact H2|].
  simpl. apply List.NoDup_cons_iff in H1. destruct H1 as [Hx H1].
  constructor.
  - intros Hin. apply List.in_app_or in Hin. destruct Hin as [Hin|Hin]; [tauto|].
    apply (Hd x); [left; reflexivity|exact Hin].
  - apply IH; auto. intros d Hd1 Hd2. apply (Hd d); [right; exact Hd1|exact Hd2].
Qed.

Lemma NoDup_map_sublist {A B : Type} (f : A -> B) (c l : list A) :
  List.NoDup (List.map f c) -> (forall d, List.In d l -> List.In d c) ->
  List.NoDup l -> List.NoDup (List.map f l).
Proof.
  intros Hc Hsub. induction l as [|x l IH]; intros Hl; [constructor|].
  simpl. apply List.NoDup_cons_iff in Hl. destruct Hl as [Hx Hl].
  constructor.
  - intros Hin. apply List.in_map_iff in Hin. destruct Hin as [y [Hf Hy]].
    assert (y = x).
    { apply (NoDup_map_inj_in f c y x Hc); [apply Hsub; right; exact Hy| |exact Hf].
      apply Hsub. left. reflexivity. }
    subst y. exact (Hx Hy).
  - apply IH; [|exact Hl]. intros d Hd. apply Hsub. right. exact Hd.
Qed.

Lemma forallb_singleton_pair {A : Type} (f g : A -> bool) (d : A) :
  List.forallb (fun h => h d) ([f] ++ [g]) = f d && g d.
Proof. simpl. rewrite andb_true_r. reflexivity. Qed.

(** X19. The trash list. [GetDeletedTasks] returns tasks of the user that
    are marked deleted, most recently deleted first (ties by descending
    ID); with a non-zero limit it returns the smaller of the limit and the
    number of such tasks, and every deleted task of the user that is left
    out was deleted no later than each task returned. Tasks of other users
    and tasks not marked deleted never appear. *)
Theorem GetDeletedTasks_most_recent (MAX_DELETED_TASKS : Z) (db : Database)
    (userID : ObjectID) :
  let deleted d := (Task.UserID d =? userID) && equals_true (Task.IsDeleted d) in
  exists tasks,
    GetDeletedTasks MAX_DELETED_TASKS db userID = Ok tasks /\
    (forall d, List.In d tasks ->
       List.In d (GetTaskCollection db) /\ Task.UserID d = userID /\
       Task.IsDeleted d = Some true) /\
    StronglySorted (desc_by Task.DeletedAt Task.ID) tasks /\
    Z.of_nat (length tasks) =
      (if MAX_DELETED_TASKS =? 0
       then Z.of_nat (length (List.filter deleted (GetTaskCollection db)))
       else Z.min (Z.abs MAX_DELETED_TASKS)
                  (Z.of_nat (length (List.filter deleted (GetTaskCollection db))))) /\
    (forall d d', List.In d (GetTaskCollection db) -> Task.UserID d = userID ->
       Task.IsDeleted d = Some true -> ~ List.In d tasks -> List.In d' tasks ->
       Task.DeletedAt d <= Task.DeletedAt d').
Proof.
  intros deleted.
  unfold GetDeletedTasks, GetTasks, FindWithCollection.
  eexists. split; [reflexivity|].
  assert (Hq : forall c,
             Find (fun d => List.forallb (fun f => f d)
                              ([fun d0 => Task.UserID d0 =? userID]
                               ++ [fun d0 => equals_true (Task.IsDeleted d0)])) c =
             Find deleted c).
  { intros c. unfold Find. apply List.filter_ext. intros d.
    apply forallb_singleton_pair. }
  rewrite Hq.
  pose proof (SetLimit_sort_desc Task.DeletedAt Task.ID MAX_DELETED_TASKS deleted
                (GetTaskCollection db)) as [H1 [H2 [H3 [H4 _]]]].
  split.
  { intros d Hd. destruct (H1 d Hd) as [Hin Hdel]. split; [exact Hin|].
    unfold deleted in Hdel. apply andb_true_iff in Hdel. destruct Hdel as [Hu Hdl].
    apply Z.eqb_eq in Hu. split; [exact Hu|].
    destruct (Task.IsDeleted d) as [[|]|]; try discriminate Hdl. reflexivity. }
  split; [exact H2|]. split; [exact H3|].
  intros d d' Hd Hu Hdel Hnot Hd'.
  assert (Hdd : deleted d = true).
  { unfold deleted. rewrite Hdel. apply andb_true_iff. split; [|reflexivity].
    apply Z.eqb_eq. exact Hu. }
  specialize (H4 d d' Hd Hdd Hnot Hd'). unfold desc_by in H4. lia.
Qed.

(** X20. The completed list. [GetCompletedTasks] returns first the user's
    completed top-level tasks, most recently completed first and cut at the
    limit, and then every completed subtask of the user, in storage order
    and without a limit: a completed subtask is always returned, whatever
    the limit. The top-level tasks returned are as many as the limit
    allows: all of them with no limit, and otherwise the smaller of the
    limit and their number. Every task returned is a completed
    task of the user that is not marked deleted, and with unique IDs no
    task is returned twice. *)
Theorem GetCompletedTasks_limit_spares_subtasks (MAX_COMPLETED_TASKS : Z)
    (parent_task_id_exists : Task.t -> bool) (db : Database) (userID : ObjectID) :
  let completed d :=
    (Task.UserID d =? userID) && equals_true (Task.IsCompleted d)
    && ne_true (Task.IsDeleted d) in
  exists tasks subtasks,
    GetCompletedTasks MAX_COMPLETED_TASKS parent_task_id_exists db userID =
      Ok (tasks ++ subtasks) /\
    subtasks = List.filter (fun d => completed d && parent_task_id_exists d)
                           (GetTaskCollection db) /\
    (forall d, List.In d tasks ->
       List.In d (GetTaskCollection db) /\ completed d = true /\
       parent_task_id_exists d = false) /\
    StronglySorted (desc_by Task.CompletedAt Task.ID) tasks /\
    Z.of_nat (length tasks) =
      (if MAX_COMPLETED_TASKS =? 0
       then Z.of_nat (length (List.filter
                                (fun d => completed d && negb (parent_task_id_exists d))
                                (GetTaskCollection db)))
       else Z.min (Z.abs MAX_COMPLETED_TASKS)
                  (Z.of_nat (length (List.filter
                                       (fun d => completed d
                                                 && negb (parent_task_id_exists d))
                                       (GetTaskCollection db))))) /\
    (MAX_COMPLETED_TASKS <> 0 -> Z.of_nat (length tasks) <= Z.abs MAX_COMPLETED_TASKS) /\
    (forall d d', List.In d (GetTaskCollection db) -> completed d = true ->
       parent_task_id_exists d = false -> ~ List.In d tasks -> List.In d' tasks ->
       Task.CompletedAt d <= Task.CompletedAt d') /\
    (forall d, List.In d (tasks ++ subtasks) ->
       Task.UserID d = userID /\ Task.IsCompleted d = Some true /\
       Task.IsDeleted d <> Some true) /\
    (List.NoDup (List.map Task.ID (GetTaskCollection db)) ->
     List.NoDup (List.map Task.ID (tasks ++ subtasks))).
Proof.
  intros completed.
  unfold GetCompletedTasks. fold completed.
  set (top := fun d => completed d && negb (parent_task_id_exists d)).
  set (sub := fun d => completed d && parent_task_id_exists d).
  pose proof (SetLimit_sort_desc Task.CompletedAt Task.ID MAX_COMPLETED_TASKS top
                (GetTaskCollection db)) as [H1 [H2 [H3 [H4 H5]]]].
  set (tasks := SetLimit MAX_COMPLETED_TASKS
                  (sort_desc Task.CompletedAt Task.ID (Find top (GetTaskCollection db))))
    in *.
  exists tasks, (List.filter sub (GetTaskCollection db)).
  assert (Hc : forall d, completed d = true ->
                 Task.UserID d = userID /\ Task.IsCompleted d = Some true /\
                 Task.IsDeleted d <> Some true).
  { intros d Hd. unfold completed in Hd.
    apply andb_true_iff in Hd. destruct Hd as [Hd H3'].
    apply andb_true_iff in Hd. destruct Hd as [H1' H2'].
    apply Z.eqb_eq in H1'. split; [exact H1'|]. split.
    - destruct (Task.IsCompleted d) as [[|]|]; try discriminate H2'. reflexivity.
    - intros E. rewrite E in H3'. discriminate H3'. }
  assert (Htop : forall d, List.In d tasks ->
                   List.In d (GetTaskCollection db) /\ completed d = true /\
                   parent_task_id_exists d = false).
  { intros d Hd. destruct (H1 d Hd) as [Hin Ht]. split; [exact Hin|].
    unfold top in Ht. apply andb_true_iff in Ht. destruct Ht as [Ht1 Ht2].
    apply negb_true_iff in Ht2. auto. }
  split; [reflexivity|]. split; [reflexivity|]. split; [exact Htop|].
  split; [exact H2|]. split; [exact H3|]. split.
  { intros Hn. apply Z.eqb_neq in Hn. rewrite Hn in H3. lia. }
  split.
  { intros d d' Hd Hcd Hp Hnot Hd'.
    assert (Ht : top d = true) by (unfold top; rewrite Hcd, Hp; reflexivity).
    specialize (H4 d d' Hd Ht Hnot Hd'). unfold desc_by in H4. lia. }
  split.
  { intros d Hd. apply List.in_app_or in Hd. destruct Hd as [Hd|Hd].
    - apply Hc. apply (Htop d Hd).
    - apply List.filter_In in Hd. destruct Hd as [_ Hd].
      unfold sub in Hd. apply andb_true_iff in Hd. apply Hc. tauto. }
  intros Hnd.
  assert (Hndc : List.NoDup (GetTaskCollection db))
    by (eapply List.NoDup_map_inv; exact Hnd).
  apply (NoDup_map_sublist Task.ID (GetTaskCollection db)).
  - exact Hnd.
  - intros d Hd. apply List.in_app_or in Hd. destruct Hd as [Hd|Hd].
    + apply (Htop d Hd).
    + apply List.filter_In in Hd. tauto.
  - apply NoDup_app_disjoint.
    + apply H5. exact Hndc.
    + apply List.NoDup_filter. exact Hndc.
    + intros d Hd1 Hd2. destruct (Htop d Hd1) as [_ [_ Hp]].
      apply List.filter_In in Hd2. destruct Hd2 as [_ Hd2].
      unfold sub in Hd2. apply andb_true_iff in Hd2. destruct Hd2 as [_ Hd2].
      congruence.
Qed.

(** ** The repository records *)

Section UpdateOneKeeps.
Context {A : Type}.
Variables (q : A -> bool) (u : A -> A).
Hypothesis q_kept : forall d, q d = true -> q (u d) = true.

Lemma UpdateOne_filter_selected (c : list A) :
  length (List.filter q (fst (UpdateOne q u c))) = length (List.filter q c).
Proof.
  induction c as [|x c IH]; [reflexivity|].
  simpl. destruct (q x) eqn:E.
  - simpl. rewrite (q_kept x E). reflexivity.
  - destruct (UpdateOne q u c) as [c' n]. simpl in *. rewrite E. exact IH.
Qed.

Lemma UpdateOne_filter_others (c : list A) :
  List.filter (fun d => negb (q d)) (fst (UpdateOne q u c)) =
  List.filter (fun d => negb (q d)) c.
Proof.
  induction c as [|x c IH]; [reflexivity|].
  simpl. destruct (q x) eqn:E.
  - simpl. rewrite (q_kept x E). reflexivity.
  - destruct (UpdateOne q u c) as [c' n]. simpl in *. rewrite E. simpl.
    f_equal. exact IH.
Qed.

Lemma UpdateOne_find (c : list A) (d : A) :
  List.find q c = Some d -> List.find q (fst (UpdateOne q u c)) = Some (u d).
Proof.
  induction c as [|x c IH]; intros Hf; [discriminate Hf|].
  simpl in *. destruct (q x) eqn:E.
  - injection Hf as <-. simpl. rewrite (q_kept x E). reflexivity.
  - destruct (UpdateOne q u c) as [c' n]. simpl in *. rewrite E. apply IH. exact Hf.
Qed.
End UpdateOneKeeps.

Lemma find_ext_bool {A : Type} (p q : A -> bool) (c : list A) :
  (forall d, p d = q d) -> List.find p c = List.find q c.
Proof.
  intros H. induction c as [|x c IH]; [reflexivity|].
  simpl. rewrite H, IH. reflexivity.
Qed.

Lemma UpdateOne_ext {A : Type} (p q : A -> bool) (u : A -> A) (c : list A) :
  (forall d, p d = q d) -> UpdateOne p u c = UpdateOne q u c.
Proof.
  intros H. induction c as [|x c IH]; [reflexivity|].
  simpl. rewrite H, IH. reflexivity.
Qed.

Lemma filter_none_nil {A : Type} (q : A -> bool) (c : list A) :
  List.find q c = None -> List.filter q c = [].
Proof.
  induction c as [|x c IH]; intros Hf; [reflexivity|].
  simpl in *. destruct (q x); [discriminate Hf|]. apply IH. exact Hf.
Qed.

Lemma filter_negb_all {A : Type} (q : A -> bool) (c : list A) :
  List.find q c = None -> List.filter (fun d => negb (q d)) c = c.
Proof.
  induction c as [|x c IH]; intros Hf; [reflexivity|].
  simpl in *. destruct (q x); [discriminate Hf|]. simpl. f_equal. apply IH. exact Hf.
Qed.

(** X21. Repositories are filed per user, not per account. However often
    [updateOrCreateRepository] runs for a repository and a user, and with
    whichever linked accounts, it adds a record only when none is filed
    under that repository and user, so a second call never adds one; the
    first such record then carries the account, name and link of the
    latest call, and all records filed otherwise stay as they were. *)
Theorem updateOrCreateRepository_per_user (collection : list Doc)
    (repository : GithubRepository) (url1 url2 accountID1 accountID2 : string)
    (userID : ObjectID) :
  let filed (d : Doc) :=
    bool_decide (d !! "repository_id" = Some (VStr (pretty (Repo_ID repository))))
    && bool_decide (d !! "user_id" = Some (VOid userID)) in
  let once := updateOrCreateRepository collection repository url1 accountID1 userID in
  let twice := updateOrCreateRepository once repository url2 accountID2 userID in
  length (List.filter filed once) = Nat.max 1 (length (List.filter filed collection)) /\
  length twice = length once /\
  length (List.filter filed twice) = length (List.filter filed once) /\
  List.filter (fun d => negb (filed d)) twice =
  List.filter (fun d => negb (filed d)) collection /\
  exists d, List.find filed twice = Some d /\
            d !! "account_id" = Some (VStr accountID2) /\
            d !! "full_name" = Some (VStr (Repo_FullName repository)) /\
            d !! "deeplink" = Some (VStr url2).
Proof.
  intros filed once twice.
  set (filters := [FEq "repository_id" (VStr (pretty (Repo_ID repository)));
                   FEq "user_id" (VOid userID)]).
  set (fields := fun (url accountID : string) =>
         (list_to_map [("account_id"%string, VStr accountID);
                       ("full_name"%string, VStr (Repo_FullName repository));
                       ("deeplink"%string, VStr url)] : Doc)).
  assert (Hq : forall d, matchesAll filters d = filed d).
  { intros d. unfold filters, matchesAll, filed. simpl. rewrite andb_true_r. reflexivity. }
  assert (Hfiled : forall d, filed d = true <->
            d !! "repository_id" = Some (VStr (pretty (Repo_ID repository))) /\
            d !! "user_id" = Some (VOid userID)).
  { intros d. unfold filed. rewrite andb_true_iff, !bool_decide_eq_true. tauto. }
  assert (Hkeep : forall url acc d, filed d = true -> filed (fields url acc ∪ d) = true).
  { intros url acc d Hd. apply Hfiled in Hd. destruct Hd as [H1 H2].
    apply Hfiled. rewrite !lookup_union.
    unfold fields. simpl. rewrite !lookup_insert_ne by discriminate.
    rewrite lookup_empty, H1, H2. split; reflexivity. }
  assert (Hfields : forall url acc d,
            (fields url acc ∪ d) !! "account_id" = Some (VStr acc) /\
            (fields url acc ∪ d) !! "full_name" = Some (VStr (Repo_FullName repository)) /\
            (fields url acc ∪ d) !! "deeplink" = Some (VStr url)).
  { intros url acc d. rewrite !lookup_union. unfold fields. simpl.
    rewrite lookup_insert_eq.
    rewrite (lookup_insert_ne _ "account_id" "full_name") by discriminate.
    rewrite lookup_insert_eq.
    rewrite (lookup_insert_ne _ "account_id" "deeplink") by discriminate.
    rewrite (lookup_insert_ne _ "full_name" "deeplink") by discriminate.
    rewrite lookup_insert_eq.
    destruct (d !! "account_id"), (d !! "full_name"), (d !! "deeplink"); auto. }
  assert (Hnew : forall url acc c, filed (upsertDoc filters (fields url acc) c) = true).
  { intros url acc c. apply Hfiled. unfold upsertDoc, filters, fields. simpl.
    rewrite !lookup_union.
    rewrite !lookup_insert_ne by discriminate. rewrite !lookup_empty.
    rewrite lookup_insert_eq.
    rewrite (lookup_insert_ne _ "repository_id" "user_id") by discriminate.
    rewrite lookup_insert_eq. split; reflexivity. }
  assert (Hstep : forall url acc c,
            let c' := UpdateOne_set_upsert filters (fields url acc) c in
            (match List.find filed c with
             | Some d0 => length c' = length c /\
                          length (List.filter filed c') = length (List.filter filed c) /\
                          List.find filed c' = Some (fields url acc ∪ d0)
             | None => length (List.filter filed c') = 1%nat /\
                       List.filter filed c = [] /\
                       List.find filed c' = Some (upsertDoc filters (fields url acc) c)
             end) /\
            List.filter (fun d => negb (filed d)) c' =
            List.filter (fun d => negb (filed d)) c).
  { intros url acc c c'. unfold c', UpdateOne_set_upsert, FindOne.
    rewrite (find_ext_bool _ _ c Hq).
    destruct (List.find filed c) as [d0|] eqn:Ef.
    - rewrite (UpdateOne_ext _ _ _ c Hq). split; [split; [apply UpdateOne_length|split]|].
      + apply UpdateOne_filter_selected. apply Hkeep.
      + apply UpdateOne_find; [apply Hkeep|exact Ef].
      + apply UpdateOne_filter_others. apply Hkeep.
    - rewrite !List.filter_app. simpl. rewrite (Hnew url acc c). simpl.
      rewrite (filter_none_nil _ _ Ef). rewrite List.app_nil_r.
      split; [|reflexivity]. split; [reflexivity|]. split; [reflexivity|].
      rewrite find_app_none by (apply List.find_none; exact Ef).
      simpl. rewrite (Hnew url acc c). reflexivity. }
  pose proof (Hstep url1 accountID1 collection) as [S1 O1].
  pose proof (Hstep url2 accountID2 once) as [S2 O2].
  change (UpdateOne_set_upsert filters (fields url1 accountID1) collection)
    with once in S1, O1.
  change (UpdateOne_set_upsert filters (fields url2 accountID2) once)
    with twice in S2, O2.
  assert (Hfound : exists d1, List.find filed once = Some d1).
  { destruct (List.find filed collection); destruct S1 as [_ [_ S1]]; eauto. }
  destruct Hfound as [d1 Hd1]. rewrite Hd1 in S2. destruct S2 as [L2 [F2 D2]].
  split.
  { destruct (List.find filed collection) as [d0|] eqn:Ef.
    - destruct S1 as [_ [S1 _]]. rewrite S1.
      assert (List.filter filed collection <> []).
      { intros E. apply List.find_some in Ef. destruct Ef as [Hin Hf].
        assert (List.In d0 (List.filter filed collection))
          by (apply List.filter_In; auto).
        rewrite E in H. destruct H. }
      destruct (List.filter filed collection); [congruence|]. simpl. lia.
    - destruct S1 as [S1 [S1' _]]. rewrite S1, S1'. reflexivity. }
  split; [exact L2|]. split; [exact F2|]. split; [rewrite O2; exact O1|].
  exists (fields url2 accountID2 ∪ d1). split; [exact D2|]. apply Hfields.
Qed.

(** ** What a task-modify request is answered and what it leaves behind *)

Lemma ReOrderTask_responses (db : Database) (taskID userID : ObjectID)
    (IDOrdering : option Z) (IDTaskSectionHex : option string) (task : Task.t) :
  let out := ReOrderTask db taskID userID IDOrdering IDTaskSectionHex task in
  (snd out = None /\ snd (fst out) = []) \/
  (snd out <> None /\ snd (fst out) = [Handle404] /\ fst (fst out) = db).
Proof.
  unfold ReOrderTask.
  destruct (ReOrderTask_shift db taskID userID IDOrdering IDTaskSectionHex task).
  - destruct IDOrdering; left; split; reflexivity.
  - right. split; [discriminate|]. split; reflexivity.
Qed.

Lemma UpdateTaskInDB_responses (api : API) (db : Database) (task : Task.t)
    (userID : ObjectID) (updateFields : Task.t) :
  snd (UpdateTaskInDB api db task userID updateFields) = [] \/
  snd (UpdateTaskInDB api db task userID updateFields) = [Handle500].
Proof.
  unfold UpdateTaskInDB.
  destruct (UpdateTaskInDBWithError api db task userID updateFields) as [db' [e|]];
    [right|left]; reflexivity.
Qed.

Lemma TaskModify_update_shape (api : API) (now : DateTime) (db : Database)
    (userID : ObjectID) (task : Task.t) (tsr : TaskSourceResult)
    (fields : TaskItemChangeableFields.t) (dueDate : option DateTime) :
  match TaskModify_update api now db userID task tsr fields dueDate with
  | inl o => (responses o = [Handle500] /\ (length (external_calls o) <= 1)%nat) \/
             (exists msg, o = respond [detail 400 msg] db)
  | inr (db2, rs, calls) => (rs = [] \/ rs = [Handle500]) /\ (length calls <= 1)%nat
  end.
Proof.
  unfold TaskModify_update.
  destruct (match TaskChangeable.RecurringTaskTemplateID
                    (TaskItemChangeableFields.Task_ fields) with
            | Some hex => _ | None => _ end) as [[]|rid].
  { left. split; [reflexivity|simpl; lia]. }
  destruct (negb (String.eqb (Task.SourceID task) TASK_SOURCE_ID_GT_TASK) && _).
  { right. eexists. reflexivity. }
  destruct (match TaskItemChangeableFields.SharedAccess fields with
            | Some s => _ | None => _ end) as [[]|sa].
  { right. eexists. reflexivity. }
  destruct (Source_ModifyTask tsr db userID (Task.SourceAccountID task)
              (Task.IDExternal task) _ task) as [[db1 ut1] [e|]].
  { left. split; [reflexivity|simpl; lia]. }
  match goal with
  | |- context [UpdateTaskInDB api db1 task userID ?u] =>
      pose proof (UpdateTaskInDB_responses api db1 task userID u) as Hrs;
      destruct (UpdateTaskInDB api db1 task userID u) as [db2 rs]
  end.
  simpl in Hrs. split; [exact Hrs|simpl; lia].
Qed.

Lemma TaskModify_update_outcomes (api : API) (now : DateTime) (db : Database)
    (userID : ObjectID) (task : Task.t) (tsr : TaskSourceResult)
    (fields : TaskItemChangeableFields.t) (dueDate : option DateTime) :
  match TaskModify_update api now db userID task tsr fields dueDate with
  | inl o => o = respond [Handle500] db \/
             (exists msg, o = respond [detail 400 msg] db) \/
             (exists db1 call, o = {| responses := [Handle500]; db_after := db1;
                                      external_calls := [call] |})
  | inr (db2, rs, calls) => (rs = [] \/ rs = [Handle500]) /\ exists call, calls = [call]
  end.
Proof.
  unfold TaskModify_update.
  destruct (match TaskChangeable.RecurringTaskTemplateID
                    (TaskItemChangeableFields.Task_ fields) with
            | Some hex => _ | None => _ end) as [[]|rid].
  { left. reflexivity. }
  destruct (negb (String.eqb (Task.SourceID task) TASK_SOURCE_ID_GT_TASK) && _).
  { right. left. eexists. reflexivity. }
  destruct (match TaskItemChangeableFields.SharedAccess fields with
            | Some s => _ | None => _ end) as [[]|sa].
  { right. left. eexists. reflexivity. }
  destruct (Source_ModifyTask tsr db userID (Task.SourceAccountID task)
              (Task.IDExternal task) _ task) as [[db1 ut1] [e|]].
  { right. right. eexists. eexists. reflexivity. }
  match goal with
  | |- context [UpdateTaskInDB api db1 task userID ?u] =>
      pose proof (UpdateTaskInDB_responses api db1 task userID u) as Hrs;
      destruct (UpdateTaskInDB api db1 task userID u) as [db2 rs]
  end.
  simpl in Hrs. split; [exact Hrs|eexists; reflexivity].
Qed.

(** X22. What [TaskModify] answers and what it leaves behind. A JSON
    answer other than the 200 is a 400 or a 404; it is then the only thing
    written, the database is as before and no source has been called. The
    bodiless answers of [Handle404] and [Handle500] are not refusals of
    that kind: they also end a request whose update has been sent to the
    source and stored (the example of a task that its new title hands to
    another user, after which the reordering no longer finds it). In
    every case something is written, in one of six forms; a source is
    called at most once; and without a call to a source the database
    changes only as [ReOrderTask] changes it. *)
Theorem TaskModify_answers_and_effects
    (api : API) (now : DateTime) (db : Database) (c : Request) :
  let out := TaskModify api now db c in
  ((exists code h, responses out = [JSON code h] /\ (code = 400 \/ code = 404)) \/
   responses out = [Handle404] \/ responses out = [Handle500] \/
   responses out = [JSON 200 []] \/ responses out = [Handle500; JSON 200 []] \/
   responses out = [Handle500; Handle404]) /\
  (forall code h, List.In (JSON code h) (responses out) -> code <> 200 ->
     (code = 400 \/ code = 404) /\ responses out = [JSON code h] /\
     db_after out = db /\ external_calls out = []) /\
  (length (external_calls out) <= 1)%nat /\
  (external_calls out = [] ->
   db_after out = db \/
   exists taskID modifyParams task,
     ObjectIDFromHex (Param_task_id c) = Ok taskID /\
     BindJSON c = Ok modifyParams /\
     GetTask db taskID (UserIDFromContext c) = Ok task /\
     db_after out =
       fst (fst (ReOrderTask db taskID (UserIDFromContext c)
                   (TaskModifyParams.IDOrdering modifyParams)
                   (TaskModifyParams.IDTaskSection modifyParams) task))) /\
  (let late := TaskModify assigningAPI 100 reorderDB assignRequest in
   responses late = [Handle404] /\
   List.length (external_calls late) = 1%nat /\
   List.map Task.UserID (tasks reorderDB) = [7; 7; 8] /\
   List.map Task.UserID (tasks (db_after late)) = [8; 7; 8]).
Proof.
  intros out.
  set (P := fun o : Outcome =>
    ((exists code h, responses o = [JSON code h] /\ (code = 400 \/ code = 404)) \/
     responses o = [Handle404] \/ responses o = [Handle500] \/
     responses o = [JSON 200 []] \/ responses o = [Handle500; JSON 200 []] \/
     responses o = [Handle500; Handle404]) /\
    (forall code h, List.In (JSON code h) (responses o) -> code <> 200 ->
       (code = 400 \/ code = 404) /\ responses o = [JSON code h] /\
       db_after o = db /\ external_calls o = []) /\
    (length (external_calls o) <= 1)%nat).
  assert (Hrefuse : forall code h, code = 400 \/ code = 404 ->
                                   P (respond [JSON code h] db)).
  { intros code h Hcode. unfold P. simpl. split; [left; eauto|].
    split; [|lia]. intros code' h' [E|[]] _. injection E as <- <-. auto. }
  assert (Hbare : forall r db1 calls, r = Handle404 \/ r = Handle500 ->
                    (length calls <= 1)%nat ->
                    P {| responses := [r]; db_after := db1; external_calls := calls |}).
  { intros r db1 calls Hr Hc. unfold P. simpl.
    split; [destruct Hr as [-> | ->]; auto|].
    split; [|exact Hc].
    intros code h [E|[]]. destruct Hr as [-> | ->]; discriminate E. }
  assert (Hdone : forall rs rs3 db3 calls,
                    (rs = [] \/ rs = [Handle500]) ->
                    (rs3 = [JSON 200 []] \/ rs3 = [Handle404]) ->
                    (length calls <= 1)%nat ->
                    P {| responses := rs ++ rs3; db_after := db3;
                         external_calls := calls |}).
  { intros rs rs3 db3 calls Hrs Hrs3 Hc. unfold P. simpl.
    split; [destruct Hrs as [-> | ->], Hrs3 as [-> | ->]; simpl; auto 7|].
    split; [|exact Hc].
    intros code h Hin Hne.
    destruct Hrs as [-> | ->], Hrs3 as [-> | ->]; simpl in Hin;
      repeat (destruct Hin as [E|Hin]; [try discriminate E|]); try destruct Hin;
      injection E as E _; congruence. }
  assert (Hmain : P out /\
    (external_calls out = [] ->
     db_after out = db \/
     exists taskID modifyParams task,
       ObjectIDFromHex (Param_task_id c) = Ok taskID /\
       BindJSON c = Ok modifyParams /\
       GetTask db taskID (UserIDFromContext c) = Ok task /\
       db_after out =
         fst (fst (ReOrderTask db taskID (UserIDFromContext c)
                     (TaskModifyParams.IDOrdering modifyParams)
                     (TaskModifyParams.IDTaskSection modifyParams) task)))).
  { unfold out, TaskModify.
    destruct (ObjectIDFromHex (Param_task_id c)) as [taskID|e|];
      try (split; [apply (Hbare Handle404 db []); [auto|simpl; lia]|left; reflexivity]).
    destruct (BindJSON c) as [modifyParams|e|];
      try (split; [apply Hrefuse; auto|left; reflexivity]).
    destruct (match TaskModifyParams.IDTaskSection modifyParams with
              | Some hex => _ | None => false end);
      [split; [apply Hrefuse; auto|left; reflexivity]|].
    destruct (GetTask db taskID (UserIDFromContext c)) as [task|e|] eqn:Htask;
      try (split; [apply Hrefuse; auto|left; reflexivity]).
    destruct (TaskModifyParams.isZero modifyParams);
      [split; [apply Hrefuse; auto|left; reflexivity]|].
    destruct (ExternalConfig_GetSourceResult api (Task.SourceID task)) as [tsr|e|];
      try (split; [apply (Hbare Handle500 db []); [auto|simpl; lia]|left; reflexivity]).
    destruct (ValidateFields now (TaskModifyParams.Fields modifyParams) tsr task)
      as [r|fields] eqn:Ev.
    { apply ValidateFields_response in Ev. destruct Ev as [msg ->].
      split; [apply Hrefuse; auto|left; reflexivity]. }
    destruct (match TaskItemChangeableFields.DueDate fields with
              | None => _ | Some s => _ end) as [r|dueDate] eqn:Ed.
    { assert (r = detail 400 "due_date is not a valid date").
      { destruct (TaskItemChangeableFields.DueDate fields) as [s|]; [|discriminate Ed].
        destruct (time_Parse_YEAR_MONTH_DAY api s), (time_Parse_RFC3339 api s);
          try discriminate Ed; injection Ed as <-; reflexivity. }
      subst r. split; [apply Hrefuse; auto|left; reflexivity]. }
    clear Ed.
    assert (Hup : match (if negb (TaskItemChangeableFields.isZero fields)
                         then TaskModify_update api now db (UserIDFromContext c) task tsr
                                fields dueDate
                         else inr (db, [], [])) with
                  | inl o => o = respond [Handle500] db \/
                             (exists msg, o = respond [detail 400 msg] db) \/
                             (exists db1 call,
                                 o = {| responses := [Handle500]; db_after := db1;
                                        external_calls := [call] |})
                  | inr (db2, rs, calls) =>
                      (rs = [] \/ rs = [Handle500]) /\
                      ((exists call, calls = [call]) \/
                       (calls = [] /\ db2 = db))
                  end).
    { destruct (negb (TaskItemChangeableFields.isZero fields)).
      - pose proof (TaskModify_update_outcomes api now db (UserIDFromContext c) task tsr
                      fields dueDate) as Ho.
        destruct (TaskModify_update api now db (UserIDFromContext c) task tsr
                    fields dueDate) as [o|[[db2 rs] calls]]; [exact Ho|].
        destruct Ho as [Hrs Hc]. split; [exact Hrs|left; exact Hc].
      - split; [left; reflexivity|right; split; reflexivity]. }
    destruct (if negb (TaskItemChangeableFields.isZero fields)
              then TaskModify_update api now db (UserIDFromContext c) task tsr fields dueDate
              else inr (db, [], [])) as [o|[[db2 rs] calls]].
    { destruct Hup as [-> |[[msg ->]|[db1 [call ->]]]].
      - split; [apply (Hbare Handle500 db []); [auto|simpl; lia]|left; reflexivity].
      - split; [apply Hrefuse; auto|left; reflexivity].
      - split; [apply (Hbare Handle500 db1 [call]); [auto|simpl; lia]|].
        intros Hc. discriminate Hc. }
    destruct Hup as [Hrs Hcalls].
    assert (Hlen : (length calls <= 1)%nat).
    { destruct Hcalls as [[call ->]|[-> _]]; simpl; lia. }
    destruct (negb (isnil (TaskModifyParams.IDOrdering modifyParams)) || _).
    - pose proof (ReOrderTask_responses db2 taskID (UserIDFromContext c)
                    (TaskModifyParams.IDOrdering modifyParams)
                    (TaskModifyParams.IDTaskSection modifyParams) task) as Hre.
      destruct (ReOrderTask db2 taskID (UserIDFromContext c)
                  (TaskModifyParams.IDOrdering modifyParams)
                  (TaskModifyParams.IDTaskSection modifyParams) task)
        as [[db3 rs3] e] eqn:Ere.
      simpl in Hre.
      assert (Hno : calls = [] ->
                db3 = fst (fst (ReOrderTask db taskID (UserIDFromContext c)
                                  (TaskModifyParams.IDOrdering modifyParams)
                                  (TaskModifyParams.IDTaskSection modifyParams) task))).
      { intros Hc. destruct Hcalls as [[call ->]|[_ ->]]; [discriminate Hc|].
        rewrite Ere. reflexivity. }
      destruct Hre as [[-> ->]|[He [-> ->]]].
      + split; [simpl; apply Hdone; auto|].
        simpl. intros Hc. right. exists taskID, modifyParams, task.
        split; [reflexivity|]. split; [reflexivity|]. split; [exact Htask|].
        apply Hno. exact Hc.
      + destruct e as [e|]; [|congruence].
        split; [apply Hdone; auto|].
        simpl. intros Hc. right. exists taskID, modifyParams, task.
        split; [reflexivity|]. split; [reflexivity|]. split; [exact Htask|].
        apply Hno. exact Hc.
    - split; [apply Hdone; auto|].
      simpl. intros Hc. left.
      destruct Hcalls as [[call ->]|[_ ->]]; [discriminate Hc|reflexivity]. }
  destruct Hmain as [[H1 [H2 H3]] H4].
  split; [exact H1|]. split; [exact H2|]. split; [exact H3|]. split; [exact H4|].
  vm_compute. repeat split; reflexivity.
Qed.

(** ** Shared-access values *)

Lemma UpdateMany_map_inv {A B : Type} (q : A -> bool) (f : A -> A) (g : A -> B)
    (c : list A) :
  (forall d, g (f d) = g d) -> List.map g (UpdateMany q f c) = List.map g c.
Proof.
  intros Hg. unfold UpdateMany. rewrite List.map_map. apply List.map_ext.
  intros d. destruct (q d); [apply Hg|reflexivity].
Qed.

Lemma updateOrderingIDsV2_from_map_inv {B : Type} (g : Task.t -> B)
    (tasks : list TaskResult) :
  (forall z d, g (Task_set_IDOrdering z d) = g d) ->
  forall orderingID c,
    List.map g (updateOrderingIDsV2_from orderingID tasks c) = List.map g c.
Proof.
  intros Hg. induction tasks as [|t tasks IH]; intros o c; [reflexivity|].
  simpl. rewrite IH. destruct (negb (TR_IDOrdering t =? o)); [|reflexivity].
  apply UpdateOne_map_inv. intros d _ _. apply Hg.
Qed.

(** [ReOrderTask] writes ordering IDs, sections and the reordered mark: no
    task changes its [_id] or its sharing mode. *)
Lemma ReOrderTask_keeps_sharing (db : Database) (taskID userID : ObjectID)
    (IDOrdering : option Z) (IDTaskSectionHex : option string) (task : Task.t) :
  List.map (fun d => (Task.ID d, Task.SharedAccess d))
           (tasks (fst (fst (ReOrderTask db taskID userID IDOrdering
                               IDTaskSectionHex task)))) =
  List.map (fun d => (Task.ID d, Task.SharedAccess d)) (tasks db).
Proof.
  set (g := fun d : Task.t => (Task.ID d, Task.SharedAccess d)).
  unfold ReOrderTask.
  destruct (ReOrderTask_shift db taskID userID IDOrdering IDTaskSectionHex task)
    as [db1|] eqn:Es; [|reflexivity].
  assert (H1 : List.map g (tasks db1) = List.map g (tasks db)).
  { unfold ReOrderTask_shift, GetTaskCollection in Es.
    match type of Es with
    | context [UpdateOne ?q ?f (tasks db)] =>
        pose proof (UpdateOne_map_inv q f g (tasks db)) as HU;
        destruct (UpdateOne q f (tasks db)) as [c1 n]
    end.
    simpl in HU.
    destruct (negb (n =? 1)); [discriminate Es|].
    destruct IDOrdering as [k|]; injection Es as <-; simpl.
    - rewrite UpdateMany_map_inv by reflexivity. apply HU. reflexivity.
    - apply HU. reflexivity. }
  destruct IDOrdering as [k|]; cbn [fst snd]; [|exact H1].
  unfold updateOrderingIDsV2, GetTaskCollection. simpl.
  rewrite updateOrderingIDsV2_from_map_inv by reflexivity. exact H1.
Qed.

Lemma In_map_pair_sharing (c : list Task.t) (i : ObjectID) (a : option SharedAccess) :
  List.In (i, a) (List.map (fun d => (Task.ID d, Task.SharedAccess d)) c) <->
  exists t, List.In t c /\ Task.ID t = i /\ Task.SharedAccess t = a.
Proof.
  rewrite List.in_map_iff. split.
  - intros [t [E Ht]]. injection E as E1 E2. eauto.
  - intros [t [Ht [E1 E2]]]. exists t. rewrite E1, E2. auto.
Qed.

(** The update block of the handler on an accepted sharing mode: the
    source is called once and the stored task ends with the mode. *)
Lemma TaskModify_update_stores_sharing (api : API) (now : DateTime) (db : Database)
    (userID : ObjectID) (task : Task.t) (tsr : TaskSourceResult)
    (fields : TaskItemChangeableFields.t) (dueDate : option DateTime)
    (s : string) (sa : SharedAccess) :
  FindOne (fun d => (Task.ID d =? Task.ID task) && (Task.UserID d =? userID))
          (tasks db) = Some task ->
  Task.SourceID task = TASK_SOURCE_ID_GT_TASK ->
  (forall hex, TaskChangeable.RecurringTaskTemplateID
                 (TaskItemChangeableFields.Task_ fields) = Some hex ->
               exists id, ObjectIDFromHex hex = Ok id) ->
  TaskItemChangeableFields.SharedAccess fields = Some s ->
  TaskModify_sharedAccess s = Some sa ->
  (forall updateTask,
      Source_ModifyTask tsr db userID (Task.SourceAccountID task) (Task.IDExternal task)
        updateTask task = (db, updateTask, None)) ->
  (forall u d a, Task.SharedAccess u = Some a ->
                 Task.SharedAccess (bson_set_Task api u d) = Some a) ->
  (forall u d, Task.ID (bson_set_Task api u d) = Task.ID d) ->
  exists db2 rs,
    TaskModify_update api now db userID task tsr fields dueDate =
      inr (db2, rs, [{| call_accountID := Task.SourceAccountID task;
                        call_issueID := Task.IDExternal task |}]) /\
    rs = [] /\
    exists t, List.In t (tasks db2) /\ Task.ID t = Task.ID task /\
              Task.SharedAccess t = Some sa.
Proof.
  intros Hfind Hsrc Hrec Hs Hparse HMT Hsa Hid.
  unfold TaskModify_update.
  assert (Hr : exists rid,
            match TaskChangeable.RecurringTaskTemplateID
                    (TaskItemChangeableFields.Task_ fields) with
            | Some hex => match ObjectIDFromHex hex with
                          | Ok id => inr id
                          | _ => inl tt
                          end
            | None => inr NilObjectID
            end = inr rid).
  { destruct (TaskChangeable.RecurringTaskTemplateID _) as [hex|]; [|eauto].
    destruct (Hrec hex eq_refl) as [id ->]. eauto. }
  destruct Hr as [rid ->].
  rewrite Hsrc, String.eqb_refl. cbn [negb andb].
  rewrite Hs, Hparse, HMT.
  set (ut := TaskModify_updateTask now fields dueDate rid (Some sa)).
  set (ut2 := match TaskItemChangeableFields.Title fields with
              | Some title =>
                  match getValidExternalOwnerAssignedTask api db userID title with
                  | Ok (assignedUser, tempTitle) =>
                      Task_set_assignee (User.ID assignedUser) IDTaskSectionDefault
                                        (Some tempTitle) ut
                  | _ => ut
                  end
              | None => ut
              end).
  assert (Hut2 : Task.SharedAccess ut2 = Some sa).
  { unfold ut2. destruct (TaskItemChangeableFields.Title fields) as [title|];
      [|reflexivity].
    destruct (getValidExternalOwnerAssignedTask api db userID title) as [[au tt]|e|];
      reflexivity. }
  unfold UpdateTaskInDB, UpdateTaskInDBWithError, GetTaskCollection.
  set (uf := match Task.IsCompleted ut2 with
             | Some isCompleted =>
                 Task_set_statuses
                   (if isCompleted then Task.CompletedStatus task
                    else Task.PreviousStatus task) (Task.Status task) ut2
             | None => ut2
             end).
  assert (Huf : Task.SharedAccess uf = Some sa).
  { unfold uf. destruct (Task.IsCompleted ut2); exact Hut2. }
  set (q := fun d : Task.t => (Task.ID d =? Task.ID task) && (Task.UserID d =? userID)).
  pose proof (UpdateOne_matched q (bson_set_Task api uf) (tasks db)) as Hm.
  pose proof (UpdateOne_first q (bson_set_Task api uf) (tasks db) task Hfind) as Hin.
  destruct (UpdateOne q (bson_set_Task api uf) (tasks db)) as [c2 n].
  simpl in Hm, Hin.
  assert (Hex : List.existsb q (tasks db) = true).
  { apply List.existsb_exists. apply List.find_some in Hfind. eauto. }
  rewrite Hex in Hm. subst n. cbn.
  eexists. eexists. split; [reflexivity|]. split; [reflexivity|].
  exists (bson_set_Task api uf task).
  split; [exact Hin|]. split; [apply Hid|apply Hsa; exact Huf].
Qed.

(** C6 (as amended). For notes the three modes [public], [domain] and
    [meeting_attendees] are the valid shared-access values (and a note
    without a mode also passes the check); for tasks only [public] and
    [domain] are valid: [CheckTaskSharingAccessValid] accepts these two
    alone. [TaskModify], on a General Task task and a request that passes
    the checks that come first, answers a [shared_access] that is neither
    ["public"] nor ["domain"], ["meeting_attendees"] included, with the
    400 "invalid shared access token" and changes nothing; given
    ["public"] or ["domain"] it calls the task's source once and, when
    the source takes the change (the encoding of [$set] writing the
    sharing mode and no [_id]), the task is stored with that mode. *)
Theorem shared_access_values :
  (forall sa, CheckNoteSharingAccessValid (Some sa) = true <->
              sa = SharedAccessPublic \/ sa = SharedAccessDomain \/
              sa = SharedAccessMeetingAttendees) /\
  CheckNoteSharingAccessValid None = true /\
  (forall sa, CheckTaskSharingAccessValid sa = true <->
              sa = SharedAccessDomain \/ sa = SharedAccessPublic) /\
  TaskModify_sharedAccess "public" = Some SharedAccessPublic /\
  TaskModify_sharedAccess "domain" = Some SharedAccessDomain /\
  (forall s, s <> "public"%string -> s <> "domain"%string ->
             TaskModify_sharedAccess s = None) /\
  (forall api now db userID task tsr fields dueDate s,
      Task.SourceID task = TASK_SOURCE_ID_GT_TASK ->
      TaskChangeable.RecurringTaskTemplateID
        (TaskItemChangeableFields.Task_ fields) = None ->
      TaskItemChangeableFields.SharedAccess fields = Some s ->
      s <> "public"%string -> s <> "domain"%string ->
      TaskModify_update api now db userID task tsr fields dueDate =
      inl (respond [detail 400 "invalid shared access token"] db)) /\
  (forall api now db c modifyParams taskID task tsr fields s,
      reachesSharing api now db c modifyParams taskID task tsr fields ->
      TaskItemChangeableFields.SharedAccess (TaskModifyParams.Fields modifyParams)
        = Some s ->
      s <> "public"%string -> s <> "domain"%string ->
      TaskModify api now db c =
      respond [detail 400 "invalid shared access token"] db) /\
  (forall api now db c modifyParams taskID task tsr fields s sa,
      reachesSharing api now db c modifyParams taskID task tsr fields ->
      TaskItemChangeableFields.SharedAccess (TaskModifyParams.Fields modifyParams)
        = Some s ->
      (s = "public"%string /\ sa = SharedAccessPublic \/
       s = "domain"%string /\ sa = SharedAccessDomain) ->
      (forall updateTask,
          Source_ModifyTask tsr db (UserIDFromContext c) (Task.SourceAccountID task)
            (Task.IDExternal task) updateTask task = (db, updateTask, None)) ->
      (forall u d a, Task.SharedAccess u = Some a ->
                     Task.SharedAccess (bson_set_Task api u d) = Some a) ->
      (forall u d, Task.ID (bson_set_Task api u d) = Task.ID d) ->
      let out := TaskModify api now db c in
      external_calls out = [{| call_accountID := Task.SourceAccountID task;
                               call_issueID := Task.IDExternal task |}] /\
      (forall r, List.In r (responses out) -> r = JSON 200 [] \/ r = Handle404) /\
      exists t, List.In t (tasks (db_after out)) /\ Task.ID t = taskID /\
                Task.SharedAccess t = Some sa).
Proof.
  assert (Hparse : forall s, s <> "public"%string -> s <> "domain"%string ->
                             TaskModify_sharedAccess s = None).
  { intros s H1 H2. unfold TaskModify_sharedAccess,
      StringSharedAccessPublic, StringSharedAccessDomain.
    apply String.eqb_neq in H1, H2. rewrite H1, H2. reflexivity. }
  assert (Hupd : forall api now db userID task tsr fields dueDate s,
      Task.SourceID task = TASK_SOURCE_ID_GT_TASK ->
      (forall hex, TaskChangeable.RecurringTaskTemplateID
                     (TaskItemChangeableFields.Task_ fields) = Some hex ->
                   exists id, ObjectIDFromHex hex = Ok id) ->
      TaskItemChangeableFields.SharedAccess fields = Some s ->
      s <> "public"%string -> s <> "domain"%string ->
      TaskModify_update api now db userID task tsr fields dueDate =
      inl (respond [detail 400 "invalid shared access token"] db)).
  { intros api now db userID task tsr fields dueDate s Hsrc Hrec Hs H1 H2.
    unfold TaskModify_update.
    destruct (TaskChangeable.RecurringTaskTemplateID
                (TaskItemChangeableFields.Task_ fields)) as [hex|].
    - destruct (Hrec hex eq_refl) as [id ->].
      rewrite Hsrc, String.eqb_refl. simpl. rewrite Hs, (Hparse s H1 H2). reflexivity.
    - rewrite Hsrc, String.eqb_refl. simpl. rewrite Hs, (Hparse s H1 H2). reflexivity. }
  (* the handler up to the update block *)
  assert (Hreach : forall api now db c modifyParams taskID task tsr fields s,
      reachesSharing api now db c modifyParams taskID task tsr fields ->
      TaskItemChangeableFields.SharedAccess (TaskModifyParams.Fields modifyParams)
        = Some s ->
      TaskItemChangeableFields.SharedAccess fields = Some s /\
      FindOne (fun d => (Task.ID d =? Task.ID task) && (Task.UserID d =? UserIDFromContext c))
              (tasks db) = Some task /\
      Task.ID task = taskID /\
      exists dueDate,
        TaskModify api now db c =
        match TaskModify_update api now db (UserIDFromContext c) task tsr fields dueDate with
        | inl outcome => outcome
        | inr (db2, rs, calls) =>
            if negb (isnil (TaskModifyParams.IDOrdering modifyParams))
               || (negb (isnil (TaskModifyParams.IDTaskSection modifyParams))
                   || negb (Task.ParentTaskID task =? NilObjectID))
            then
              match ReOrderTask db2 taskID (UserIDFromContext c)
                      (TaskModifyParams.IDOrdering modifyParams)
                      (TaskModifyParams.IDTaskSection modifyParams) task with
              | (db3, rs3, Some _) =>
                  {| responses := rs ++ rs3; db_after := db3; external_calls := calls |}
              | (db3, rs3, None) =>
                  {| responses := rs ++ rs3 ++ [JSON 200 []]; db_after := db3;
                     external_calls := calls |}
              end
            else {| responses := rs ++ [JSON 200 []]; db_after := db2;
                    external_calls := calls |}
        end).
  { intros api now db c modifyParams taskID task tsr fields s
      (Hid & Hbind & Hsec & Htask & Hsrc & Htsr & HV & Hdue & Hrec) Hs.
    destruct (ValidateFields_sharing _ _ _ _ _ HV) as [Ha _].
    assert (Hs' : TaskItemChangeableFields.SharedAccess fields = Some s)
      by (rewrite Ha; exact Hs).
    assert (Hfind : FindOne (fun d => (Task.ID d =? taskID)
                                      && (Task.UserID d =? UserIDFromContext c))
                            (tasks db) = Some task).
    { unfold GetTask, FindOneWithCollection_Task, GetTaskCollection, Decode in Htask.
      destruct (FindOne _ (tasks db)) as [d|]; [|discriminate Htask].
      injection Htask as ->. reflexivity. }
    assert (HidT : Task.ID task = taskID).
    { unfold FindOne in Hfind. apply List.find_some in Hfind.
      destruct Hfind as [_ Hq]. apply andb_prop in Hq. destruct Hq as [Hq _].
      apply Z.eqb_eq in Hq. exact Hq. }
    split; [exact Hs'|]. split; [rewrite HidT; exact Hfind|]. split; [exact HidT|].
    assert (Hz : TaskModifyParams.isZero modifyParams = false).
    { unfold TaskModifyParams.isZero.
      rewrite (sharing_set_not_zero (TaskModifyParams.Fields modifyParams)).
      - apply andb_false_r.
      - left. rewrite Hs. discriminate. }
    assert (Hz' : TaskItemChangeableFields.isZero fields = false).
    { apply sharing_set_not_zero. left. rewrite Hs'. discriminate. }
    assert (Hd : exists dueDate,
              match TaskItemChangeableFields.DueDate fields with
              | None => inr None
              | Some s0 =>
                  match time_Parse_YEAR_MONTH_DAY api s0, time_Parse_RFC3339 api s0 with
                  | Ok yearMonthDayDate, _ => inr (Some yearMonthDayDate)
                  | _, Ok rfcDate => inr (Some rfcDate)
                  | _, _ => inl (detail 400 "due_date is not a valid date")
                  end
              end = (inr dueDate : Response + option DateTime)).
    { destruct (TaskItemChangeableFields.DueDate fields) as [s0|]; [|eauto].
      destruct (Hdue s0 eq_refl) as [[t Ht]|[t Ht]]; rewrite Ht; [eauto|].
      destruct (time_Parse_YEAR_MONTH_DAY api s0); eauto. }
    destruct Hd as [dueDate Hd]. exists dueDate.
    unfold TaskModify. rewrite Hid, Hbind.
    assert (Hsec' : match TaskModifyParams.IDTaskSection modifyParams with
                    | Some hex => match ObjectIDFromHex hex with
                                  | Ok _ => false
                                  | _ => true
                                  end
                    | None => false
                    end = false).
    { destruct (TaskModifyParams.IDTaskSection modifyParams) as [hex|]; [|reflexivity].
      destruct (Hsec hex eq_refl) as [id ->]. reflexivity. }
    rewrite Hsec', Htask, Hz, Htsr, HV, Hd, Hz'. reflexivity. }
  split.
  { intros sa. unfold CheckNoteSharingAccessValid.
    destruct sa; simpl; split; intros H; auto;
      try discriminate H; destruct H as [H|[H|H]]; discriminate H. }
  split; [reflexivity|].
  split.
  { intros sa. unfold CheckTaskSharingAccessValid.
    destruct sa; simpl; split; intros H; auto;
      try discriminate H; destruct H as [H|H]; discriminate H. }
  split; [reflexivity|]. split; [reflexivity|].
  split; [exact Hparse|].
  split.
  { intros api now db userID task tsr fields dueDate s Hsrc Hrec Hs H1 H2.
    apply (Hupd api now db userID task tsr fields dueDate s); auto.
    intros hex Hc. rewrite Hrec in Hc. discriminate Hc. }
  split.
  { intros api now db c modifyParams taskID task tsr fields s Hr Hs H1 H2.
    destruct (Hreach _ _ _ _ _ _ _ _ _ _ Hr Hs) as [Hs' [_ [_ [dueDate ->]]]].
    destruct Hr as (_ & _ & _ & _ & Hsrc & _ & _ & _ & Hrec).
    rewrite (Hupd api now db (UserIDFromContext c) task tsr fields dueDate s);
      auto. }
  intros api now db c modifyParams taskID task tsr fields s sa Hr Hs Hmode HMT Hsa Hid out.
  destruct (Hreach _ _ _ _ _ _ _ _ _ _ Hr Hs) as [Hs' [Hfind [HidT [dueDate Hout]]]].
  destruct Hr as (_ & _ & _ & _ & Hsrc & _ & _ & _ & Hrec).
  assert (Hp : TaskModify_sharedAccess s = Some sa).
  { destruct Hmode as [[-> ->]|[-> ->]]; reflexivity. }
  destruct (TaskModify_update_stores_sharing api now db (UserIDFromContext c) task tsr
              fields dueDate s sa Hfind Hsrc Hrec Hs' Hp HMT Hsa Hid)
    as [db2 [rs [Hu [-> [t [Ht [Hti Hts]]]]]]].
  unfold out. rewrite Hout, Hu.
  destruct (negb (isnil (TaskModifyParams.IDOrdering modifyParams)) || _).
  - pose proof (ReOrderTask_keeps_sharing db2 taskID (UserIDFromContext c)
                  (TaskModifyParams.IDOrdering modifyParams)
                  (TaskModifyParams.IDTaskSection modifyParams) task) as Hkeep.
    pose proof (ReOrderTask_responses db2 taskID (UserIDFromContext c)
                  (TaskModifyParams.IDOrdering modifyParams)
                  (TaskModifyParams.IDTaskSection modifyParams) task) as Hre.
    destruct (ReOrderTask db2 taskID (UserIDFromContext c)
                (TaskModifyParams.IDOrdering modifyParams)
                (TaskModifyParams.IDTaskSection modifyParams) task) as [[db3 rs3] e].
    simpl in Hkeep, Hre.
    assert (Hstored : exists t', List.In t' (tasks db3) /\ Task.ID t' = taskID /\
                                 Task.SharedAccess t' = Some sa).
    { apply In_map_pair_sharing. rewrite Hkeep. apply In_map_pair_sharing.
      exists t. rewrite <- HidT. auto. }
    destruct e as [e|]; simpl.
    + split; [reflexivity|]. split; [|exact Hstored].
      destruct Hre as [[Hc _]|[_ [-> _]]]; [discriminate Hc|].
      intros r [<-|[]]. right. reflexivity.
    + split; [reflexivity|]. split; [|exact Hstored].
      destruct Hre as [[_ ->]|[Hc _]]; [|congruence].
      intros r [<-|[]]. left. reflexivity.
  - simpl. split; [reflexivity|]. split.
    + intros r [<-|[]]. left. reflexivity.
    + exists t. rewrite <- HidT. auto.
Qed.

Lemma shared_access_values_witness :
  let c := shareRequest None in
  let task := exampleTask 1 7 3 1 0 TASK_SOURCE_ID_GT_TASK in
  reachesSharing sharingAPI 100 reorderDB c
    (TaskModifyParams.mk None None (shareFields None)) 1 task exampleSource
    (shareFields None) /\
  exists t, List.In t (tasks (db_after (TaskModify sharingAPI 100 reorderDB c))) /\
            Task.ID t = 1 /\ Task.SharedAccess t = Some SharedAccessPublic.
Proof.
  intros c task.
  assert (Hr : reachesSharing sharingAPI 100 reorderDB c
                 (TaskModifyParams.mk None None (shareFields None)) 1 task exampleSource
                 (shareFields None)).
  { unfold reachesSharing.
    split; [vm_compute; reflexivity|]. split; [reflexivity|].
    split; [intros hex Hc; discriminate Hc|]. split; [reflexivity|].
    split; [reflexivity|]. split; [reflexivity|].
    split; [vm_compute; reflexivity|].
    split; intros x Hc; discriminate Hc. }
  split; [exact Hr|].
  apply (proj2 (proj2 (proj2 (proj2 (proj2 (proj2 (proj2 (proj2 shared_access_values)))))))
           sharingAPI 100 reorderDB c (TaskModifyParams.mk None None (shareFields None))
           1 task exampleSource (shareFields None) "public"%string SharedAccessPublic Hr
           eq_refl (or_introl (conj eq_refl eq_refl))).
  - intros updateTask. reflexivity.
  - intros u d a Hu. simpl. rewrite Hu. reflexivity.
  - intros u d. simpl. destruct (Task.SharedAccess u); reflexivity.
Defined.

(** C6, the claim as written, fails for tasks: [meeting_attendees] is
    not a valid shared-access value of a task, neither for the check nor
    for the endpoint. *)
Lemma task_sharing_rejects_meeting_attendees :
  CheckTaskSharingAccessValid SharedAccessMeetingAttendees = false /\
  TaskModify_sharedAccess "meeting_attendees" = None /\
  CheckNoteSharingAccessValid (Some SharedAccessMeetingAttendees) = true.
Proof. repeat split; reflexivity. Qed.
